(** * catalyst-stats-action: trigger, poll, transform, write

    A shallow embedding of the action's control flow.  The canonical
    program is the two-endpoint, query-encoded variant (the TypeScript
    source with [makeRequest], [pollUntilComplete], [transformData] and
    [main]; [dist/index.js] is its compiled form without the transform
    step; its [main] is [Dist.main]).  The older single-endpoint,
    body-encoded variant lives in [Module Draft]: its poller is the one
    of [src/index.js] and of [src/src/index.ts], its [main] the one of
    [src/index.js]; [draft_ts_main] is the [main] of [src/src/index.ts],
    which checks its inputs first.

    Modelling conventions.
    - A JavaScript value of type [any] is a [value]; an absent property
      reads as [VUndefined].  Numbers are the integer-valued ones, as [Z].
    - A string is the sequence of its UTF-8 bytes; a lone surrogate,
      which a JavaScript string can hold, is the three bytes of
      generalized UTF-8 (see [well_formed]).  The poller and [main] are
      stated for identifier strings without one, which is all that an
      environment variable can hold; [pollUntilComplete_any] adds what
      happens on the other strings.
    - [maxRetries] is a number of attempts, a [nat]: a whole number that
      the loop counter, a double, counts up to (at most 2^53);
      [pollUntilComplete_number] adds what happens on a rational number
      that is not whole.
    - A timer armed for less than 1 ms or more than 2147483647 ms fires
      after 1 ms ([timer_delay]).
    - The remote service, the clock and the file system form the [state]
      that every effectful function threads: the service is an oracle
      giving the answer to the n-th request issued, the clock advances by
      request latencies and timer delays, and every request, timer and
      file operation is appended to a chronological [trace].
    - [throw] / [try ... catch] are the [Throw] outcome and [try_catch].
    - Console logging has no influence on control flow and is left out. *)

From Stdlib Require Import ZArith NArith List String Ascii Bool Lia.
From Stdlib Require QArith_base Qround.
Import ListNotations.
Local Open Scope list_scope.
Local Open Scope string_scope.

(** ** JavaScript values *)

#[local] Set Warnings "-register-all".

Inductive value : Type :=
| VUndefined
| VNull
| VBool (b : bool)
| VNum (n : Z)
| VStr (s : string)
| VArr (items : list value)
| VObj (fields : list (string * value)).

(** Errors carry the constructor that made them and their message. *)
Inductive exn : Type :=
| Error (message : string)
| TypeError (message : string)
| SyntaxError (message : string)
| URIError (message : string).

Inductive outcome (A : Type) : Type :=
| Ok (a : A)
| Throw (e : exn).
Arguments Ok {A} a.
Arguments Throw {A} e.

(** ToBoolean: [undefined], [null], [false], [0] and [''] are falsy. *)
Definition truthy (v : value) : bool :=
  match v with
  | VUndefined | VNull => false
  | VBool b => b
  | VNum n => negb (n =? 0)%Z
  | VStr s => negb (s =? EmptyString)
  | VArr _ | VObj _ => true
  end.

(** [a || b]: the left operand when it is truthy, else the right one. *)
Definition js_or (a b : value) : value := if truthy a then a else b.

(** [v === 'literal']. *)
Definition is_string (v : value) (lit : string) : bool :=
  match v with
  | VStr s => (s =? lit)
  | _ => false
  end.

(** [v === true]. *)
Definition is_true (v : value) : bool :=
  match v with
  | VBool true => true
  | _ => false
  end.

(** Own-property lookup in an object's property list (each key occurs
    once; the first binding is the property). *)
Fixpoint lookup (k : string) (fields : list (string * value)) : value :=
  match fields with
  | [] => VUndefined
  | (k', v) :: rest => if (k =? k') then v else lookup k rest
  end.

(** [v.k] for the property names this program reads (none of them is an
    inherited property of a primitive or of an array): a [TypeError] on
    [null] and [undefined], the own property of an object, [undefined]
    on anything else. *)
Definition get_prop (v : value) (k : string) : outcome value :=
  match v with
  | VUndefined =>
      Throw (TypeError ("Cannot read properties of undefined (reading '" ++ k ++ "')"))
  | VNull =>
      Throw (TypeError ("Cannot read properties of null (reading '" ++ k ++ "')"))
  | VObj fields => Ok (lookup k fields)
  | _ => Ok VUndefined
  end.

Definition nullish (v : value) : bool :=
  match v with
  | VUndefined | VNull => true
  | _ => false
  end.

(** The same read on a value known not to be [null] or [undefined]. *)
Definition prop (v : value) (k : string) : value :=
  match v with
  | VObj fields => lookup k fields
  | _ => VUndefined
  end.

(** ** The world: remote service, clock, file system *)

Inductive method : Type := GET | POST.

Record request : Type := mkRequest {
  req_method : method;
  req_url : string;
  req_body : option string
}.

(** The body of a response as the runtime classifies its text: blank
    ([!text || text.trim() === '']), text that [JSON.parse] accepts
    (with the parsed value), any other text, or a body whose download
    failed. *)
Inductive body : Type :=
| BodyBlank
| BodyJson (data : value)
| BodyText (text : string)
| BodyAborted (reason : string).

Record response : Type := mkResponse {
  status : nat;
  statusText : string;
  res_body : body
}.

(** What the service does with a request: the connection fails, or a
    response arrives. *)
Inductive reply : Type :=
| NetworkError (reason : string)
| Response (res : response).

Record answer : Type := mkAnswer {
  latency : N;
  payload : reply
}.

Inductive fs_op : Type :=
| Mkdir (path : string)
| WriteFile (path : string) (data : value).

Inductive event : Type :=
| EvRequest (r : request)
| EvSleep (ms : Z)
| EvFs (op : fs_op).

Record state : Type := mkState {
  server : nat -> answer;      (* the answer to the n-th request issued *)
  disk : fs_op -> bool;        (* whether a file operation succeeds *)
  calls : nat;                 (* requests issued so far *)
  now : Z;                     (* wall clock, ms since the epoch *)
  trace : list event           (* what has happened, oldest first *)
}.

(** ** A state-and-exception monad *)

Definition M (A : Type) : Type := state -> outcome A * state.

Definition ret {A} (a : A) : M A := fun s => (Ok a, s).

Definition throw {A} (e : exn) : M A := fun s => (Throw e, s).

Definition bind {A B} (m : M A) (k : A -> M B) : M B :=
  fun s =>
    match m s with
    | (Ok a, s') => k a s'
    | (Throw e, s') => (Throw e, s')
    end.

Definition try_catch {A} (m : M A) (handler : exn -> M A) : M A :=
  fun s =>
    match m s with
    | (Ok a, s') => (Ok a, s')
    | (Throw e, s') => handler e s'
    end.

Definition lift {A} (o : outcome A) : M A := fun s => (o, s).

Notation "x <- m ;; k" := (bind m (fun x => k))
  (at level 61, m at next level, right associativity).
Notation "m ;;; k" := (bind m (fun _ => k))
  (at level 61, right associativity).

(** [record ev s]: the state once [ev] has happened. *)
Definition record (ev : event) (s : state) : state :=
  mkState (server s) (disk s) (calls s) (now s) (trace s ++ [ev])%list.

Definition advance (ms : Z) (s : state) : state :=
  mkState (server s) (disk s) (calls s) (now s + ms) (trace s).

Definition next_call (s : state) : state :=
  mkState (server s) (disk s) (S (calls s)) (now s) (trace s).

(** The state once a request has gone out and its answer has come back
    after its latency. *)
Definition sent (r : request) (s : state) : state :=
  advance (Z.of_N (latency (server s (calls s))))
          (next_call (record (EvRequest r) s)).

(** The delay [setTimeout] arms a timer for: a delay below 1 or above
    2147483647 is set to 1. *)
Definition timer_delay (ms : Z) : Z :=
  if ((ms <? 1) || (2147483647 <? ms))%Z then 1%Z else ms.

(** The state once a timer of [ms] has fired, after the delay it was
    armed for. *)
Definition waited (ms : Z) (s : state) : state :=
  advance (timer_delay ms) (record (EvSleep ms) s).

(** [const sleep = ms => new Promise(resolve => setTimeout(resolve, ms))]. *)
Definition sleep (ms : Z) : M unit :=
  fun s => (Ok tt, waited ms s).

(** [await fetch(url, options)]: rejects when the connection fails. *)
Definition fetch (r : request) : M response :=
  fun s =>
    match payload (server s (calls s)) with
    | NetworkError reason => (Throw (TypeError reason), sent r s)
    | Response res => (Ok res, sent r s)
    end.

(** [new Date().toISOString()] reads the clock (see [toISOString]). *)
Definition Date_now : M Z := fun s => (Ok (now s), s).

Definition fs_do (op : fs_op) : M unit :=
  fun s =>
    let s' := record (EvFs op) s in
    if disk s op then (Ok tt, s')
    else (Throw (Error "file system operation failed"), s').

(** ** Strings: decimal numerals, percent-encoding *)

Definition digit (n : N) : ascii := ascii_of_N (48 + n).

(** [width] decimal digits of [z], most significant first. *)
Fixpoint pad (width : nat) (z : Z) : string :=
  match width with
  | O => EmptyString
  | S w => pad w (z / 10) ++ String (digit (Z.to_N (z mod 10))) EmptyString
  end.

Fixpoint decimal_digits (fuel : nat) (n : N) : string :=
  match fuel with
  | O => EmptyString
  | S fuel' =>
      (if (n <? 10)%N then EmptyString else decimal_digits fuel' (n / 10))
        ++ String (digit (n mod 10)) EmptyString
  end.

(** [String(n)] for a natural number. *)
Definition string_of_nat (n : nat) : string :=
  decimal_digits (S n) (N.of_nat n).

(** The characters [encodeURIComponent] leaves alone:
    [A-Z a-z 0-9 - _ . ! ~ * ' ( )]. *)
Definition unreserved (c : ascii) : bool :=
  let n := N_of_ascii c in
  ((65 <=? n) && (n <=? 90) || (97 <=? n) && (n <=? 122)
   || (48 <=? n) && (n <=? 57)
   || (n =? 45) || (n =? 95) || (n =? 46) || (n =? 33) || (n =? 126)
   || (n =? 42) || (n =? 39) || (n =? 40) || (n =? 41))%N.

Definition hex_upper (n : N) : ascii :=
  if (n <? 10)%N then ascii_of_N (48 + n) else ascii_of_N (55 + n).

(** [encodeURIComponent(s)] on the UTF-8 bytes of [s]: every byte
    outside the unreserved set becomes [%XX]. *)
Fixpoint encodeURIComponent (s : string) : string :=
  match s with
  | EmptyString => EmptyString
  | String c rest =>
      if unreserved c then String c (encodeURIComponent rest)
      else
        let n := N_of_ascii c in
        String "%" (String (hex_upper (n / 16))
                      (String (hex_upper (n mod 16)) (encodeURIComponent rest)))
  end.

(** [Date.prototype.toISOString]: [YYYY-MM-DDTHH:mm:ss.sssZ], with the
    expanded six-digit signed year outside 0..9999. *)
Definition toISOString (t : Z) : string :=
  let days := (t / 86400000)%Z in
  let ms := (t mod 86400000)%Z in
  let z := (days + 719468)%Z in
  let era := (z / 146097)%Z in
  let doe := (z mod 146097)%Z in
  let yoe := ((doe - doe / 1460 + doe / 36524 - doe / 146096) / 365)%Z in
  let doy := (doe - (365 * yoe + yoe / 4 - yoe / 100))%Z in
  let mp := ((5 * doy + 2) / 153)%Z in
  let d := (doy - (153 * mp + 2) / 5 + 1)%Z in
  let m := (if mp <? 10 then mp + 3 else mp - 9)%Z in
  let y := (yoe + era * 400 + (if m <=? 2 then 1 else 0))%Z in
  let year :=
    if ((0 <=? y) && (y <=? 9999))%Z then pad 4 y
    else (if (y <? 0)%Z then "-" else "+") ++ pad 6 (Z.abs y) in
  year ++ "-" ++ pad 2 m ++ "-" ++ pad 2 d ++ "T"
    ++ pad 2 (ms / 3600000) ++ ":" ++ pad 2 (ms / 60000 mod 60) ++ ":"
    ++ pad 2 (ms / 1000 mod 60) ++ "." ++ pad 3 (ms mod 1000) ++ "Z".

(** ** Configuration *)

Definition triggerUrl : string :=
  "https://glittering-chebakia-09bd42.netlify.app/.netlify/functions/catalyst-proposals-background".
Definition statusUrl : string :=
  "https://glittering-chebakia-09bd42.netlify.app/api/catalyst/status".
Definition proposalsUrl : string :=
  "https://glittering-chebakia-09bd42.netlify.app/api/catalyst/proposals".

Definition default_output_file : string := "data/catalyst-stats/stats.json".
Definition default_maxRetries : nat := 30.
Definition default_interval : Z := 10000.

(** ** makeRequest *)

(** [response.ok]: the status is in the range 200-299. *)
Definition ok (res : response) : bool :=
  (200 <=? status res)%nat && (status res <=? 299)%nat.

(** What [makeRequest] returns for the body of a 2xx response: the
    parsed JSON, or a stand-in object when the text is blank or is not
    JSON. *)
Definition response_data (b : body) : outcome value :=
  match b with
  | BodyAborted reason => Throw (TypeError reason)
  | BodyBlank =>
      Ok (VObj [("success", VBool true); ("message", VStr "Empty response")])
  | BodyJson data => Ok data
  | BodyText text =>
      Ok (VObj [("success", VBool true); ("message", VStr "Non-JSON response");
                ("raw", VStr text)])
  end.

(** [makeRequest(url, options)]; its outer [catch] only logs and
    rethrows. *)
Definition makeRequest (url : string) (m : method) : M value :=
  res <- fetch (mkRequest m url None) ;;
  if negb (ok res)
  then throw (Error ("HTTP " ++ string_of_nat (status res) ++ ": " ++ statusText res))
  else lift (response_data (res_body res)).

(** ** pollUntilComplete *)

Definition with_ids (url ids : string) : string :=
  url ++ "?projectIds=" ++ encodeURIComponent ids.

(** [statusData.hasData &&
     (statusData.status === 'completed' || statusData.status === 'partial')]
    as a condition; reading [hasData] throws on [null]. *)
Definition completion_predicate (statusData : value) : outcome bool :=
  match get_prop statusData "hasData" with
  | Throw e => Throw e
  | Ok hasData =>
      Ok (truthy hasData
          && (is_string (prop statusData "status") "completed"
              || is_string (prop statusData "status") "partial"))
  end.

(** The [try] block of the loop body: [Some v] is [return v], [None]
    falls through to the next iteration. *)
Definition poll_try (ids : string) (interval : Z) : M (option value) :=
  statusData <- makeRequest (with_ids statusUrl ids) GET ;;
  complete <- lift (completion_predicate statusData) ;;
  if complete : bool then
    proposalsData <- makeRequest (with_ids proposalsUrl ids) GET ;;
    proposals <- lift (get_prop proposalsData "proposals") ;;
    ret (Some proposals)
  else
    sleep interval ;;;
    ret None.

(** The [catch] block of the loop body. *)
Definition poll_catch (maxRetries : nat) (interval : Z) (attempt : nat)
    (error : exn) : M (option value) :=
  if (attempt =? maxRetries - 1)%nat
  then throw (Error "Polling timed out after all attempts.")
  else sleep interval ;;; ret None.

(** One iteration of the loop body. *)
Definition poll_attempt (ids : string) (maxRetries : nat) (interval : Z)
    (attempt : nat) : M (option value) :=
  try_catch (poll_try ids interval) (poll_catch maxRetries interval attempt).

(** [for (let attempt = ...; attempt < maxRetries; attempt++) body], then
    [throw new Error('Polling timed out.')]; [remaining] is
    [maxRetries - attempt], the iterations the loop guard still allows. *)
Fixpoint poll_loop (ids : string) (maxRetries : nat) (interval : Z)
    (remaining attempt : nat) : M value :=
  match remaining with
  | O => throw (Error "Polling timed out.")
  | S remaining' =>
      r <- poll_attempt ids maxRetries interval attempt ;;
      match r with
      | Some v => ret v
      | None => poll_loop ids maxRetries interval remaining' (S attempt)
      end
  end.

Definition pollUntilComplete (ids : string) (maxRetries : nat) (interval : Z)
    : M value :=
  poll_loop ids maxRetries interval maxRetries 0.

(** ** transformData *)

(** The callback of [rawData.map]. *)
Definition transformProject (project : value) : outcome value :=
  match get_prop project "milestones_completed" with
  | Throw e => Throw e
  | Ok milestones_completed =>
      let milestonesCompleted :=
        js_or (js_or milestones_completed (prop project "completed_milestones"))
              (VNum 0) in
      Ok (VObj
            [("projectDetails",
              VObj [("id", prop project "id");
                    ("title", prop project "title");
                    ("budget", prop project "budget");
                    ("milestones_qty", prop project "milestones_qty");
                    ("funds_distributed", prop project "funds_distributed");
                    ("project_id", prop project "project_id");
                    ("challenges", prop project "challenges");
                    ("name", prop project "name");
                    ("category", prop project "category");
                    ("url", prop project "url");
                    ("status", prop project "status");
                    ("finished", prop project "finished");
                    ("voting", prop project "voting")]);
             ("milestonesCompleted", milestonesCompleted)])
  end.

(** [Array.prototype.map] with a callback that may throw: elements are
    visited in order and the first exception ends the traversal. *)
Fixpoint map_outcome {A B} (f : A -> outcome B) (l : list A)
    : outcome (list B) :=
  match l with
  | [] => Ok []
  | x :: rest =>
      match f x with
      | Throw e => Throw e
      | Ok y =>
          match map_outcome f rest with
          | Throw e => Throw e
          | Ok ys => Ok (y :: ys)
          end
      end
  end.

(** [rawData.map(callback)]: only an array has [map]. *)
Definition array_map (f : value -> outcome value) (rawData : value)
    : outcome value :=
  match rawData with
  | VArr items =>
      match map_outcome f items with
      | Throw e => Throw e
      | Ok projects => Ok (VArr projects)
      end
  | VUndefined =>
      Throw (TypeError "Cannot read properties of undefined (reading 'map')")
  | VNull =>
      Throw (TypeError "Cannot read properties of null (reading 'map')")
  | _ => Throw (TypeError "rawData.map is not a function")
  end.

Definition transformData (rawData : value) : M value :=
  t <- Date_now ;;
  let timestamp := toISOString t in
  projects <- lift (array_map transformProject rawData) ;;
  ret (VObj [("timestamp", VStr timestamp); ("projects", projects)]).

(** ** main *)

(** The [try] block of step 1: one POST to the trigger endpoint, then the
    read of [functionResponse.success] (whose value is only logged). *)
Definition trigger (projectIds : string) : M unit :=
  functionResponse <- makeRequest (with_ids triggerUrl projectIds) POST ;;
  _ <- lift (get_prop functionResponse "success") ;;
  ret tt.

(** Steps 2 and 3. *)
Definition collect (projectIds : string) : M value :=
  rawResults <- pollUntilComplete projectIds default_maxRetries default_interval ;;
  transformData rawResults.

(** Step 4; [Mkdir file] creates the directory of [file] with its
    parents, [WriteFile file doc] writes the pretty-printed [doc]. *)
Definition write_results (OUTPUT_FILE : string) (doc : value) : M unit :=
  fs_do (Mkdir OUTPUT_FILE) ;;;
  fs_do (WriteFile OUTPUT_FILE doc).

(** [main().catch(err => process.exit(1))]: the result is the exit code
    of the process.  Both [catch] blocks of [main] and the [catch] on its
    promise call [process.exit(1)]. *)
Definition main (projectIds OUTPUT_FILE : string) (s : state) : nat * state :=
  match trigger projectIds s with
  | (Throw _, s1) => (1%nat, s1)
  | (Ok _, s1) =>
      match collect projectIds s1 with
      | (Throw _, s2) => (1%nat, s2)
      | (Ok transformedResults, s2) =>
          match write_results OUTPUT_FILE transformedResults s2 with
          | (Throw _, s3) => (1%nat, s3)
          | (Ok _, s3) => (0%nat, s3)
          end
      end
  end.

(** The module body: configuration from the environment, the check of
    the required input, then [main]. *)
Definition run (INPUT_PROJECT_IDS INPUT_OUTPUT_FILE : option string)
    (s : state) : nat * state :=
  let OUTPUT_FILE :=
    match INPUT_OUTPUT_FILE with
    | Some f => if (f =? EmptyString) then default_output_file else f
    | None => default_output_file
    end in
  match INPUT_PROJECT_IDS with
  | None => (1%nat, s)
  | Some PROJECT_IDS =>
      if (PROJECT_IDS =? EmptyString) then (1%nat, s)
      else main PROJECT_IDS OUTPUT_FILE s
  end.

(** ** The body-encoded draft

    [pollUntilComplete] as in [src/index.js] and [src/src/index.ts],
    [main] as in [src/index.js]. *)

Definition dquote : ascii := ascii_of_N 34.
Definition backslash : ascii := ascii_of_N 92.

Definition hex_lower (n : N) : ascii :=
  if (n <? 10)%N then ascii_of_N (48 + n) else ascii_of_N (87 + n).

(** [s.split(',')]: the segments between separators, never an empty
    list. *)
Fixpoint split (sep : ascii) (s : string) : list string :=
  match s with
  | EmptyString => [EmptyString]
  | String c rest =>
      if Ascii.eqb c sep then EmptyString :: split sep rest
      else
        match split sep rest with
        | [] => [String c EmptyString]
        | seg :: segs => String c seg :: segs
        end
  end.

(** How [JSON.stringify] writes one character of a string. *)
Definition json_escape (c : ascii) : string :=
  let n := N_of_ascii c in
  if (n =? 34)%N then String backslash (String dquote EmptyString)
  else if (n =? 92)%N then String backslash (String backslash EmptyString)
  else if (n =? 8)%N then String backslash "b"
  else if (n =? 12)%N then String backslash "f"
  else if (n =? 10)%N then String backslash "n"
  else if (n =? 13)%N then String backslash "r"
  else if (n =? 9)%N then String backslash "t"
  else if (n <? 32)%N then
    String backslash
      (String "u" (String "0" (String "0"
         (String (hex_lower (n / 16)) (String (hex_lower (n mod 16)) EmptyString)))))
  else String c EmptyString.

Fixpoint json_escape_all (s : string) : string :=
  match s with
  | EmptyString => EmptyString
  | String c rest => json_escape c ++ json_escape_all rest
  end.

(** [JSON.stringify(s)] for a string. *)
Definition json_quote (s : string) : string :=
  String dquote (json_escape_all s ++ String dquote EmptyString).

Fixpoint join (sep : string) (l : list string) : string :=
  match l with
  | [] => EmptyString
  | [x] => x
  | x :: rest => x ++ sep ++ join sep rest
  end.

(** [JSON.stringify({ projectIds: ids })] for an array of strings. *)
Definition stringify_projectIds (ids : list string) : string :=
  "{" ++ json_quote "projectIds" ++ ":[" ++ join "," (map json_quote ids) ++ "]}".

Module Draft.

Definition triggerUrl : string :=
  "https://your-site.netlify.app/.netlify/functions/processProjects".
Definition pollUrl : string :=
  "https://your-site.netlify.app/api/projectStatus".

(** [await res.json()]: a body that is not JSON is an exception; the
    text of its message is the runtime's, the ones here stand for it. *)
Definition json (b : body) : outcome value :=
  match b with
  | BodyJson data => Ok data
  | BodyBlank => Throw (SyntaxError "Unexpected end of JSON input")
  | BodyText _ => Throw (SyntaxError "Unexpected token in JSON")
  | BodyAborted reason => Throw (TypeError reason)
  end.

(** One iteration of the draft's loop body; it has no [try]. *)
Definition poll_attempt (ids : string) (interval : Z) : M (option value) :=
  res <- fetch (mkRequest GET (pollUrl ++ "?ids=" ++ encodeURIComponent ids) None) ;;
  if negb (ok res) then throw (Error ("Polling failed: " ++ statusText res))
  else
    data <- lift (json (res_body res)) ;;
    data_status <- lift (get_prop data "status") ;;
    if is_string data_status "completed" then ret (Some (prop data "results"))
    else sleep interval ;;; ret None.

Fixpoint poll_loop (ids : string) (interval : Z) (remaining : nat) : M value :=
  match remaining with
  | O => throw (Error "Polling timed out.")
  | S remaining' =>
      r <- poll_attempt ids interval ;;
      match r with
      | Some v => ret v
      | None => poll_loop ids interval remaining'
      end
  end.

Definition pollUntilComplete (ids : string) (maxRetries : nat) (interval : Z)
    : M value :=
  poll_loop ids interval maxRetries.

Definition trigger_request (projectIds : string) : request :=
  mkRequest POST triggerUrl
    (Some (stringify_projectIds (split "," projectIds))).

Definition trigger (projectIds : string) : M unit :=
  triggerRes <- fetch (trigger_request projectIds) ;;
  if negb (ok triggerRes)
  then throw (Error ("Trigger failed: " ++ statusText triggerRes))
  else ret tt.

(** [JSON.stringify(undefined)] is [undefined], which [fs.writeFile]
    rejects. *)
Definition write_results (outputFile : string) (results : value) : M unit :=
  fs_do (Mkdir outputFile) ;;;
  match results with
  | VUndefined => throw (TypeError "The data argument must be of type string")
  | _ => fs_do (WriteFile outputFile results)
  end.

(** [main] of [src/index.js] with [main().catch(err => process.exit(1))],
    for inputs that are set. *)
Definition main (projectIds outputFile : string) (s : state) : nat * state :=
  match (trigger projectIds ;;;
         results <- pollUntilComplete projectIds default_maxRetries default_interval ;;
         write_results outputFile results) s with
  | (Throw _, s') => (1%nat, s')
  | (Ok _, s') => (0%nat, s')
  end.

End Draft.

(** ** The receiving side of the trigger request

    The service is not part of this program; these are the standard
    readers of what the trigger request carries: the first query
    parameter of a URL with [decodeURIComponent], and the compact JSON
    text of an object holding one array of strings. *)

Definition unhex (c : ascii) : option N :=
  let n := N_of_ascii c in
  if ((48 <=? n) && (n <=? 57))%N then Some (n - 48)%N
  else if ((65 <=? n) && (n <=? 70))%N then Some (n - 55)%N
  else if ((97 <=? n) && (n <=? 102))%N then Some (n - 87)%N
  else None.

(** [decodeURIComponent] on bytes; [None] is its [URIError]. *)
Fixpoint decodeURIComponent (s : string) : option string :=
  match s with
  | EmptyString => Some EmptyString
  | String c rest =>
      if Ascii.eqb c "%" then
        match rest with
        | String h (String l rest') =>
            match unhex h, unhex l, decodeURIComponent rest' with
            | Some a, Some b, Some tail =>
                Some (String (ascii_of_N (16 * a + b)) tail)
            | _, _, _ => None
            end
        | _ => None
        end
      else
        match decodeURIComponent rest with
        | Some tail => Some (String c tail)
        | None => None
        end
  end.

Fixpoint after_char (c : ascii) (s : string) : option string :=
  match s with
  | EmptyString => None
  | String c' rest => if Ascii.eqb c' c then Some rest else after_char c rest
  end.

Fixpoint before_char (c : ascii) (s : string) : string :=
  match s with
  | EmptyString => EmptyString
  | String c' rest =>
      if Ascii.eqb c' c then EmptyString else String c' (before_char c rest)
  end.

Fixpoint strip_prefix (p s : string) : option string :=
  match p, s with
  | EmptyString, _ => Some s
  | String a p', String b s' => if Ascii.eqb a b then strip_prefix p' s' else None
  | String _ _, EmptyString => None
  end.

(** The decoded value of the query parameter [key] when it is the first
    one of [url]. *)
Definition query_param (key url : string) : option string :=
  match after_char "?" url with
  | None => None
  | Some query =>
      match strip_prefix (key ++ "=") query with
      | None => None
      | Some raw => decodeURIComponent (before_char "&" raw)
      end
  end.

(** The characters of a JSON string after its opening quote: the decoded
    text and what follows the closing quote. *)
Fixpoint json_unquote (s : string) : option (string * string) :=
  match s with
  | EmptyString => None
  | String c rest =>
      if Ascii.eqb c dquote then Some (EmptyString, rest)
      else if Ascii.eqb c backslash then
        match rest with
        | EmptyString => None
        | String e rest1 =>
            if Ascii.eqb e "u" then
              match rest1 with
              | String h3 (String h2 (String h1 (String h0 rest2))) =>
                  match unhex h3, unhex h2, unhex h1, unhex h0,
                        json_unquote rest2 with
                  | Some 0%N, Some 0%N, Some a, Some b, Some (text, tail) =>
                      if (a <? 8)%N
                      then Some (String (ascii_of_N (16 * a + b)) text, tail)
                      else None
                  | _, _, _, _, _ => None
                  end
              | _ => None
              end
            else
              let plain :=
                if Ascii.eqb e dquote then Some dquote
                else if Ascii.eqb e backslash then Some backslash
                else if Ascii.eqb e "/" then Some "/"%char
                else if Ascii.eqb e "b" then Some (ascii_of_N 8)
                else if Ascii.eqb e "f" then Some (ascii_of_N 12)
                else if Ascii.eqb e "n" then Some (ascii_of_N 10)
                else if Ascii.eqb e "r" then Some (ascii_of_N 13)
                else if Ascii.eqb e "t" then Some (ascii_of_N 9)
                else None in
              match plain, json_unquote rest1 with
              | Some ch, Some (text, tail) => Some (String ch text, tail)
              | _, _ => None
              end
        end
      else if (N_of_ascii c <? 32)%N then None
      else
        match json_unquote rest with
        | Some (text, tail) => Some (String c text, tail)
        | None => None
        end
  end.

(** The elements of a non-empty array of strings, up to its closing
    bracket; one unit of [fuel] per element. *)
Fixpoint parse_strings (fuel : nat) (s : string) : option (list string * string) :=
  match fuel, s with
  | S fuel', String q rest =>
      if Ascii.eqb q dquote then
        match json_unquote rest with
        | Some (x, String sep tail) =>
            if Ascii.eqb sep "]" then Some ([x], tail)
            else if Ascii.eqb sep "," then
              match parse_strings fuel' tail with
              | Some (xs, tail') => Some (x :: xs, tail')
              | None => None
              end
            else None
        | _ => None
        end
      else None
  | _, _ => None
  end.

(** [JSON.parse(text).projectIds] for the compact text of
    [{ projectIds: [...] }]. *)
Definition parse_projectIds (text : string) : option (list string) :=
  match strip_prefix ("{" ++ json_quote "projectIds" ++ ":[") text with
  | None => None
  | Some elements =>
      match elements with
      | String c tail =>
          if Ascii.eqb c "]" then
            (if (tail =? "}") then Some [] else None)
          else
            match parse_strings (String.length elements) elements with
            | Some (ids, rest) => if (rest =? "}") then Some ids else None
            | None => None
            end
      | EmptyString => None
      end
  end.

(** ** Observing a run *)

Definition status_request (ids : string) : request :=
  mkRequest GET (with_ids statusUrl ids) None.
Definition proposals_request (ids : string) : request :=
  mkRequest GET (with_ids proposalsUrl ids) None.
Definition trigger_request (ids : string) : request :=
  mkRequest POST (with_ids triggerUrl ids) None.

Definition is_request_to (url : string) (ev : event) : bool :=
  match ev with
  | EvRequest r => (req_url r =? url)
  | _ => false
  end.

(** How many requests of [evs] went to [url]. *)
Definition requests_to (url : string) (evs : list event) : nat :=
  List.length (filter (is_request_to url) evs).

Definition is_sleep (ev : event) : bool :=
  match ev with
  | EvSleep _ => true
  | _ => false
  end.

Definition sleeps (evs : list event) : nat :=
  List.length (filter is_sleep evs).

(** [spaced url interval since evs]: every timer of [evs] is armed for
    [interval], and between two consecutive requests to [url] there is
    exactly one timer.  [since] counts the timers since the last request
    to [url], [None] before the first one. *)
Fixpoint spaced (url : string) (interval : Z) (since : option nat)
    (evs : list event) : bool :=
  match evs with
  | [] => true
  | EvRequest r :: rest =>
      if (req_url r =? url)
      then match since with
           | Some n => (n =? 1)%nat
           | None => true
           end && spaced url interval (Some 0%nat) rest
      else spaced url interval since rest
  | EvSleep ms :: rest =>
      (ms =? interval)%Z && spaced url interval (option_map S since) rest
  | EvFs _ :: rest => spaced url interval since rest
  end.

(** What [makeRequest] makes of a reply. *)
Definition reply_data (r : reply) : outcome value :=
  match r with
  | NetworkError reason => Throw (TypeError reason)
  | Response res =>
      if ok res then response_data (res_body res)
      else Throw (Error ("HTTP " ++ string_of_nat (status res) ++ ": "
                           ++ statusText res))
  end.

(** What [makeRequest] will return for the [n]-th request from now. *)
Definition answer_at (s : state) (n : nat) : outcome value :=
  reply_data (payload (server s (calls s + n))).


(** A 2xx reply whose data does not satisfy the completion predicate. *)
Definition unfinished (r : reply) : bool :=
  match reply_data r with
  | Ok statusData =>
      match completion_predicate statusData with
      | Ok false => true
      | _ => false
      end
  | Throw _ => false
  end.

Definition is_timeout (e : exn) : bool :=
  match e with
  | Error message =>
      (message =? "Polling timed out after all attempts.")
      || (message =? "Polling timed out.")
  | _ => false
  end.

(** The state after [n] attempts that each made one status request and
    then slept. *)
Fixpoint rounds (ids : string) (interval : Z) (n : nat) (s : state) : state :=
  match n with
  | O => s
  | S n' => rounds ids interval n' (waited interval (sent (status_request ids) s))
  end.

(** [Object.keys(v)]. *)
Definition keys (v : value) : list string :=
  match v with
  | VObj fields => map fst fields
  | _ => []
  end.

Definition detail_keys : list string :=
  ["id"; "title"; "budget"; "milestones_qty"; "funds_distributed";
   "project_id"; "challenges"; "name"; "category"; "url"; "status";
   "finished"; "voting"].

Definition mem (k : string) (l : list string) : bool :=
  existsb (String.eqb k) l.

(** A scripted service: the listed answers in order, then [fallback]. *)
Definition script (answers : list reply) (fallback : reply) (n : nat) : answer :=
  mkAnswer 0 (nth n answers fallback).

Definition json_ok (data : value) : reply :=
  Response (mkResponse 200 "OK" (BodyJson data)).

Definition http_error (code : nat) (text : string) : reply :=
  Response (mkResponse code text BodyBlank).

Definition start (answers : list reply) : state :=
  mkState (script answers (NetworkError "fetch failed")) (fun _ => true) 0 0 [].

(** The events a polling run can produce. *)
Definition poll_event (ids : string) (interval : Z) (ev : event) : Prop :=
  ev = EvRequest (status_request ids)
  \/ ev = EvRequest (proposals_request ids)
  \/ ev = EvSleep interval.

(** The events of [n] rounds. *)
Fixpoint round_events (ids : string) (interval : Z) (n : nat) : list event :=
  match n with
  | O => []
  | S n' =>
      EvRequest (status_request ids) :: EvSleep interval
        :: round_events ids interval n'
  end.

Definition draft_poll_request (ids : string) : request :=
  mkRequest GET (Draft.pollUrl ++ "?ids=" ++ encodeURIComponent ids) None.

(** The events a run can produce once the trigger request is out. *)
Definition later_event (ev : event) : Prop :=
  match ev with
  | EvRequest r =>
      exists ids, r = status_request ids \/ r = proposals_request ids
                  \/ r = draft_poll_request ids
  | EvSleep _ => True
  | EvFs _ => True
  end.

(** Sample answers of the service. *)
Definition pending_status : value :=
  VObj [("status", VStr "pending"); ("hasData", VBool false)].
Definition partial_status : value :=
  VObj [("status", VStr "partial"); ("hasData", VBool true)].
Definition completed_status : value :=
  VObj [("status", VStr "completed"); ("hasData", VBool true)].
Definition two_proposals : value :=
  VObj [("proposals",
         VArr [VObj [("id", VNum 1); ("title", VStr "A")];
               VObj [("id", VNum 2); ("title", VStr "B")]])].

(** ** The compiled action ([dist/index.js])

    The same trigger and poller as above; the poll result is written as
    it is, without [transformData]. *)

Module Dist.

(** Step 3 of the compiled [main]: [JSON.stringify(undefined, null, 2)]
    is [undefined], which [fs.writeFile] rejects inside the [try]. *)
Definition write_results (OUTPUT_FILE : string) (results : value) : M unit :=
  fs_do (Mkdir OUTPUT_FILE) ;;;
  match results with
  | VUndefined => throw (TypeError "The data argument must be of type string")
  | _ => fs_do (WriteFile OUTPUT_FILE results)
  end.

Definition main (projectIds OUTPUT_FILE : string) (s : state) : nat * state :=
  match trigger projectIds s with
  | (Throw _, s1) => (1%nat, s1)
  | (Ok _, s1) =>
      match pollUntilComplete projectIds default_maxRetries default_interval s1 with
      | (Throw _, s2) => (1%nat, s2)
      | (Ok results, s2) =>
          match write_results OUTPUT_FILE results s2 with
          | (Throw _, s3) => (1%nat, s3)
          | (Ok _, s3) => (0%nat, s3)
          end
      end
  end.

End Dist.

(** ** Observing a run, continued *)

Definition is_fs (ev : event) : bool :=
  match ev with
  | EvFs _ => true
  | _ => false
  end.

(** The file operations of a trace, and everything else (requests and
    timers). *)
Definition fs_events (evs : list event) : list event := filter is_fs evs.
Definition network (evs : list event) : list event :=
  filter (fun ev => negb (is_fs ev)) evs.

(** [gated statusU proposalsU after_status evs]: every request to
    [proposalsU] comes directly after a request to [statusU];
    [after_status] tells whether the previous event was one. *)
Fixpoint gated (statusU proposalsU : string) (after_status : bool)
    (evs : list event) : bool :=
  match evs with
  | [] => true
  | ev :: rest =>
      if is_request_to statusU ev then gated statusU proposalsU true rest
      else if is_request_to proposalsU ev
           then after_status && gated statusU proposalsU false rest
           else gated statusU proposalsU false rest
  end.

(** An array none of whose elements is [null] or [undefined]. *)
Definition is_records (v : value) : bool :=
  match v with
  | VArr items => forallb (fun project => negb (nullish project)) items
  | _ => false
  end.

Fixpoint string_forall (p : ascii -> bool) (s : string) : bool :=
  match s with
  | EmptyString => true
  | String c rest => p c && string_forall p rest
  end.

(** What the draft's poller reads from a reply: [data.status] and
    [data.results], or the exception of [fetch], of the [ok] test, of
    [res.json()] or of the read of [status]. *)
Definition draft_reading (r : reply) : outcome (value * value) :=
  match r with
  | NetworkError reason => Throw (TypeError reason)
  | Response res =>
      if ok res then
        match Draft.json (res_body res) with
        | Throw e => Throw e
        | Ok data =>
            match get_prop data "status" with
            | Throw e => Throw e
            | Ok data_status => Ok (data_status, prop data "results")
            end
        end
      else Throw (Error ("Polling failed: " ++ statusText res))
  end.

(** A reply that makes the draft's poller sleep and ask again. *)
Definition draft_waiting (r : reply) : bool :=
  match draft_reading r with
  | Ok (data_status, _) => negb (is_string data_status "completed")
  | Throw _ => false
  end.

(** The state after [n] attempts of the draft's poller that each made
    one request and then slept. *)
Fixpoint draft_rounds (ids : string) (interval : Z) (n : nat) (s : state)
    : state :=
  match n with
  | O => s
  | S n' =>
      draft_rounds ids interval n' (waited interval (sent (draft_poll_request ids) s))
  end.

Fixpoint draft_round_events (ids : string) (interval : Z) (n : nat)
    : list event :=
  match n with
  | O => []
  | S n' =>
      EvRequest (draft_poll_request ids) :: EvSleep interval
        :: draft_round_events ids interval n'
  end.

(** ** Inputs outside the intended ones *)

(** The [main] of [src/src/index.ts]: it reads both inputs itself and
    throws ['Missing required inputs.'] when one is unset or empty,
    before any request; otherwise it goes on as [Draft.main]. *)
Definition draft_ts_main (projectIds outputFile : option string) (s : state)
    : nat * state :=
  match projectIds, outputFile with
  | Some ids, Some file =>
      if (ids =? EmptyString) || (file =? EmptyString) then (1%nat, s)
      else Draft.main ids file s
  | _, _ => (1%nat, s)
  end.

(** A string without a lone surrogate.  UTF-8 proper cannot hold one;
    in generalized UTF-8 it is the byte ED followed by a byte in
    A0..BF. *)
Fixpoint well_formed (s : string) : bool :=
  match s with
  | EmptyString => true
  | String c rest =>
      match rest with
      | EmptyString => true
      | String d _ =>
          negb ((N_of_ascii c =? 237)%N
                && (160 <=? N_of_ascii d)%N && (N_of_ascii d <=? 191)%N)
          && well_formed rest
      end
  end.

(** [encodeURIComponent(s)] on any string: a [URIError] on a lone
    surrogate. *)
Definition encodeURIComponent_or_throw (s : string) : outcome string :=
  if well_formed s then Ok (encodeURIComponent s)
  else Throw (URIError "URI malformed").

(** The loop of [pollUntilComplete] on any string: each iteration builds
    the status URL before it enters its [try], so the [URIError] of an
    ill-formed [ids] leaves the function. *)
Fixpoint poll_loop_any (ids : string) (maxRetries : nat) (interval : Z)
    (remaining attempt : nat) : M value :=
  match remaining with
  | O => throw (Error "Polling timed out.")
  | S remaining' =>
      _ <- lift (encodeURIComponent_or_throw ids) ;;
      r <- poll_attempt ids maxRetries interval attempt ;;
      match r with
      | Some v => ret v
      | None => poll_loop_any ids maxRetries interval remaining' (S attempt)
      end
  end.

Definition pollUntilComplete_any (ids : string) (maxRetries : nat)
    (interval : Z) : M value :=
  poll_loop_any ids maxRetries interval maxRetries 0.

(** The attempts the loop guard [attempt < maxRetries] lets through when
    [maxRetries] is any rational number: the naturals below it. *)
Definition attempts_allowed (maxRetries : QArith_base.Q) : nat :=
  Z.to_nat (Qround.Qceiling maxRetries).

(** The [catch] block with [attempt === maxRetries - 1] on numbers. *)
Definition poll_catch_number (maxRetries : QArith_base.Q) (interval : Z)
    (attempt : nat) (error : exn) : M (option value) :=
  if QArith_base.Qeq_bool (QArith_base.inject_Z (Z.of_nat attempt))
       (QArith_base.Qminus maxRetries (QArith_base.inject_Z 1))
  then throw (Error "Polling timed out after all attempts.")
  else sleep interval ;;; ret None.

Fixpoint poll_loop_number (ids : string) (maxRetries : QArith_base.Q)
    (interval : Z) (remaining attempt : nat) : M value :=
  match remaining with
  | O => throw (Error "Polling timed out.")
  | S remaining' =>
      r <- try_catch (poll_try ids interval)
             (poll_catch_number maxRetries interval attempt) ;;
      match r with
      | Some v => ret v
      | None => poll_loop_number ids maxRetries interval remaining' (S attempt)
      end
  end.

(** [pollUntilComplete] with a [maxRetries] that need not be whole. *)
Definition pollUntilComplete_number (ids : string)
    (maxRetries : QArith_base.Q) (interval : Z) : M value :=
  poll_loop_number ids maxRetries interval (attempts_allowed maxRetries) 0.

(** The number of UTF-8 bytes of a string; its JavaScript [length]
    counts UTF-16 units instead and is never larger. *)
Definition utf8_length (s : string) : nat := String.length s.

Fixpoint occurrences (c : ascii) (s : string) : nat :=
  match s with
  | EmptyString => O
  | String c' rest =>
      if Ascii.eqb c' c then S (occurrences c rest) else occurrences c rest
  end.

(** ** Basic facts *)

Lemma makeRequest_eq (url : string) (m : method) (s : state) :
  makeRequest url m s
  = (reply_data (payload (server s (calls s))), sent (mkRequest m url None) s).
Proof.
  unfold makeRequest, bind, fetch, reply_data, throw, lift.
  destruct (payload (server s (calls s))) as [reason | res]; [reflexivity |].
  destruct (ok res); reflexivity.
Qed.

Lemma status_url_refl ids :
  (with_ids statusUrl ids =? with_ids statusUrl ids) = true.
Proof. apply String.eqb_refl. Qed.

Lemma proposals_not_status ids :
  (with_ids proposalsUrl ids =? with_ids statusUrl ids) = false.
Proof. reflexivity. Qed.

Lemma status_not_trigger ids :
  (with_ids statusUrl ids =? with_ids triggerUrl ids) = false.
Proof. reflexivity. Qed.

Lemma proposals_not_trigger ids :
  (with_ids proposalsUrl ids =? with_ids triggerUrl ids) = false.
Proof. reflexivity. Qed.


Lemma sleeps_app evs1 evs2 :
  sleeps (evs1 ++ evs2)%list = (sleeps evs1 + sleeps evs2)%nat.
Proof.
  unfold sleeps. rewrite filter_app, length_app. reflexivity.
Qed.

Lemma answer_at_0 s : answer_at s 0 = reply_data (payload (server s (calls s))).
Proof. unfold answer_at. rewrite Nat.add_0_r. reflexivity. Qed.

Lemma answer_at_sent r s n : answer_at (sent r s) n = answer_at s (S n).
Proof.
  unfold answer_at. cbn [sent advance next_call record server calls].
  rewrite Nat.add_succ_r. reflexivity.
Qed.

Lemma answer_at_waited ms s n : answer_at (waited ms s) n = answer_at s n.
Proof. reflexivity. Qed.

(** The [try] block, case by case on what the service answers. *)
Lemma poll_try_eq ids interval s :
  poll_try ids interval s =
    let s1 := sent (status_request ids) s in
    match answer_at s 0 with
    | Throw e => (Throw e, s1)
    | Ok statusData =>
        match completion_predicate statusData with
        | Throw e => (Throw e, s1)
        | Ok false => (Ok None, waited interval s1)
        | Ok true =>
            let s2 := sent (proposals_request ids) s1 in
            match answer_at s 1 with
            | Throw e => (Throw e, s2)
            | Ok proposalsData =>
                match get_prop proposalsData "proposals" with
                | Throw e => (Throw e, s2)
                | Ok proposals => (Ok (Some proposals), s2)
                end
            end
        end
    end.
Proof.
  unfold poll_try, bind. rewrite makeRequest_eq, answer_at_0.
  fold (status_request ids).
  destruct (reply_data (payload (server s (calls s)))) as [statusData | e];
    [| reflexivity].
  unfold lift at 1.
  destruct (completion_predicate statusData) as [[|] | e]; [| reflexivity ..].
  rewrite makeRequest_eq. fold (proposals_request ids).
  rewrite <- answer_at_0, answer_at_sent.
  cbv zeta.
  destruct (answer_at s 1) as [proposalsData | e]; [| reflexivity].
  unfold lift, ret.
  destruct (get_prop proposalsData "proposals"); reflexivity.
Qed.

(** The [catch] block. *)
Lemma poll_catch_eq maxRetries interval attempt error s :
  poll_catch maxRetries interval attempt error s =
    if (attempt =? maxRetries - 1)%nat
    then (Throw (Error "Polling timed out after all attempts."), s)
    else (Ok None, waited interval s).
Proof.
  unfold poll_catch. destruct (attempt =? maxRetries - 1)%nat; reflexivity.
Qed.

Lemma final_attempt attempt remaining maxRetries :
  (attempt + S remaining = maxRetries)%nat ->
  (attempt =? maxRetries - 1)%nat = (remaining =? 0)%nat.
Proof.
  intros H. destruct remaining as [| k].
  - rewrite (proj2 (Nat.eqb_eq _ _)); [reflexivity | lia].
  - rewrite (proj2 (Nat.eqb_neq _ _)); [reflexivity | lia].
Qed.

(** ** The shape of a polling run *)

Lemma trace_sent r s : trace (sent r s) = (trace s ++ [EvRequest r])%list.
Proof. reflexivity. Qed.

Lemma trace_waited ms s : trace (waited ms s) = (trace s ++ [EvSleep ms])%list.
Proof. reflexivity. Qed.

Lemma now_sent r s : (now s <= now (sent r s))%Z.
Proof. cbn [sent advance next_call record now]. lia. Qed.

Lemma timer_delay_bounds ms :
  (1 <= timer_delay ms)%Z /\ ((ms <= 2147483647)%Z -> (ms <= timer_delay ms)%Z).
Proof.
  unfold timer_delay.
  destruct (ms <? 1)%Z eqn:Hlow; destruct (2147483647 <? ms)%Z eqn:Hhigh;
    cbn [orb]; rewrite ?Z.ltb_lt, ?Z.ltb_ge in *; lia.
Qed.

Lemma now_waited ms s :
  (now s + timer_delay ms <= now (waited ms s)
   /\ now s <= now (waited ms s))%Z.
Proof.
  cbn [waited advance record now].
  pose proof (proj1 (timer_delay_bounds ms)). lia.
Qed.

Ltac trace_norm :=
  rewrite ?trace_waited, ?trace_sent, <- ?app_assoc; cbn [app].

Ltac clock_step :=
  cbn [now sent waited advance record next_call server calls disk trace];
  repeat match goal with
    | |- context [timer_delay ?ms] =>
        lazymatch goal with
        | _ : (1 <= timer_delay ms)%Z |- _ => fail
        | _ => pose proof (proj1 (timer_delay_bounds ms))
        end
    end;
  lia.

(** One attempt issues one status request, at most one proposals
    request after it, and sleeps exactly when it falls through to the
    next iteration. *)
Lemma poll_attempt_shape ids maxRetries interval attempt s :
  exists tail,
    trace (snd (poll_attempt ids maxRetries interval attempt s))
    = (trace s ++ EvRequest (status_request ids) :: tail)%list
    /\ server (snd (poll_attempt ids maxRetries interval attempt s)) = server s
    /\ disk (snd (poll_attempt ids maxRetries interval attempt s)) = disk s
    /\ (now s <= now (snd (poll_attempt ids maxRetries interval attempt s)))%Z
    /\ match fst (poll_attempt ids maxRetries interval attempt s) with
       | Ok None =>
           (tail = [EvSleep interval]
            \/ tail = [EvRequest (proposals_request ids); EvSleep interval])
           /\ (now s + timer_delay interval
               <= now (snd (poll_attempt ids maxRetries interval attempt s)))%Z
       | _ => tail = [] \/ tail = [EvRequest (proposals_request ids)]
       end.
Proof.
  unfold poll_attempt, try_catch. rewrite poll_try_eq. cbv zeta.
  destruct (answer_at s 0) as [statusData | e];
    [destruct (completion_predicate statusData) as [[|] | e];
     [destruct (answer_at s 1) as [proposalsData | e];
      [destruct (get_prop proposalsData "proposals") as [proposals | e] |] | |] |];
    rewrite ?poll_catch_eq;
    try destruct (attempt =? maxRetries - 1)%nat;
    eexists; cbn [fst snd]; trace_norm;
    repeat split;
    first [reflexivity | clock_step | right; reflexivity | left; reflexivity].
Qed.

Lemma requests_to_status_cons ids evs :
  requests_to (with_ids statusUrl ids) (EvRequest (status_request ids) :: evs)
  = S (requests_to (with_ids statusUrl ids) evs).
Proof.
  unfold requests_to. cbn [filter is_request_to status_request req_url].
  rewrite status_url_refl. reflexivity.
Qed.

Lemma requests_to_status_proposals ids evs :
  requests_to (with_ids statusUrl ids) (EvRequest (proposals_request ids) :: evs)
  = requests_to (with_ids statusUrl ids) evs.
Proof.
  unfold requests_to. cbn [filter is_request_to proposals_request req_url].
  rewrite proposals_not_status. reflexivity.
Qed.

Lemma requests_to_sleep url ms evs :
  requests_to url (EvSleep ms :: evs) = requests_to url evs.
Proof. reflexivity. Qed.

Lemma spaced_status ids interval since evs :
  spaced (with_ids statusUrl ids) interval since
         (EvRequest (status_request ids) :: evs)
  = match since with
    | Some n => (n =? 1)%nat
    | None => true
    end && spaced (with_ids statusUrl ids) interval (Some 0%nat) evs.
Proof.
  cbn [spaced status_request req_url]. rewrite status_url_refl. reflexivity.
Qed.

Lemma spaced_proposals ids interval since evs :
  spaced (with_ids statusUrl ids) interval since
         (EvRequest (proposals_request ids) :: evs)
  = spaced (with_ids statusUrl ids) interval since evs.
Proof.
  cbn [spaced proposals_request req_url]. rewrite proposals_not_status.
  reflexivity.
Qed.

Lemma spaced_sleep url interval since evs :
  spaced url interval since (EvSleep interval :: evs)
  = spaced url interval (option_map S since) evs.
Proof. cbn [spaced]. rewrite Z.eqb_refl. reflexivity. Qed.

(** A polling run, whatever the service answers: its events, how many
    status requests it makes, how they are spaced and how long it takes. *)
Lemma poll_loop_shape ids maxRetries interval :
  forall remaining attempt s,
  exists evs,
    trace (snd (poll_loop ids maxRetries interval remaining attempt s))
    = (trace s ++ evs)%list
    /\ server (snd (poll_loop ids maxRetries interval remaining attempt s))
       = server s
    /\ disk (snd (poll_loop ids maxRetries interval remaining attempt s))
       = disk s
    /\ Forall (poll_event ids interval) evs
    /\ (requests_to (with_ids statusUrl ids) evs <= remaining)%nat
    /\ (forall since, since = None \/ since = Some 1%nat ->
          spaced (with_ids statusUrl ids) interval since evs = true)
    /\ (now s <= now (snd (poll_loop ids maxRetries interval remaining attempt s)))%Z
    /\ (now s
        + Z.of_nat (requests_to (with_ids statusUrl ids) evs - 1)
          * timer_delay interval
        <= now (snd (poll_loop ids maxRetries interval remaining attempt s)))%Z.
Proof.
  induction remaining as [| remaining IH]; intros attempt s.
  - exists []. cbn [poll_loop throw fst snd]. rewrite app_nil_r.
    repeat split; auto; try (cbn; lia).
  - cbn [poll_loop]. unfold bind.
    destruct (poll_attempt_shape ids maxRetries interval attempt s)
      as (tail & Htrace & Hserver & Hdisk & Hnow & Hcase).
    destruct (poll_attempt ids maxRetries interval attempt s) as [r s1].
    cbn [fst snd] in *.
    assert (Hterminal :
      tail = [] \/ tail = [EvRequest (proposals_request ids)] ->
      let evs := EvRequest (status_request ids) :: tail in
      Forall (poll_event ids interval) evs
      /\ (requests_to (with_ids statusUrl ids) evs <= S remaining)%nat
      /\ (forall since, since = None \/ since = Some 1%nat ->
            spaced (with_ids statusUrl ids) interval since evs = true)
      /\ (now s + Z.of_nat (requests_to (with_ids statusUrl ids) evs - 1)
                  * timer_delay interval <= now s1)%Z).
    { intros [-> | ->]; cbv zeta;
        rewrite requests_to_status_cons, ?requests_to_status_proposals;
        (split; [repeat (apply Forall_cons || apply Forall_nil);
                 unfold poll_event; auto |]);
        (split; [cbn; lia |]);
        (split; [| cbn; lia]);
        intros since [-> | ->];
        rewrite spaced_status, ?spaced_proposals; reflexivity. }
    destruct r as [[v |] | e].
    + exists (EvRequest (status_request ids) :: tail). cbn [ret fst snd].
      destruct (Hterminal Hcase) as (? & ? & ? & ?). repeat split; auto.
    + destruct Hcase as [Htail Hslept].
      destruct (IH (S attempt) s1)
        as (evs & Etrace & Eserver & Edisk & Eall & Ecount & Espaced & Enow & Etime).
      destruct (poll_loop ids maxRetries interval remaining (S attempt) s1)
        as [r2 s2].
      cbn [fst snd] in *.
      exists (EvRequest (status_request ids) :: tail ++ evs)%list.
      assert (Hcount :
        requests_to (with_ids statusUrl ids)
                    (EvRequest (status_request ids) :: tail ++ evs)%list
        = S (requests_to (with_ids statusUrl ids) evs)).
      { rewrite requests_to_status_cons.
        destruct Htail as [-> | ->]; cbn [app];
          rewrite ?requests_to_status_proposals, requests_to_sleep; reflexivity. }
      rewrite Hcount.
      split; [rewrite Etrace, Htrace, <- app_assoc; reflexivity |].
      split; [congruence |]. split; [congruence |].
      split.
      { constructor; [unfold poll_event; auto |].
        apply Forall_app; split; [| assumption].
        destruct Htail as [-> | ->];
          repeat (apply Forall_cons || apply Forall_nil); unfold poll_event; auto. }
      split; [lia |].
      split.
      { intros since Hsince. rewrite spaced_status.
        assert (Hfirst : match since with
                         | Some n => (n =? 1)%nat
                         | None => true
                         end = true)
          by (destruct Hsince as [-> | ->]; reflexivity).
        rewrite Hfirst. cbn [andb].
        destruct Htail as [-> | ->]; cbn [app];
          rewrite ?spaced_proposals, spaced_sleep; apply Espaced; auto. }
      split; [lia |].
      cbn [Nat.sub]. rewrite Nat.sub_0_r.
      destruct (requests_to (with_ids statusUrl ids) evs) as [| n].
      * cbn. lia.
      * cbn [Nat.sub] in Etime. rewrite Nat.sub_0_r in Etime. lia.
    + exists (EvRequest (status_request ids) :: tail). cbn [fst snd].
      destruct (Hterminal Hcase) as (? & ? & ? & ?). repeat split; auto.
Qed.

(** ** Stepping the loop *)

Lemma poll_loop_step ids maxRetries interval remaining attempt s :
  poll_loop ids maxRetries interval (S remaining) attempt s =
    match poll_attempt ids maxRetries interval attempt s with
    | (Ok (Some v), s') => (Ok v, s')
    | (Ok None, s') => poll_loop ids maxRetries interval remaining (S attempt) s'
    | (Throw e, s') => (Throw e, s')
    end.
Proof.
  cbn [poll_loop]. unfold bind.
  destruct (poll_attempt ids maxRetries interval attempt s) as [[[v |] | e] s'];
    reflexivity.
Qed.

Lemma poll_attempt_returns ids maxRetries interval attempt s
    statusData proposalsData proposals :
  answer_at s 0 = Ok statusData ->
  completion_predicate statusData = Ok true ->
  answer_at s 1 = Ok proposalsData ->
  get_prop proposalsData "proposals" = Ok proposals ->
  poll_attempt ids maxRetries interval attempt s
  = (Ok (Some proposals),
     sent (proposals_request ids) (sent (status_request ids) s)).
Proof.
  intros H0 Hp H1 Hg. unfold poll_attempt, try_catch.
  rewrite poll_try_eq, H0, Hp, H1, Hg. reflexivity.
Qed.

Lemma poll_attempt_unfinished ids maxRetries interval attempt s statusData :
  answer_at s 0 = Ok statusData ->
  completion_predicate statusData = Ok false ->
  poll_attempt ids maxRetries interval attempt s
  = (Ok None, waited interval (sent (status_request ids) s)).
Proof.
  intros H0 Hp. unfold poll_attempt, try_catch.
  rewrite poll_try_eq, H0, Hp. reflexivity.
Qed.

Lemma poll_attempt_status_throws ids maxRetries interval attempt s e :
  answer_at s 0 = Throw e ->
  poll_attempt ids maxRetries interval attempt s
  = poll_catch maxRetries interval attempt e (sent (status_request ids) s).
Proof.
  intros H0. unfold poll_attempt, try_catch.
  rewrite poll_try_eq, H0. reflexivity.
Qed.

Lemma poll_attempt_status_unreadable ids maxRetries interval attempt s
    statusData e :
  answer_at s 0 = Ok statusData ->
  completion_predicate statusData = Throw e ->
  poll_attempt ids maxRetries interval attempt s
  = poll_catch maxRetries interval attempt e (sent (status_request ids) s).
Proof.
  intros H0 Hp. unfold poll_attempt, try_catch.
  rewrite poll_try_eq, H0, Hp. reflexivity.
Qed.

Lemma poll_attempt_proposals_throw ids maxRetries interval attempt s
    statusData e :
  answer_at s 0 = Ok statusData ->
  completion_predicate statusData = Ok true ->
  answer_at s 1 = Throw e ->
  poll_attempt ids maxRetries interval attempt s
  = poll_catch maxRetries interval attempt e
      (sent (proposals_request ids) (sent (status_request ids) s)).
Proof.
  intros H0 Hp H1. unfold poll_attempt, try_catch.
  rewrite poll_try_eq, H0, Hp, H1. reflexivity.
Qed.

Lemma server_rounds ids interval n : forall s,
  server (rounds ids interval n s) = server s
  /\ calls (rounds ids interval n s) = (calls s + n)%nat.
Proof.
  induction n as [| n IH]; intros s; cbn [rounds].
  - split; [reflexivity | lia].
  - destruct (IH (waited interval (sent (status_request ids) s))) as [-> ->].
    cbn [waited sent advance next_call record server calls]. split; [reflexivity | lia].
Qed.

Lemma rounds_snoc ids interval n : forall s,
  rounds ids interval (S n) s
  = waited interval (sent (status_request ids) (rounds ids interval n s)).
Proof.
  induction n as [| n IH]; intros s; [reflexivity |].
  change (rounds ids interval (S (S n)) s)
    with (rounds ids interval (S n) (waited interval (sent (status_request ids) s))).
  rewrite IH. reflexivity.
Qed.

Lemma trace_rounds ids interval n : forall s,
  trace (rounds ids interval n s) = (trace s ++ round_events ids interval n)%list.
Proof.
  induction n as [| n IH]; intros s; cbn [rounds round_events].
  - rewrite app_nil_r. reflexivity.
  - rewrite IH. trace_norm. reflexivity.
Qed.

Lemma round_events_count ids interval n :
  requests_to (with_ids statusUrl ids) (round_events ids interval n) = n
  /\ requests_to (with_ids proposalsUrl ids) (round_events ids interval n) = 0%nat
  /\ sleeps (round_events ids interval n) = n.
Proof.
  induction n as [| n (IH1 & IH2 & IH3)]; [repeat split |].
  cbn [round_events]. rewrite requests_to_status_cons, requests_to_sleep, IH1.
  repeat split.
  - unfold requests_to in *. cbn [filter is_request_to status_request req_url].
    replace (with_ids statusUrl ids =? with_ids proposalsUrl ids) with false
      by reflexivity.
    assumption.
  - unfold sleeps in *. cbn [filter is_sleep List.length]. congruence.
Qed.

(** Attempts that get an unfinished status are skipped one by one. *)
Lemma poll_loop_skip ids maxRetries interval :
  forall n remaining attempt s,
    (forall i, (i < n)%nat ->
       unfinished (payload (server s (calls s + i))) = true) ->
    poll_loop ids maxRetries interval (n + remaining) attempt s
    = poll_loop ids maxRetries interval remaining (n + attempt)
        (rounds ids interval n s).
Proof.
  induction n as [| n IH]; intros remaining attempt s Hall; [reflexivity |].
  cbn [Nat.add]. rewrite poll_loop_step.
  pose proof (Hall 0%nat ltac:(lia)) as H0. unfold unfinished in H0.
  fold (answer_at s 0) in H0.
  destruct (answer_at s 0) as [statusData |] eqn:E0; [| discriminate].
  destruct (completion_predicate statusData) as [[|] |] eqn:Ep; try discriminate.
  rewrite (poll_attempt_unfinished _ _ _ _ _ _ E0 Ep).
  rewrite IH.
  - cbn [rounds]. rewrite Nat.add_succ_r. reflexivity.
  - intros i Hi. cbn [waited sent advance next_call record server calls].
    replace (S (calls s) + i)%nat with (calls s + S i)%nat by lia.
    apply Hall. lia.
Qed.


(** ** The completion predicate (C1) *)

Lemma is_string_eq v lit : is_string v lit = true <-> v = VStr lit.
Proof.
  destruct v; cbn [is_string]; try (split; [discriminate | intros H; discriminate H]).
  rewrite String.eqb_eq. split; [intros -> | intros [= ->]]; reflexivity.
Qed.

Lemma completion_predicate_true statusData :
  completion_predicate statusData = Ok true <->
  nullish statusData = false
  /\ truthy (prop statusData "hasData") = true
  /\ (prop statusData "status" = VStr "completed"
      \/ prop statusData "status" = VStr "partial").
Proof.
  rewrite <- !is_string_eq, <- orb_true_iff.
  unfold completion_predicate.
  destruct statusData; cbn [get_prop prop nullish truthy lookup];
    try (split; [intros [= H] | intros (_ & H & _)]; discriminate H);
    try (split; [discriminate | intros (H & _); discriminate H]).
  split.
  - intros [= H]. apply andb_true_iff in H. tauto.
  - intros (_ & H1 & H2). rewrite H1, H2. reflexivity.
Qed.

(** C1, as it fails.  In the two-endpoint poller, on the final allowed
    attempt the status satisfies the completion predicate with
    [hasData === true], yet the poller does not succeed, because the
    proposals fetch that follows answers 500; and a status whose
    [hasData] is [1] satisfies the predicate although [hasData === true]
    is false.  In the single-endpoint draft a status with
    [hasData: true] and [status: 'partial'] does not end the poll. *)
Lemma satisfying_attempt_without_success :
  completion_predicate completed_status = Ok true
  /\ is_true (prop completed_status "hasData") = true
  /\ fst (pollUntilComplete "1,2" 1 10000
            (start [json_ok completed_status;
                    http_error 500 "Internal Server Error"]))
     = Throw (Error "Polling timed out after all attempts.")
  /\ completion_predicate
       (VObj [("status", VStr "completed"); ("hasData", VNum 1)]) = Ok true
  /\ is_true (prop (VObj [("status", VStr "completed"); ("hasData", VNum 1)])
                   "hasData") = false
  /\ fst (Draft.pollUntilComplete "1,2" 1 10000
            (start [json_ok partial_status]))
     = Throw (Error "Polling timed out.").
Proof. repeat split; vm_compute; reflexivity. Qed.

(** C1, amended.  In the two-endpoint poller the completion predicate
    holds exactly when the status response is an object whose [hasData]
    is truthy (for a boolean [hasData]: exactly [true]) and whose
    [status] is ['completed'] or ['partial'].  On any satisfying
    attempt, the final allowed one included, the poller returns as soon
    as the proposals fetch that follows yields a payload (partial counts
    as terminal); on a 2xx status response that does not satisfy the
    predicate the attempt does not return.  In particular a run that
    sees unfinished statuses on all calls but the last allowed one, and
    a satisfying status on that one, succeeds. *)
Theorem completion_predicate_decides_attempt :
  (forall statusData,
      completion_predicate statusData = Ok true <->
      nullish statusData = false
      /\ truthy (prop statusData "hasData") = true
      /\ (prop statusData "status" = VStr "completed"
          \/ prop statusData "status" = VStr "partial"))
  /\ (forall b : bool, truthy (VBool b) = is_true (VBool b))
  /\ (forall ids maxRetries interval remaining attempt s
             statusData proposalsData proposals,
        answer_at s 0 = Ok statusData ->
        completion_predicate statusData = Ok true ->
        answer_at s 1 = Ok proposalsData ->
        get_prop proposalsData "proposals" = Ok proposals ->
        poll_loop ids maxRetries interval (S remaining) attempt s
        = (Ok proposals,
           sent (proposals_request ids) (sent (status_request ids) s)))
  /\ (forall ids maxRetries interval attempt s statusData,
        answer_at s 0 = Ok statusData ->
        completion_predicate statusData <> Ok true ->
        forall v,
          fst (poll_attempt ids maxRetries interval attempt s) <> Ok (Some v))
  /\ (forall ids maxRetries interval s statusData proposalsData proposals,
        (0 < maxRetries)%nat ->
        (forall i, (i < maxRetries - 1)%nat ->
           unfinished (payload (server s (calls s + i))) = true) ->
        answer_at s (maxRetries - 1) = Ok statusData ->
        completion_predicate statusData = Ok true ->
        answer_at s maxRetries = Ok proposalsData ->
        get_prop proposalsData "proposals" = Ok proposals ->
        pollUntilComplete ids maxRetries interval s
        = (Ok proposals,
           sent (proposals_request ids)
             (sent (status_request ids)
                (rounds ids interval (maxRetries - 1) s)))).
Proof.
  split; [exact completion_predicate_true |].
  split; [intros []; reflexivity |].
  split.
  { intros ids maxRetries interval remaining attempt s statusData proposalsData
      proposals H0 Hp H1 Hg.
    rewrite poll_loop_step,
      (poll_attempt_returns _ _ _ _ _ _ _ _ H0 Hp H1 Hg).
    reflexivity. }
  split.
  { intros ids maxRetries interval attempt s statusData H0 Hp v.
    destruct (completion_predicate statusData) as [[|] | e] eqn:Ep.
    - congruence.
    - rewrite (poll_attempt_unfinished _ _ _ _ _ _ H0 Ep). discriminate.
    - rewrite (poll_attempt_status_unreadable _ _ _ _ _ _ _ H0 Ep), poll_catch_eq.
      destruct (attempt =? maxRetries - 1)%nat; discriminate. }
  intros ids maxRetries interval s statusData proposalsData proposals
    Hpos Hall H0 Hp H1 Hg.
  unfold pollUntilComplete.
  replace maxRetries with ((maxRetries - 1) + 1)%nat at 2 by lia.
  rewrite poll_loop_skip by assumption.
  destruct (server_rounds ids interval (maxRetries - 1) s) as [Hserver Hcalls].
  rewrite poll_loop_step.
  rewrite (poll_attempt_returns _ _ _ _ _ statusData proposalsData proposals);
    [reflexivity | | assumption | | assumption].
  - unfold answer_at in *. rewrite Hserver, Hcalls, Nat.add_0_r. assumption.
  - unfold answer_at in *. rewrite Hserver, Hcalls.
    replace (calls s + (maxRetries - 1) + 1)%nat with (calls s + maxRetries)%nat
      by lia.
    assumption.
Qed.

Lemma completion_predicate_decides_attempt_witness :
  fst (pollUntilComplete "1,2" 3 10000
         (start [json_ok pending_status; json_ok pending_status;
                 json_ok partial_status; json_ok two_proposals]))
  = Ok (prop two_proposals "proposals")
  /\ forall v, fst (poll_attempt "1,2" 3 10000 0
                      (start [json_ok pending_status])) <> Ok (Some v).
Proof.
  destruct completion_predicate_decides_attempt as (_ & _ & _ & Hstay & Hrun).
  split.
  - rewrite (Hrun "1,2" 3%nat 10000%Z _ partial_status two_proposals
               (prop two_proposals "proposals")).
    + reflexivity.
    + lia.
    + intros [| [| i]] Hi; [reflexivity | reflexivity | cbn in Hi; lia].
    + reflexivity.
    + reflexivity.
    + reflexivity.
    + reflexivity.
  - apply (Hstay "1,2" 3%nat 10000%Z 0%nat _ pending_status).
    + reflexivity.
    + discriminate.
Defined.

(** ** Failed attempts (C2) *)





(** ** Bounds and spacing (C3) *)

Example spaced_rejects_two_calls_without_sleep :
  spaced (with_ids statusUrl "7") 10000 None
    [EvRequest (status_request "7"); EvRequest (status_request "7")] = false.
Proof. reflexivity. Qed.

Example spaced_rejects_two_sleeps :
  spaced (with_ids statusUrl "7") 10000 None
    [EvRequest (status_request "7"); EvSleep 10000; EvSleep 10000;
     EvRequest (status_request "7")] = false.
Proof. reflexivity. Qed.

Example spaced_rejects_short_sleep :
  spaced (with_ids statusUrl "7") 10000 None
    [EvRequest (status_request "7"); EvSleep 5;
     EvRequest (status_request "7")] = false.
Proof. reflexivity. Qed.

(** C3, as it fails.  With an interval of 2147483648 ms the timer is
    armed for 1 ms: two attempts that both see a pending status make two
    status requests with one sleep between them, yet by the end of the
    poll (two sleeps) the clock has advanced by 2 ms, far less than
    (2 - 1) x 2147483648. *)
Lemma huge_interval_is_cut_to_a_millisecond :
  requests_to (with_ids statusUrl "1,2")
    (trace (snd (pollUntilComplete "1,2" 2 2147483648
                   (start [json_ok pending_status; json_ok pending_status]))))
  = 2%nat
  /\ now (start [json_ok pending_status; json_ok pending_status]) = 0%Z
  /\ now (snd (pollUntilComplete "1,2" 2 2147483648
                 (start [json_ok pending_status; json_ok pending_status])))
     = 2%Z
  /\ (now (snd (pollUntilComplete "1,2" 2 2147483648
                  (start [json_ok pending_status; json_ok pending_status])))
      < (2 - 1) * 2147483648)%Z.
Proof. repeat split; vm_compute; reflexivity. Qed.

(** C3, amended.  For a natural number [maxRetries] (30 by default) and
    whatever the service answers, [pollUntilComplete] ends, with a
    result or with an exception, after at most [maxRetries] status
    requests; between two consecutive status requests it arms exactly
    one timer, for [interval] (10000 ms by default); the clock advances
    by at least (status requests - 1) x the delay the timer is armed
    for, which is at least (status requests - 1) x interval when the
    interval is at most 2147483647 ms. *)
Theorem poll_is_bounded_and_spaced :
  default_maxRetries = 30%nat
  /\ default_interval = 10000%Z
  /\ forall ids maxRetries interval s,
       exists r s' evs,
         pollUntilComplete ids maxRetries interval s = (r, s')
         /\ ((exists v, r = Ok v) \/ (exists e, r = Throw e))
         /\ trace s' = (trace s ++ evs)%list
         /\ (requests_to (with_ids statusUrl ids) evs <= maxRetries)%nat
         /\ spaced (with_ids statusUrl ids) interval None evs = true
         /\ (now s
             + Z.of_nat (requests_to (with_ids statusUrl ids) evs - 1)
               * timer_delay interval
             <= now s')%Z
         /\ ((interval <= 2147483647)%Z ->
             (now s
              + Z.of_nat (requests_to (with_ids statusUrl ids) evs - 1) * interval
              <= now s')%Z).
Proof.
  split; [reflexivity |]. split; [reflexivity |].
  intros ids maxRetries interval s. unfold pollUntilComplete.
  destruct (poll_loop_shape ids maxRetries interval maxRetries 0 s)
    as (evs & Htrace & _ & _ & _ & Hcount & Hspaced & _ & Htime).
  destruct (poll_loop ids maxRetries interval maxRetries 0 s) as [r s'].
  cbn [fst snd] in *.
  exists r, s', evs. split; [reflexivity |].
  split; [destruct r; eauto |].
  repeat split; auto.
  intros Hsmall.
  pose proof (proj2 (timer_delay_bounds interval) Hsmall) as Hdelay.
  pose proof (Z.mul_le_mono_nonneg_l interval (timer_delay interval)
                (Z.of_nat (requests_to (with_ids statusUrl ids) evs - 1))
                ltac:(lia) Hdelay).
  lia.
Qed.

(** On whole numbers the poller that takes any number as [maxRetries] is
    [pollUntilComplete]. *)
Lemma poll_catch_number_whole maxRetries interval attempt error :
  (0 < maxRetries)%nat ->
  poll_catch_number (QArith_base.inject_Z (Z.of_nat maxRetries)) interval
    attempt error
  = poll_catch maxRetries interval attempt error.
Proof.
  intros Hpos. unfold poll_catch_number, poll_catch.
  replace (QArith_base.Qeq_bool (QArith_base.inject_Z (Z.of_nat attempt))
             (QArith_base.Qminus (QArith_base.inject_Z (Z.of_nat maxRetries))
                (QArith_base.inject_Z 1)))
    with (attempt =? maxRetries - 1)%nat; [reflexivity |].
  unfold QArith_base.Qeq_bool, QArith_base.Qminus, QArith_base.Qplus,
    QArith_base.Qopp, QArith_base.inject_Z.
  cbn [QArith_base.Qnum QArith_base.Qden].
  destruct (Nat.eqb_spec attempt (maxRetries - 1)) as [E | E].
  - symmetry. apply Z.eqb_eq. lia.
  - symmetry. apply Z.eqb_neq. lia.
Qed.

Lemma poll_loop_number_whole ids maxRetries interval remaining :
  (0 < maxRetries)%nat ->
  forall attempt s,
    poll_loop_number ids (QArith_base.inject_Z (Z.of_nat maxRetries)) interval
      remaining attempt s
    = poll_loop ids maxRetries interval remaining attempt s.
Proof.
  intros Hpos. induction remaining as [| k IH]; intros attempt s;
    [reflexivity |].
  cbn [poll_loop_number poll_loop]. unfold poll_attempt, bind, try_catch.
  destruct (poll_try ids interval s) as [[[v |] | e] s1].
  - reflexivity.
  - apply IH.
  - rewrite (poll_catch_number_whole _ _ _ _ Hpos).
    destruct (poll_catch maxRetries interval attempt e s1) as [[[v |] | e'] s2];
      [reflexivity | apply IH | reflexivity].
Qed.

Lemma pollUntilComplete_number_whole ids maxRetries interval s :
  pollUntilComplete_number ids (QArith_base.inject_Z (Z.of_nat maxRetries))
    interval s
  = pollUntilComplete ids maxRetries interval s.
Proof.
  unfold pollUntilComplete_number, pollUntilComplete, attempts_allowed.
  rewrite Qround.Qceiling_Z, Nat2Z.id.
  destruct maxRetries as [| k]; [reflexivity |].
  apply poll_loop_number_whole. lia.
Qed.

(** With [maxRetries] 5/2 the loop guard lets attempts 0, 1 and 2
    through, and no attempt is the last one for the [catch] block: three
    status requests, more than [maxRetries], and the error is the one
    after the loop. *)
Lemma fractional_maxRetries_rounds_up :
  requests_to (with_ids statusUrl "1,2")
    (trace (snd (pollUntilComplete_number "1,2" (QArith_base.Qmake 5 2) 10000
                   (start []))))
  = 3%nat
  /\ fst (pollUntilComplete_number "1,2" (QArith_base.Qmake 5 2) 10000
            (start []))
     = Throw (Error "Polling timed out.").
Proof. split; vm_compute; reflexivity. Qed.

Lemma poll_is_bounded_and_spaced_witness :
  exists r s' evs,
    pollUntilComplete "1,2" 3 10000
      (start [json_ok pending_status; json_ok pending_status;
              json_ok completed_status; json_ok two_proposals])
    = (r, s')
    /\ trace s' = ([] ++ evs)%list
    /\ (0 + Z.of_nat (requests_to (with_ids statusUrl "1,2") evs - 1) * 10000
        <= now s')%Z.
Proof.
  destruct (proj2 (proj2 poll_is_bounded_and_spaced) "1,2" 3%nat 10000%Z
              (start [json_ok pending_status; json_ok pending_status;
                      json_ok completed_status; json_ok two_proposals]))
    as (r & s' & evs & Hrun & _ & Htrace & _ & _ & _ & Hclock).
  exists r, s', evs. split; [exact Hrun |]. split; [exact Htrace |].
  apply Hclock. lia.
Defined.

(** ** Completion on the first call (C4) *)

Lemma requests_to_proposals_cons ids evs :
  requests_to (with_ids proposalsUrl ids) (EvRequest (proposals_request ids) :: evs)
  = S (requests_to (with_ids proposalsUrl ids) evs).
Proof.
  unfold requests_to. cbn [filter is_request_to proposals_request req_url].
  rewrite String.eqb_refl. reflexivity.
Qed.

Lemma requests_to_proposals_status ids evs :
  requests_to (with_ids proposalsUrl ids) (EvRequest (status_request ids) :: evs)
  = requests_to (with_ids proposalsUrl ids) evs.
Proof.
  unfold requests_to. cbn [filter is_request_to status_request req_url].
  replace (with_ids statusUrl ids =? with_ids proposalsUrl ids) with false
    by reflexivity.
  reflexivity.
Qed.

(** C4, as it fails.  The first status response carries [hasData: true]
    and [status: 'completed'], but the proposals fetch that follows is
    answered with a 503.  With two attempts allowed the poller sleeps and
    starts over: two status requests, two proposals requests and one
    sleep before it returns.  With one attempt allowed it returns
    nothing: it throws the timeout error. *)
Lemma completed_first_then_failed_fetch :
  answer_at (start [json_ok completed_status;
                    http_error 503 "Service Unavailable";
                    json_ok completed_status; json_ok two_proposals]) 0
  = Ok completed_status
  /\ get_prop completed_status "hasData" = Ok (VBool true)
  /\ get_prop completed_status "status" = Ok (VStr "completed")
  /\ fst (pollUntilComplete "1,2" 2 10000
            (start [json_ok completed_status;
                    http_error 503 "Service Unavailable";
                    json_ok completed_status; json_ok two_proposals]))
     = Ok (prop two_proposals "proposals")
  /\ trace (snd (pollUntilComplete "1,2" 2 10000
                   (start [json_ok completed_status;
                           http_error 503 "Service Unavailable";
                           json_ok completed_status; json_ok two_proposals])))
     = [EvRequest (status_request "1,2"); EvRequest (proposals_request "1,2");
        EvSleep 10000;
        EvRequest (status_request "1,2"); EvRequest (proposals_request "1,2")]
  /\ requests_to (with_ids statusUrl "1,2")
       (trace (snd (pollUntilComplete "1,2" 2 10000
                      (start [json_ok completed_status;
                              http_error 503 "Service Unavailable";
                              json_ok completed_status;
                              json_ok two_proposals]))))
     = 2%nat
  /\ requests_to (with_ids proposalsUrl "1,2")
       (trace (snd (pollUntilComplete "1,2" 2 10000
                      (start [json_ok completed_status;
                              http_error 503 "Service Unavailable";
                              json_ok completed_status;
                              json_ok two_proposals]))))
     = 2%nat
  /\ sleeps
       (trace (snd (pollUntilComplete "1,2" 2 10000
                      (start [json_ok completed_status;
                              http_error 503 "Service Unavailable";
                              json_ok completed_status;
                              json_ok two_proposals]))))
     = 1%nat
  /\ fst (pollUntilComplete "1,2" 1 10000
            (start [json_ok completed_status;
                    http_error 503 "Service Unavailable"]))
     = Throw (Error "Polling timed out after all attempts.").
Proof. repeat split; vm_compute; reflexivity. Qed.

(** C4, amended.  When the first status response carries [hasData: true]
    and [status: 'completed'], the proposals fetch that follows is
    answered with a payload whose [proposals] field can be read, and at
    least one attempt is allowed, [pollUntilComplete] makes exactly one
    status request and one proposals request, arms no timer, and returns
    the [proposals] field of the proposals payload. *)
Theorem completed_on_first_call :
  forall ids maxRetries interval s statusData proposalsData proposals,
    (0 < maxRetries)%nat ->
    answer_at s 0 = Ok statusData ->
    get_prop statusData "hasData" = Ok (VBool true) ->
    get_prop statusData "status" = Ok (VStr "completed") ->
    answer_at s 1 = Ok proposalsData ->
    get_prop proposalsData "proposals" = Ok proposals ->
    exists s' evs,
      pollUntilComplete ids maxRetries interval s = (Ok proposals, s')
      /\ trace s' = (trace s ++ evs)%list
      /\ evs = [EvRequest (status_request ids); EvRequest (proposals_request ids)]
      /\ requests_to (with_ids statusUrl ids) evs = 1%nat
      /\ requests_to (with_ids proposalsUrl ids) evs = 1%nat
      /\ sleeps evs = 0%nat.
Proof.
  intros ids maxRetries interval s statusData proposalsData proposals
    Hpos H0 Hdata Hstatus H1 Hg.
  assert (Hp : completion_predicate statusData = Ok true).
  { apply completion_predicate_true.
    destruct statusData; cbn [get_prop] in Hdata, Hstatus; try discriminate.
    cbn [nullish prop]. injection Hdata as ->. injection Hstatus as ->.
    repeat split. left. reflexivity. }
  unfold pollUntilComplete. destruct maxRetries as [| k]; [lia |].
  rewrite poll_loop_step, (poll_attempt_returns _ _ _ _ _ _ _ _ H0 Hp H1 Hg).
  do 2 eexists. split; [reflexivity |].
  split; [trace_norm; reflexivity |].
  split; [reflexivity |].
  rewrite requests_to_status_cons, requests_to_status_proposals,
    requests_to_proposals_status, requests_to_proposals_cons.
  repeat split.
Qed.

Lemma completed_on_first_call_witness :
  exists s' evs,
    pollUntilComplete "1,2" default_maxRetries default_interval
      (start [json_ok completed_status; json_ok two_proposals])
    = (Ok (prop two_proposals "proposals"), s')
    /\ trace s' = ([] ++ evs)%list
    /\ evs = [EvRequest (status_request "1,2");
              EvRequest (proposals_request "1,2")]
    /\ requests_to (with_ids statusUrl "1,2") evs = 1%nat
    /\ requests_to (with_ids proposalsUrl "1,2") evs = 1%nat
    /\ sleeps evs = 0%nat.
Proof.
  apply (completed_on_first_call "1,2" default_maxRetries default_interval
           (start [json_ok completed_status; json_ok two_proposals])
           completed_status two_proposals).
  - unfold default_maxRetries. lia.
  - reflexivity.
  - reflexivity.
  - reflexivity.
  - reflexivity.
  - reflexivity.
Defined.

(** ** A failing proposals fetch (C10) *)

Lemma poll_loop_first_event ids maxRetries interval remaining attempt s :
  exists evs,
    trace (snd (poll_loop ids maxRetries interval (S remaining) attempt s))
    = (trace s ++ EvRequest (status_request ids) :: evs)%list.
Proof.
  rewrite poll_loop_step.
  destruct (poll_attempt_shape ids maxRetries interval attempt s)
    as (tail & Htrace & _).
  destruct (poll_attempt ids maxRetries interval attempt s) as [[[v |] | e] s1];
    cbn [fst snd] in *; eauto.
  destruct (poll_loop_shape ids maxRetries interval remaining (S attempt) s1)
    as (evs & Etrace & _).
  exists (tail ++ evs)%list.
  rewrite Etrace, Htrace, <- app_assoc. reflexivity.
Qed.

(** C10.  In the two-endpoint poller, when the status satisfies the
    completion predicate and the proposals fetch that follows fails, the
    failure reaches the same [catch] block as a failed status request
    does: on the final allowed attempt the poll throws the timeout
    error, on any other attempt it sleeps the interval and the next
    attempt starts with a new status request, so the failure is never
    fatal at once on a non-final attempt. *)
Theorem proposals_failure_is_retried :
  forall ids maxRetries interval remaining attempt s statusData e,
    answer_at s 0 = Ok statusData ->
    completion_predicate statusData = Ok true ->
    answer_at s 1 = Throw e ->
    (attempt + S remaining = maxRetries)%nat ->
    let s2 := sent (proposals_request ids) (sent (status_request ids) s) in
    poll_attempt ids maxRetries interval attempt s
    = poll_catch maxRetries interval attempt e s2
    /\ (forall s0 e0,
          answer_at s0 0 = Throw e0 ->
          poll_attempt ids maxRetries interval attempt s0
          = poll_catch maxRetries interval attempt e0
              (sent (status_request ids) s0))
    /\ poll_loop ids maxRetries interval (S remaining) attempt s =
         match remaining with
         | O => (Throw (Error "Polling timed out after all attempts."), s2)
         | S _ =>
             poll_loop ids maxRetries interval remaining (S attempt)
               (waited interval s2)
         end
    /\ (remaining <> 0%nat ->
        exists evs,
          trace (snd (poll_loop ids maxRetries interval (S remaining) attempt s))
          = (trace s ++ EvRequest (status_request ids)
                     :: EvRequest (proposals_request ids)
                     :: EvSleep interval
                     :: EvRequest (status_request ids) :: evs)%list).
Proof.
  intros ids maxRetries interval remaining attempt s statusData e
    H0 Hp H1 Hidx s2.
  pose proof (poll_attempt_proposals_throw _ maxRetries interval attempt _ _ _
                H0 Hp H1 : poll_attempt ids maxRetries interval attempt s = _)
    as Hattempt.
  fold s2 in Hattempt.
  assert (Hloop :
    poll_loop ids maxRetries interval (S remaining) attempt s =
      match remaining with
      | O => (Throw (Error "Polling timed out after all attempts."), s2)
      | S _ =>
          poll_loop ids maxRetries interval remaining (S attempt)
            (waited interval s2)
      end).
  { rewrite poll_loop_step, Hattempt, poll_catch_eq, (final_attempt _ _ _ Hidx).
    destruct remaining; reflexivity. }
  split; [exact Hattempt |].
  split; [intros s0 e0 Hfail; apply poll_attempt_status_throws; exact Hfail |].
  split; [exact Hloop |].
  intros Hmore. rewrite Hloop.
  destruct remaining as [| k]; [congruence |].
  destruct (poll_loop_first_event ids maxRetries interval k (S attempt)
              (waited interval s2)) as (evs & Htrace).
  exists evs. rewrite Htrace. subst s2. trace_norm. reflexivity.
Qed.

Lemma proposals_failure_is_retried_witness :
  fst (pollUntilComplete "1,2" 2 10000
         (start [json_ok completed_status;
                 http_error 503 "Service Unavailable";
                 json_ok completed_status; json_ok two_proposals]))
  = Ok (prop two_proposals "proposals")
  /\ fst (pollUntilComplete "1,2" 1 10000
            (start [json_ok partial_status; NetworkError "socket hang up"]))
     = Throw (Error "Polling timed out after all attempts.").
Proof.
  split.
  - unfold pollUntilComplete.
    rewrite (proj1 (proj2 (proj2
      (proposals_failure_is_retried "1,2" 2%nat 10000%Z 1%nat 0%nat
         (start [json_ok completed_status;
                 http_error 503 "Service Unavailable";
                 json_ok completed_status; json_ok two_proposals])
         completed_status (Error "HTTP 503: Service Unavailable")
         eq_refl eq_refl eq_refl eq_refl)))).
    reflexivity.
  - unfold pollUntilComplete.
    rewrite (proj1 (proj2 (proj2
      (proposals_failure_is_retried "1,2" 1%nat 10000%Z 0%nat 0%nat
         (start [json_ok partial_status; NetworkError "socket hang up"])
         partial_status (TypeError "socket hang up")
         eq_refl eq_refl eq_refl eq_refl)))).
    reflexivity.
Defined.

(** ** The trigger (C5) *)

Lemma later_event_not_trigger ids ev :
  later_event ev ->
  is_request_to (with_ids triggerUrl ids) ev = false
  /\ is_request_to Draft.triggerUrl ev = false.
Proof.
  destruct ev as [r | ms | op]; cbn [later_event is_request_to]; auto.
  intros [ids' [-> | [-> | ->]]]; split; reflexivity.
Qed.

Lemma later_events_no_trigger ids evs :
  Forall later_event evs ->
  requests_to (with_ids triggerUrl ids) evs = 0%nat
  /\ requests_to Draft.triggerUrl evs = 0%nat.
Proof.
  unfold requests_to. induction 1 as [| ev evs Hev _ [IH1 IH2]]; [split; reflexivity |].
  cbn [filter].
  destruct (later_event_not_trigger ids ev Hev) as [-> ->]. auto.
Qed.

Lemma poll_event_later ids interval ev :
  poll_event ids interval ev -> later_event ev.
Proof.
  intros [-> | [-> | ->]]; cbn [later_event]; eauto.
Qed.

Lemma transformData_state rawData s : snd (transformData rawData s) = s.
Proof.
  unfold transformData, bind, Date_now, lift, ret.
  destruct (array_map transformProject rawData); reflexivity.
Qed.

Lemma write_results_trace file doc s :
  exists evs,
    trace (snd (write_results file doc s)) = (trace s ++ evs)%list
    /\ Forall later_event evs.
Proof.
  unfold write_results, bind, fs_do.
  destruct (disk s (Mkdir file)); cbn [snd].
  - cbn [record disk].
    destruct (disk s (WriteFile file doc)); cbn [snd record trace];
      rewrite <- app_assoc; eexists; split; try reflexivity;
      repeat constructor.
  - eexists; split; [reflexivity | repeat constructor].
Qed.

(** Every run of [main] starts with the trigger request, and nothing
    after it goes to the trigger endpoint. *)
Lemma main_trace projectIds OUTPUT_FILE s :
  exists evs,
    trace (snd (main projectIds OUTPUT_FILE s))
    = (trace s ++ EvRequest (trigger_request projectIds) :: evs)%list
    /\ Forall later_event evs.
Proof.
  unfold main, trigger, bind. rewrite makeRequest_eq.
  fold (trigger_request projectIds).
  destruct (reply_data (payload (server s (calls s)))) as [functionResponse | e];
    [| exists []; split; [reflexivity | constructor]].
  unfold lift at 1.
  destruct (get_prop functionResponse "success");
    [| exists []; split; [reflexivity | constructor]].
  cbn [ret]. unfold collect, bind, pollUntilComplete.
  destruct (poll_loop_shape projectIds default_maxRetries default_interval
              default_maxRetries 0 (sent (trigger_request projectIds) s))
    as (evs & Htrace & _ & _ & Hall & _).
  destruct (poll_loop projectIds default_maxRetries default_interval
              default_maxRetries 0 (sent (trigger_request projectIds) s))
    as [[rawResults | e] s1]; cbn [fst snd] in *.
  - pose proof (transformData_state rawResults s1) as Hstate.
    destruct (transformData rawResults s1) as [[doc | e] s2];
      cbn [snd] in Hstate; subst s2.
    + destruct (write_results_trace OUTPUT_FILE doc s1) as (evs' & Hw & Hall').
      exists (evs ++ evs')%list. split.
      * destruct (write_results OUTPUT_FILE doc s1) as [[[] | e] s3];
          cbn [snd] in *; rewrite Hw, Htrace; trace_norm; reflexivity.
      * apply Forall_app. split; [| assumption].
        eapply Forall_impl; [| exact Hall]. apply poll_event_later.
    + exists evs. cbn [snd]. split; [rewrite Htrace; trace_norm; reflexivity |].
      eapply Forall_impl; [| exact Hall]. apply poll_event_later.
  - exists evs. split; [rewrite Htrace; trace_norm; reflexivity |].
    eapply Forall_impl; [| exact Hall]. apply poll_event_later.
Qed.

Lemma draft_poll_attempt_trace ids interval s :
  exists evs,
    trace (snd (Draft.poll_attempt ids interval s)) = (trace s ++ evs)%list
    /\ Forall later_event evs.
Proof.
  unfold Draft.poll_attempt, bind, fetch. fold (draft_poll_request ids).
  assert (Hreq : later_event (EvRequest (draft_poll_request ids)))
    by (cbn; eauto).
  destruct (payload (server s (calls s))) as [reason | res].
  - exists [EvRequest (draft_poll_request ids)]. split; [reflexivity | auto].
  - destruct (ok res); cbn [negb];
      [| exists [EvRequest (draft_poll_request ids)]; split; [reflexivity | auto]].
    unfold lift.
    destruct (Draft.json (res_body res)) as [data | e];
      [| exists [EvRequest (draft_poll_request ids)]; split; [reflexivity | auto]].
    destruct (get_prop data "status") as [data_status | e];
      [| exists [EvRequest (draft_poll_request ids)]; split; [reflexivity | auto]].
    destruct (is_string data_status "completed").
    + exists [EvRequest (draft_poll_request ids)]. split; [reflexivity | auto].
    + exists [EvRequest (draft_poll_request ids); EvSleep interval].
      cbn [sleep ret snd]. trace_norm. split; [reflexivity |].
      repeat constructor. exact Hreq.
Qed.

Lemma draft_poll_loop_trace ids interval :
  forall remaining s,
  exists evs,
    trace (snd (Draft.poll_loop ids interval remaining s)) = (trace s ++ evs)%list
    /\ Forall later_event evs.
Proof.
  induction remaining as [| remaining IH]; intros s.
  - exists []. cbn. rewrite app_nil_r. auto.
  - cbn [Draft.poll_loop]. unfold bind.
    destruct (draft_poll_attempt_trace ids interval s) as (evs & Htrace & Hall).
    destruct (Draft.poll_attempt ids interval s) as [[[v |] | e] s1];
      cbn [fst snd ret] in *; eauto.
    destruct (IH s1) as (evs' & Htrace' & Hall').
    exists (evs ++ evs')%list. rewrite Htrace', Htrace, app_assoc.
    split; [reflexivity | apply Forall_app; auto].
Qed.

Lemma draft_main_trace projectIds outputFile s :
  exists evs,
    trace (snd (Draft.main projectIds outputFile s))
    = (trace s ++ EvRequest (Draft.trigger_request projectIds) :: evs)%list
    /\ Forall later_event evs.
Proof.
  unfold Draft.main, Draft.trigger, bind, fetch.
  destruct (payload (server s (calls s))) as [reason | res];
    [exists []; split; [reflexivity | constructor] |].
  destruct (ok res); cbn [negb];
    [| exists []; split; [reflexivity | constructor]].
  cbn [ret]. unfold Draft.pollUntilComplete.
  destruct (draft_poll_loop_trace projectIds default_interval default_maxRetries
              (sent (Draft.trigger_request projectIds) s))
    as (evs & Htrace & Hall).
  destruct (Draft.poll_loop projectIds default_interval default_maxRetries
              (sent (Draft.trigger_request projectIds) s))
    as [[results | e] s1]; cbn [fst snd] in *.
  - assert (Hwrite : exists evs',
        trace (snd (Draft.write_results outputFile results s1))
        = (trace s1 ++ evs')%list /\ Forall later_event evs').
    { unfold Draft.write_results, bind, fs_do.
      destruct (disk s1 (Mkdir outputFile)); cbn [snd];
        [| eexists; split; [reflexivity | repeat constructor]].
      destruct results; cbn [throw snd record trace disk];
        try (destruct (disk s1 (WriteFile outputFile _)));
        cbn [snd record trace]; rewrite <- ?app_assoc;
        eexists; split; try reflexivity; repeat constructor. }
    destruct Hwrite as (evs' & Hw & Hall').
    exists (evs ++ evs')%list. split; [| apply Forall_app; auto].
    destruct (Draft.write_results outputFile results s1) as [[[] | e] s2];
      cbn [snd] in *; rewrite Hw, Htrace; trace_norm; reflexivity.
  - exists evs. split; [rewrite Htrace; trace_norm; reflexivity | assumption].
Qed.

(** The draft's poller has no [catch]: a non-2xx status response ends
    the poll at once with the raw error, and only ['completed'] ends it
    with a result. *)
Lemma draft_poll_aborts_on_http_error ids maxRetries interval s res :
  payload (server s (calls s)) = Response res ->
  ok res = false ->
  Draft.pollUntilComplete ids (S maxRetries) interval s
  = (Throw (Error ("Polling failed: " ++ statusText res)),
     sent (draft_poll_request ids) s).
Proof.
  intros Hres Hok.
  unfold Draft.pollUntilComplete. cbn [Draft.poll_loop].
  unfold bind, Draft.poll_attempt, bind, fetch. rewrite Hres, Hok. reflexivity.
Qed.

(** Without the required input the module exits before [main]; with it,
    the run is [main]. *)
Lemma run_reaches_main ids INPUT_OUTPUT_FILE s :
  run None INPUT_OUTPUT_FILE s = (1%nat, s)
  /\ run (Some EmptyString) INPUT_OUTPUT_FILE s = (1%nat, s)
  /\ (ids <> EmptyString ->
      exists OUTPUT_FILE,
        run (Some ids) INPUT_OUTPUT_FILE s = main ids OUTPUT_FILE s).
Proof.
  split; [reflexivity |]. split; [reflexivity |].
  intros Hids. unfold run.
  destruct (String.eqb_spec ids EmptyString) as [-> | _]; [congruence |].
  eauto.
Qed.

(** C5.  A non-2xx status on the trigger request ends the run at once
    with exit code 1: the trigger request is the only thing the run has
    done.  In every run the trigger request is the first event and no
    later request goes to the trigger endpoint, so the trigger is issued
    exactly once, before any polling, and never retried.  The same holds
    for the body-encoded draft. *)
Theorem trigger_failure_is_fatal :
  forall projectIds OUTPUT_FILE s,
    (forall res,
        payload (server s (calls s)) = Response res ->
        ok res = false ->
        main projectIds OUTPUT_FILE s
        = (1%nat, sent (trigger_request projectIds) s)
        /\ Draft.main projectIds OUTPUT_FILE s
           = (1%nat, sent (Draft.trigger_request projectIds) s))
    /\ (exists evs,
          trace (snd (main projectIds OUTPUT_FILE s))
          = (trace s ++ EvRequest (trigger_request projectIds) :: evs)%list
          /\ requests_to (with_ids triggerUrl projectIds) evs = 0%nat)
    /\ (exists evs,
          trace (snd (Draft.main projectIds OUTPUT_FILE s))
          = (trace s ++ EvRequest (Draft.trigger_request projectIds) :: evs)%list
          /\ requests_to Draft.triggerUrl evs = 0%nat).
Proof.
  intros projectIds OUTPUT_FILE s. split; [| split].
  - intros res Hres Hok. split.
    + unfold main, trigger, bind. rewrite makeRequest_eq, Hres.
      cbn [reply_data]. rewrite Hok. reflexivity.
    + unfold Draft.main, Draft.trigger, bind, fetch. rewrite Hres, Hok.
      reflexivity.
  - destruct (main_trace projectIds OUTPUT_FILE s) as (evs & Htrace & Hall).
    exists evs. split; [exact Htrace |].
    apply (later_events_no_trigger projectIds evs Hall).
  - destruct (draft_main_trace projectIds OUTPUT_FILE s) as (evs & Htrace & Hall).
    exists evs. split; [exact Htrace |].
    apply (later_events_no_trigger projectIds evs Hall).
Qed.

Lemma trigger_failure_is_fatal_witness :
  main "1,2" default_output_file (start [http_error 500 "Internal Server Error"])
  = (1%nat,
     sent (trigger_request "1,2") (start [http_error 500 "Internal Server Error"]))
  /\ Draft.main "1,2" default_output_file
       (start [http_error 500 "Internal Server Error"])
     = (1%nat,
        sent (Draft.trigger_request "1,2")
          (start [http_error 500 "Internal Server Error"])).
Proof.
  apply (proj1 (trigger_failure_is_fatal "1,2" default_output_file
                  (start [http_error 500 "Internal Server Error"]))
           (mkResponse 500 "Internal Server Error" BodyBlank));
    reflexivity.
Defined.

(** ** The transform (C6, C7, C9) *)

Lemma get_prop_prop v k : nullish v = false -> get_prop v k = Ok (prop v k).
Proof. destruct v; cbn; intros H; (discriminate H || reflexivity). Qed.

Lemma map_outcome_Forall2 {A B} (f : A -> outcome B) (l : list A) :
  (forall x, In x l -> exists y, f x = Ok y) ->
  exists ys, map_outcome f l = Ok ys /\ Forall2 (fun x y => f x = Ok y) l ys.
Proof.
  induction l as [| x l IH]; intros Hall; cbn [map_outcome].
  - exists []. split; [reflexivity | constructor].
  - destruct (Hall x (or_introl eq_refl)) as [y Hy].
    destruct IH as (ys & Hys & Hall2);
      [intros x' Hin; apply Hall; right; exact Hin |].
    rewrite Hy, Hys. exists (y :: ys). split; [reflexivity |].
    constructor; assumption.
Qed.

Lemma Forall2_nth_error_left {A B} (R : A -> B -> Prop) l l' :
  Forall2 R l l' ->
  forall i x, nth_error l i = Some x ->
    exists y, nth_error l' i = Some y /\ R x y.
Proof.
  induction 1 as [| a b l l' Hab _ IH]; intros [| i] x Hx; cbn in *;
    try discriminate.
  - injection Hx as <-. eauto.
  - eauto.
Qed.

Lemma transformProject_details project :
  nullish project = false ->
  exists out,
    transformProject project = Ok out
    /\ keys out = ["projectDetails"; "milestonesCompleted"]
    /\ keys (prop out "projectDetails") = detail_keys
    /\ (forall k,
          prop (prop out "projectDetails") k
          = if mem k detail_keys then prop project k else VUndefined)
    /\ prop out "milestonesCompleted"
       = js_or (js_or (prop project "milestones_completed")
                      (prop project "completed_milestones"))
               (VNum 0).
Proof.
  intros Hproject. unfold transformProject.
  rewrite (get_prop_prop _ _ Hproject).
  eexists. split; [reflexivity |].
  split; [reflexivity |]. split; [reflexivity |].
  split; [| reflexivity].
  intros k. cbn [prop lookup String.eqb Ascii.eqb Bool.eqb].
  unfold mem, detail_keys. cbn [existsb].
  repeat match goal with
    | |- context [k =? ?lit] =>
        destruct (String.eqb_spec k lit) as [-> | _]; [reflexivity |]
    end.
  reflexivity.
Qed.

(** C6.  [transformData] maps the records one by one and in order: the
    [projects] array has the length of the input and its i-th element is
    the image of the i-th record alone.  An image has the two keys
    [projectDetails] and [milestonesCompleted]; [projectDetails] has
    exactly the thirteen enumerated keys, each holding the record's
    property of that name, so any other property of the record is
    dropped; [milestonesCompleted] is
    [milestones_completed || completed_milestones || 0].  For the record
    [{id: 1, title: 'A', milestones_completed: 3}] it is 3, and with
    neither field it is 0. *)
Theorem transformData_maps_records :
  (forall records s,
      Forall (fun project => nullish project = false) records ->
      exists projects,
        transformData (VArr records) s
        = (Ok (VObj [("timestamp", VStr (toISOString (now s)));
                     ("projects", VArr projects)]), s)
        /\ List.length projects = List.length records
        /\ (forall i project,
              nth_error records i = Some project ->
              exists out,
                nth_error projects i = Some out
                /\ transformProject project = Ok out))
  /\ (forall project,
        nullish project = false ->
        exists out,
          transformProject project = Ok out
          /\ keys out = ["projectDetails"; "milestonesCompleted"]
          /\ keys (prop out "projectDetails") = detail_keys
          /\ (forall k,
                prop (prop out "projectDetails") k
                = if mem k detail_keys then prop project k else VUndefined)
          /\ prop out "milestonesCompleted"
             = js_or (js_or (prop project "milestones_completed")
                            (prop project "completed_milestones"))
                     (VNum 0))
  /\ (exists out,
        transformProject
          (VObj [("id", VNum 1); ("title", VStr "A");
                 ("milestones_completed", VNum 3)]) = Ok out
        /\ prop out "milestonesCompleted" = VNum 3)
  /\ (exists out,
        transformProject (VObj [("id", VNum 1); ("title", VStr "A")]) = Ok out
        /\ prop out "milestonesCompleted" = VNum 0).
Proof.
  split; [| split; [exact transformProject_details |]].
  - intros records s Hall.
    destruct (map_outcome_Forall2 transformProject records)
      as (projects & Hmap & Hall2).
    { intros project Hin. rewrite Forall_forall in Hall.
      destruct (transformProject_details project (Hall project Hin))
        as (out & Hout & _).
      eauto. }
    exists projects. split.
    + unfold transformData, bind, Date_now, lift, array_map. rewrite Hmap.
      reflexivity.
    + split; [symmetry; exact (Forall2_length Hall2) |].
      intros i project Hi.
      exact (Forall2_nth_error_left _ _ _ Hall2 i project Hi).
  - split; eexists; split; reflexivity.
Qed.

Lemma transformData_maps_records_witness :
  exists projects,
    transformData
      (VArr [VObj [("id", VNum 1); ("title", VStr "A"); ("extra", VStr "x");
                   ("milestones_completed", VNum 3)];
             VObj [("id", VNum 2); ("completed_milestones", VNum 4)]])
      (start [])
    = (Ok (VObj [("timestamp", VStr (toISOString 0));
                 ("projects", VArr projects)]), start [])
    /\ List.length projects = 2%nat.
Proof.
  destruct (proj1 transformData_maps_records
              [VObj [("id", VNum 1); ("title", VStr "A"); ("extra", VStr "x");
                     ("milestones_completed", VNum 3)];
               VObj [("id", VNum 2); ("completed_milestones", VNum 4)]]
              (start []))
    as (projects & Hrun & Hlen & _).
  - repeat constructor.
  - exists projects. split; [exact Hrun | exact Hlen].
Defined.

(** C7.  [transformData] leaves the world untouched, and two transforms
    of the same input agree on everything but the timestamp: both
    documents have the keys [timestamp] and [projects], their [projects]
    are equal, and each [timestamp] is the clock reading at that
    transform (equal readings give equal documents); if one transform
    throws, the other throws the same exception.  In a run, the
    timestamp is the clock reading once polling has ended. *)
Theorem transform_is_deterministic_modulo_timestamp :
  forall rawData s1 s2,
    snd (transformData rawData s1) = s1
    /\ match fst (transformData rawData s1), fst (transformData rawData s2) with
       | Ok doc1, Ok doc2 =>
           keys doc1 = ["timestamp"; "projects"]
           /\ keys doc2 = ["timestamp"; "projects"]
           /\ prop doc1 "projects" = prop doc2 "projects"
           /\ prop doc1 "timestamp" = VStr (toISOString (now s1))
           /\ prop doc2 "timestamp" = VStr (toISOString (now s2))
           /\ (now s1 = now s2 -> doc1 = doc2)
       | Throw e1, Throw e2 => e1 = e2
       | _, _ => False
       end
    /\ (forall ids doc s',
          collect ids s1 = (Ok doc, s') ->
          prop doc "timestamp" = VStr (toISOString (now s'))
          /\ exists rawResults,
               pollUntilComplete ids default_maxRetries default_interval s1
               = (Ok rawResults, s')).
Proof.
  intros rawData s1 s2.
  split; [apply transformData_state |]. split.
  - unfold transformData, bind, Date_now, lift, ret.
    destruct (array_map transformProject rawData) as [projects | e];
      cbn [fst]; [| reflexivity].
    repeat split. intros ->. reflexivity.
  - intros ids doc s'. unfold collect, bind.
    destruct (pollUntilComplete ids default_maxRetries default_interval s1)
      as [[rawResults | e] s]; [| discriminate].
    unfold transformData, bind, Date_now, lift, ret.
    destruct (array_map transformProject rawResults) as [projects | e];
      [| discriminate].
    intros [= <- <-]. split; [reflexivity | eauto].
Qed.

Lemma transform_is_deterministic_modulo_timestamp_witness :
  exists doc s',
    collect "1,2"
      (start [json_ok pending_status; json_ok completed_status;
              json_ok two_proposals])
    = (Ok doc, s')
    /\ now s' = 10000%Z
    /\ prop doc "timestamp" = VStr "1970-01-01T00:00:10.000Z".
Proof.
  eexists. eexists. split; [vm_compute; reflexivity |].
  split; [reflexivity |].
  match goal with
  | |- prop ?doc _ = _ =>
      rewrite (proj1 (proj2 (proj2
        (transform_is_deterministic_modulo_timestamp VNull
           (start [json_ok pending_status; json_ok completed_status;
                   json_ok two_proposals]) (start []))) "1,2" doc _
        ltac:(vm_compute; reflexivity)))
  end.
  vm_compute. reflexivity.
Defined.

(** C9.  The fallback tests truthiness, not presence: whenever
    [milestones_completed] is falsy, present or not, the result is
    [completed_milestones || 0]; the record
    [{milestones_completed: 0, completed_milestones: 5}] gives 5. *)
Theorem milestone_fallback_uses_truthiness :
  (forall project,
      nullish project = false ->
      truthy (prop project "milestones_completed") = false ->
      exists out,
        transformProject project = Ok out
        /\ prop out "milestonesCompleted"
           = js_or (prop project "completed_milestones") (VNum 0))
  /\ (exists out,
        transformProject
          (VObj [("milestones_completed", VNum 0);
                 ("completed_milestones", VNum 5)]) = Ok out
        /\ mem "milestones_completed"
             (keys (VObj [("milestones_completed", VNum 0);
                          ("completed_milestones", VNum 5)])) = true
        /\ prop out "milestonesCompleted" = VNum 5).
Proof.
  split.
  - intros project Hproject Hfalsy.
    destruct (transformProject_details project Hproject)
      as (out & Hout & _ & _ & _ & Hmc).
    exists out. split; [exact Hout |].
    rewrite Hmc. unfold js_or at 2. rewrite Hfalsy. reflexivity.
  - eexists. repeat split.
Qed.

Lemma milestone_fallback_uses_truthiness_witness :
  exists out,
    transformProject
      (VObj [("milestones_completed", VStr EmptyString); ("completed_milestones", VNum 2)])
    = Ok out
    /\ prop out "milestonesCompleted" = VNum 2.
Proof.
  destruct (proj1 milestone_fallback_uses_truthiness
              (VObj [("milestones_completed", VStr EmptyString);
                     ("completed_milestones", VNum 2)])
              eq_refl eq_refl)
    as (out & Hout & Hmc).
  exists out. split; [exact Hout | exact Hmc].
Defined.

(** ** The identifier list survives the trigger request (C8) *)

Lemma decode_encode_char c rest :
  decodeURIComponent (encodeURIComponent (String c rest))
  = match decodeURIComponent (encodeURIComponent rest) with
    | Some tail => Some (String c tail)
    | None => None
    end.
Proof. destruct c as [[] [] [] [] [] [] [] []]; reflexivity. Qed.

Lemma decode_encode s : decodeURIComponent (encodeURIComponent s) = Some s.
Proof.
  induction s as [| c s IH]; [reflexivity |].
  rewrite decode_encode_char, IH. reflexivity.
Qed.

Lemma before_amp_encode_char c rest :
  before_char "&" (encodeURIComponent (String c rest))
  = match encodeURIComponent (String c EmptyString) with
    | String a (String b (String d _)) =>
        String a (String b (String d (before_char "&" (encodeURIComponent rest))))
    | _ => String c (before_char "&" (encodeURIComponent rest))
    end.
Proof. destruct c as [[] [] [] [] [] [] [] []]; reflexivity. Qed.

Lemma encode_char_shape c rest :
  encodeURIComponent (String c rest)
  = match encodeURIComponent (String c EmptyString) with
    | String a (String b (String d _)) =>
        String a (String b (String d (encodeURIComponent rest)))
    | _ => String c (encodeURIComponent rest)
    end.
Proof. destruct c as [[] [] [] [] [] [] [] []]; reflexivity. Qed.

Lemma before_amp_encode s :
  before_char "&" (encodeURIComponent s) = encodeURIComponent s.
Proof.
  induction s as [| c s IH]; [reflexivity |].
  rewrite before_amp_encode_char, IH, <- encode_char_shape. reflexivity.
Qed.

Lemma query_param_trigger csv :
  query_param "projectIds" (with_ids triggerUrl csv) = Some csv.
Proof.
  unfold query_param.
  change (after_char "?" (with_ids triggerUrl csv))
    with (Some ("projectIds=" ++ encodeURIComponent csv)).
  cbv beta iota.
  change (strip_prefix ("projectIds" ++ "=")
            ("projectIds=" ++ encodeURIComponent csv))
    with (Some (encodeURIComponent csv)).
  cbv beta iota. rewrite before_amp_encode. apply decode_encode.
Qed.

Lemma string_app_assoc (a b c : string) : (a ++ b) ++ c = a ++ (b ++ c).
Proof. induction a as [| x a IH]; cbn; [reflexivity | rewrite IH; reflexivity]. Qed.

Lemma string_length_app (a b : string) :
  String.length (a ++ b) = (String.length a + String.length b)%nat.
Proof. induction a as [| x a IH]; cbn; [reflexivity | rewrite IH; reflexivity]. Qed.

Lemma json_unquote_escape c rest :
  json_unquote (json_escape c ++ rest)
  = match json_unquote rest with
    | Some (text, tail) => Some (String c text, tail)
    | None => None
    end.
Proof. destruct c as [[] [] [] [] [] [] [] []]; reflexivity. Qed.

Lemma json_unquote_escape_all x tail :
  json_unquote (json_escape_all x ++ String dquote tail) = Some (x, tail).
Proof.
  induction x as [| c x IH]; [reflexivity |].
  cbn [json_escape_all]. rewrite string_app_assoc, json_unquote_escape, IH.
  reflexivity.
Qed.

Lemma json_quote_app x rest :
  json_quote x ++ rest
  = String dquote (json_escape_all x ++ String dquote rest).
Proof. unfold json_quote. cbn [append]. rewrite string_app_assoc. reflexivity. Qed.

Lemma split_not_nil sep s : split sep s <> [].
Proof.
  induction s as [| c s IH]; cbn [split]; [discriminate |].
  destruct (Ascii.eqb c sep); [discriminate |].
  destruct (split sep s); discriminate.
Qed.

Lemma join_cons sep x y l :
  join sep (x :: y :: l) = x ++ sep ++ join sep (y :: l).
Proof. reflexivity. Qed.

Lemma parse_strings_join :
  forall l fuel tail,
    l <> [] ->
    (List.length l <= fuel)%nat ->
    parse_strings fuel (join "," (map json_quote l) ++ String "]" tail)
    = Some (l, tail).
Proof.
  induction l as [| x l IH]; intros fuel tail Hne Hfuel; [congruence |].
  destruct fuel as [| fuel]; [cbn in Hfuel; lia |].
  destruct l as [| y l].
  - cbn [map join]. rewrite json_quote_app. cbn [parse_strings].
    replace (Ascii.eqb dquote dquote) with true by reflexivity.
    rewrite json_unquote_escape_all. reflexivity.
  - change (map json_quote (x :: y :: l))
      with (json_quote x :: json_quote y :: map json_quote l).
    rewrite join_cons, !string_app_assoc, json_quote_app. cbn [parse_strings].
    replace (Ascii.eqb dquote dquote) with true by reflexivity.
    rewrite json_unquote_escape_all.
    change ("," ++ join "," (json_quote y :: map json_quote l)
                ++ String "]" tail)
      with (String "," (join "," (map json_quote (y :: l)) ++ String "]" tail)).
    cbv beta iota.
    replace (Ascii.eqb "," "]") with false by reflexivity.
    replace (Ascii.eqb "," ",") with true by reflexivity.
    rewrite IH; [reflexivity | discriminate | cbn in Hfuel |- *; lia].
Qed.

Lemma join_length_bound l tail :
  (List.length l
   <= String.length (join "," (map json_quote l) ++ tail))%nat.
Proof.
  induction l as [| x l IH]; [cbn; lia |].
  destruct l as [| y l].
  - cbn [map join List.length]. rewrite json_quote_app. cbn [String.length]. lia.
  - change (map json_quote (x :: y :: l))
      with (json_quote x :: json_quote y :: map json_quote l).
    rewrite join_cons, !string_app_assoc, json_quote_app.
    cbn [String.length List.length]. rewrite string_length_app.
    cbn [String.length append].
    change (json_quote y :: map json_quote l) with (map json_quote (y :: l)).
    cbn [List.length] in IH. lia.
Qed.

Lemma join_quote_head x l tail :
  exists rest, join "," (map json_quote (x :: l)) ++ tail = String dquote rest.
Proof.
  destruct l as [| y l].
  - cbn [map join]. rewrite json_quote_app. eauto.
  - change (map json_quote (x :: y :: l))
      with (json_quote x :: json_quote y :: map json_quote l).
    rewrite join_cons, string_app_assoc, json_quote_app. eauto.
Qed.

Lemma parse_stringify_projectIds l :
  l <> [] -> parse_projectIds (stringify_projectIds l) = Some l.
Proof.
  intros Hne. unfold parse_projectIds, stringify_projectIds.
  change (strip_prefix ("{" ++ json_quote "projectIds" ++ ":[")
            ("{" ++ json_quote "projectIds" ++ ":["
                 ++ join "," (map json_quote l) ++ "]}"))
    with (Some (join "," (map json_quote l) ++ "]}")).
  cbv beta iota.
  pose proof (parse_strings_join l
                (String.length (join "," (map json_quote l) ++ "]}")) "}" Hne
                (join_length_bound l "]}")) as Hparse.
  destruct l as [| x l]; [congruence |].
  destruct (join_quote_head x l "]}") as [rest Hrest].
  rewrite Hrest in Hparse |- *.
  replace (Ascii.eqb dquote "]") with false by reflexivity.
  rewrite Hparse. reflexivity.
Qed.

Example round_trip_of_awkward_ids :
  query_param "projectIds" (req_url (trigger_request "12,a b&c=%,,x"))
  = Some "12,a b&c=%,,x"
  /\ req_url (trigger_request "12,a b")
     = triggerUrl ++ "?projectIds=12%2Ca%20b"
  /\ split "," "12,a b&c=%,,x" = ["12"; "a b&c=%"; EmptyString; "x"]
  /\ parse_projectIds
       (stringify_projectIds (split "," "12,a b&c=%,,x"))
     = Some ["12"; "a b&c=%"; EmptyString; "x"].
Proof. repeat split; vm_compute; reflexivity. Qed.

(** C8.  Whatever the identifier-list string, decoding the identifier
    parameter of the trigger request gives back the list of its
    comma-separated parts: the query parameter [projectIds] of the
    query-encoded request decodes to the string itself, hence splits
    into that list, and the JSON body of the body-encoded request parses
    to that list. *)
Theorem trigger_ids_round_trip :
  forall csv,
    query_param "projectIds" (req_url (trigger_request csv)) = Some csv
    /\ option_map (split ",")
         (query_param "projectIds" (req_url (trigger_request csv)))
       = Some (split "," csv)
    /\ exists body,
         req_body (Draft.trigger_request csv) = Some body
         /\ parse_projectIds body = Some (split "," csv).
Proof.
  intros csv. cbn [trigger_request req_url].
  rewrite query_param_trigger. split; [reflexivity |]. split; [reflexivity |].
  eexists. split; [reflexivity |].
  apply parse_stringify_projectIds, split_not_nil.
Qed.

(** * Further properties of the code *)

(** ** The poller, attempt by attempt *)

(** What one attempt can do: return the fetched proposals, fall through
    after its sleep (with or without a proposals request), or, on the
    last attempt only, throw the timeout of the [catch] block. *)
Lemma poll_attempt_cases ids maxRetries interval attempt s :
  (exists statusData proposalsData proposals,
      answer_at s 0 = Ok statusData
      /\ completion_predicate statusData = Ok true
      /\ answer_at s 1 = Ok proposalsData
      /\ get_prop proposalsData "proposals" = Ok proposals
      /\ poll_attempt ids maxRetries interval attempt s
         = (Ok (Some proposals),
            sent (proposals_request ids) (sent (status_request ids) s)))
  \/ poll_attempt ids maxRetries interval attempt s
     = (Ok None, waited interval (sent (status_request ids) s))
  \/ poll_attempt ids maxRetries interval attempt s
     = (Ok None,
        waited interval
          (sent (proposals_request ids) (sent (status_request ids) s)))
  \/ ((attempt =? maxRetries - 1)%nat = true
      /\ (poll_attempt ids maxRetries interval attempt s
          = (Throw (Error "Polling timed out after all attempts."),
             sent (status_request ids) s)
          \/ poll_attempt ids maxRetries interval attempt s
             = (Throw (Error "Polling timed out after all attempts."),
                sent (proposals_request ids) (sent (status_request ids) s)))).
Proof.
  unfold poll_attempt, try_catch. rewrite poll_try_eq. cbv zeta.
  destruct (answer_at s 0) as [statusData | e] eqn:E0;
    [destruct (completion_predicate statusData) as [[|] | e] eqn:Ep;
     [destruct (answer_at s 1) as [proposalsData | e] eqn:E1;
      [destruct (get_prop proposalsData "proposals") as [proposals | e] eqn:Eg
      |] | |] |];
    rewrite ?poll_catch_eq;
    try destruct (attempt =? maxRetries - 1)%nat eqn:Elast;
    try (left; do 3 eexists; repeat split; eassumption);
    try (right; left; reflexivity);
    try (right; right; left; reflexivity);
    right; right; right; split; auto.
Qed.

Lemma sleeps_request r evs : sleeps (EvRequest r :: evs) = sleeps evs.
Proof. reflexivity. Qed.

Lemma sleeps_sleep ms evs : sleeps (EvSleep ms :: evs) = S (sleeps evs).
Proof. reflexivity. Qed.

(** The poller gives up only with one of its two timeout errors, and
    only once every allowed attempt has made its status request. *)
Lemma poll_loop_throw ids maxRetries interval :
  forall remaining attempt s e s',
    (attempt + remaining = maxRetries)%nat ->
    poll_loop ids maxRetries interval remaining attempt s = (Throw e, s') ->
    is_timeout e = true
    /\ exists evs,
         trace s' = (trace s ++ evs)%list
         /\ requests_to (with_ids statusUrl ids) evs = remaining.
Proof.
  induction remaining as [| remaining IH]; intros attempt s e s' Hidx Hrun.
  - cbn in Hrun. injection Hrun as <- <-.
    split; [reflexivity |]. exists []. rewrite app_nil_r. auto.
  - rewrite poll_loop_step in Hrun.
    destruct (poll_attempt_cases ids maxRetries interval attempt s)
      as [(sd & pd & p & _ & _ & _ & _ & Ha) | [Ha | [Ha | [Hlast [Ha | Ha]]]]];
      rewrite Ha in Hrun; try discriminate.
    + destruct (IH (S attempt) _ _ _ ltac:(lia) Hrun)
        as (Ht & evs & Htrace & Hcount).
      split; [exact Ht |].
      exists (EvRequest (status_request ids) :: EvSleep interval :: evs).
      rewrite Htrace. trace_norm.
      rewrite requests_to_status_cons, requests_to_sleep, Hcount. auto.
    + destruct (IH (S attempt) _ _ _ ltac:(lia) Hrun)
        as (Ht & evs & Htrace & Hcount).
      split; [exact Ht |].
      exists (EvRequest (status_request ids)
              :: EvRequest (proposals_request ids) :: EvSleep interval :: evs).
      rewrite Htrace. trace_norm.
      rewrite requests_to_status_cons, requests_to_status_proposals,
        requests_to_sleep, Hcount. auto.
    + injection Hrun as <- <-. split; [reflexivity |].
      rewrite (final_attempt _ _ _ Hidx) in Hlast.
      apply Nat.eqb_eq in Hlast. subst remaining.
      exists [EvRequest (status_request ids)]. trace_norm.
      rewrite requests_to_status_cons. auto.
    + injection Hrun as <- <-. split; [reflexivity |].
      rewrite (final_attempt _ _ _ Hidx) in Hlast.
      apply Nat.eqb_eq in Hlast. subst remaining.
      exists [EvRequest (status_request ids); EvRequest (proposals_request ids)].
      trace_norm.
      rewrite requests_to_status_cons, requests_to_status_proposals. auto.
Qed.

Lemma poll_loop_any_well_formed ids maxRetries interval :
  well_formed ids = true ->
  forall remaining attempt s,
    poll_loop_any ids maxRetries interval remaining attempt s
    = poll_loop ids maxRetries interval remaining attempt s.
Proof.
  intros Hwf. induction remaining as [| k IH]; intros attempt s;
    [reflexivity |].
  cbn [poll_loop_any poll_loop]. unfold encodeURIComponent_or_throw.
  rewrite Hwf. unfold bind at 1. unfold lift at 1. unfold bind.
  destruct (poll_attempt ids maxRetries interval attempt s) as [[[v |] | e] s1];
    [reflexivity | apply IH | reflexivity].
Qed.

Lemma poll_loop_any_ill_formed ids maxRetries interval remaining attempt s :
  well_formed ids = false ->
  poll_loop_any ids maxRetries interval (S remaining) attempt s
  = (Throw (URIError "URI malformed"), s).
Proof.
  intros Hwf. cbn [poll_loop_any]. unfold encodeURIComponent_or_throw.
  rewrite Hwf. reflexivity.
Qed.

(** X1.  [pollUntilComplete] never lets an error of a request or of a
    response out.  On an identifier string without a lone surrogate,
    whatever it throws is one of its two timeout errors, thrown after
    exactly [maxRetries] status requests.  On a string with a lone
    surrogate, and with at least one attempt allowed, building the status
    URL throws a [URIError] outside the [try]: it leaves the function
    before any request. *)
Theorem poll_throws_timeouts_or_uri_error :
  (forall ids maxRetries interval s,
     well_formed ids = true ->
     pollUntilComplete_any ids maxRetries interval s
     = pollUntilComplete ids maxRetries interval s)
  /\ (forall ids maxRetries interval s,
        well_formed ids = false ->
        (0 < maxRetries)%nat ->
        pollUntilComplete_any ids maxRetries interval s
        = (Throw (URIError "URI malformed"), s))
  /\ (forall ids maxRetries interval s e s',
        pollUntilComplete_any ids maxRetries interval s = (Throw e, s') ->
        (is_timeout e = true
         /\ (well_formed ids = true \/ maxRetries = 0%nat)
         /\ exists evs,
              trace s' = (trace s ++ evs)%list
              /\ requests_to (with_ids statusUrl ids) evs = maxRetries)
        \/ (well_formed ids = false
            /\ (0 < maxRetries)%nat
            /\ e = URIError "URI malformed"
            /\ s' = s)).
Proof.
  split; [| split].
  - intros ids maxRetries interval s Hwf.
    apply poll_loop_any_well_formed. exact Hwf.
  - intros ids maxRetries interval s Hwf Hpos.
    unfold pollUntilComplete_any. destruct maxRetries as [| k]; [lia |].
    apply poll_loop_any_ill_formed. exact Hwf.
  - intros ids maxRetries interval s e s' Hrun.
    unfold pollUntilComplete_any in Hrun.
    destruct (well_formed ids) eqn:Hwf.
    + left. rewrite (poll_loop_any_well_formed _ _ _ Hwf) in Hrun.
      destruct (poll_loop_throw ids maxRetries interval maxRetries 0 s e s'
                  eq_refl Hrun) as (Ht & Hevs).
      split; [exact Ht |]. split; [left; reflexivity | exact Hevs].
    + destruct maxRetries as [| k].
      * left. cbn in Hrun. injection Hrun as <- <-.
        split; [reflexivity |]. split; [right; reflexivity |].
        exists []. rewrite app_nil_r. split; reflexivity.
      * right. rewrite (poll_loop_any_ill_formed _ _ _ _ _ _ Hwf) in Hrun.
        injection Hrun as <- <-. repeat split. lia.
Qed.

Lemma poll_throws_timeouts_or_uri_error_witness :
  (pollUntilComplete_any "1,2" 2 10000
     (start [json_ok VNull; NetworkError "socket hang up"])
   = pollUntilComplete "1,2" 2 10000
       (start [json_ok VNull; NetworkError "socket hang up"]))
  /\ (pollUntilComplete_any
        (String (ascii_of_N 237) (String (ascii_of_N 160)
           (String (ascii_of_N 128) EmptyString)))
        2 10000 (start [json_ok completed_status; json_ok two_proposals])
      = (Throw (URIError "URI malformed"),
         start [json_ok completed_status; json_ok two_proposals]))
  /\ ((is_timeout (Error "Polling timed out after all attempts.") = true
       /\ (well_formed "1,2" = true \/ 2%nat = 0%nat)
       /\ exists evs,
            trace (snd (pollUntilComplete_any "1,2" 2 10000
                          (start [json_ok VNull;
                                  NetworkError "socket hang up"])))
            = ([] ++ evs)%list
            /\ requests_to (with_ids statusUrl "1,2") evs = 2%nat)
      \/ (well_formed "1,2" = false
          /\ (0 < 2)%nat
          /\ Error "Polling timed out after all attempts."
             = URIError "URI malformed"
          /\ snd (pollUntilComplete_any "1,2" 2 10000
                    (start [json_ok VNull; NetworkError "socket hang up"]))
             = start [json_ok VNull; NetworkError "socket hang up"])).
Proof.
  split; [| split].
  - apply (proj1 poll_throws_timeouts_or_uri_error). reflexivity.
  - apply (proj1 (proj2 poll_throws_timeouts_or_uri_error)).
    + reflexivity.
    + lia.
  - apply (proj2 (proj2 poll_throws_timeouts_or_uri_error) "1,2" 2%nat 10000%Z
             (start [json_ok VNull; NetworkError "socket hang up"])
             (Error "Polling timed out after all attempts.")).
    vm_compute. reflexivity.
Defined.

(** What a returned result is made of. *)
Lemma poll_loop_return ids maxRetries interval :
  forall remaining attempt s v s',
    poll_loop ids maxRetries interval remaining attempt s = (Ok v, s') ->
    exists evs statusData proposalsData,
      trace s'
      = (trace s ++ evs ++ [EvRequest (status_request ids);
                            EvRequest (proposals_request ids)])%list
      /\ (calls s + 2 <= calls s')%nat
      /\ reply_data (payload (server s (calls s' - 2))) = Ok statusData
      /\ completion_predicate statusData = Ok true
      /\ reply_data (payload (server s (calls s' - 1))) = Ok proposalsData
      /\ get_prop proposalsData "proposals" = Ok v
      /\ sleeps evs = requests_to (with_ids statusUrl ids) evs
      /\ (requests_to (with_ids statusUrl ids) evs < remaining)%nat.
Proof.
  induction remaining as [| remaining IH]; intros attempt s v s' Hrun;
    [discriminate Hrun |].
  rewrite poll_loop_step in Hrun.
  destruct (poll_attempt_cases ids maxRetries interval attempt s)
    as [(sd & pd & p & H0 & Hp & H1 & Hg & Ha) | [Ha | [Ha | [_ [Ha | Ha]]]]];
    rewrite Ha in Hrun; try discriminate.
  - injection Hrun as <- <-. exists [], sd, pd.
    split; [trace_norm; reflexivity |].
    cbn [sent waited advance next_call record calls server].
    replace (S (S (calls s)) - 2)%nat with (calls s + 0)%nat by lia.
    replace (S (S (calls s)) - 1)%nat with (calls s + 1)%nat by lia.
    repeat split;
      first [assumption | reflexivity | lia | exact H0 | exact H1
            | cbn; lia].
  - destruct (IH _ _ _ _ Hrun)
      as (evs & sd & pd & Htrace & Hcalls & H0 & Hp & H1 & Hg & Hs & Hlt).
    cbn [sent waited advance next_call record calls server] in Hcalls, H0, H1.
    exists (EvRequest (status_request ids) :: EvSleep interval :: evs), sd, pd.
    rewrite Htrace. trace_norm.
    rewrite requests_to_status_cons, requests_to_sleep, sleeps_request,
      sleeps_sleep.
    repeat split; auto; lia.
  - destruct (IH _ _ _ _ Hrun)
      as (evs & sd & pd & Htrace & Hcalls & H0 & Hp & H1 & Hg & Hs & Hlt).
    cbn [sent waited advance next_call record calls server] in Hcalls, H0, H1.
    exists (EvRequest (status_request ids) :: EvRequest (proposals_request ids)
            :: EvSleep interval :: evs), sd, pd.
    rewrite Htrace. trace_norm.
    rewrite requests_to_status_cons, requests_to_status_proposals,
      requests_to_sleep, !sleeps_request, sleeps_sleep.
    repeat split; auto; lia.
Qed.

(** X2.  Whatever [pollUntilComplete] returns is the [proposals] field of the
    payload of its last request, a proposals request that directly
    follows a status request whose answer satisfied the completion
    predicate; every earlier attempt made one status request and slept
    once. *)
Theorem poll_returns_fetched_proposals :
  forall ids maxRetries interval s v s',
    pollUntilComplete ids maxRetries interval s = (Ok v, s') ->
    exists evs statusData proposalsData,
      trace s'
      = (trace s ++ evs ++ [EvRequest (status_request ids);
                            EvRequest (proposals_request ids)])%list
      /\ (calls s + 2 <= calls s')%nat
      /\ reply_data (payload (server s (calls s' - 2))) = Ok statusData
      /\ completion_predicate statusData = Ok true
      /\ reply_data (payload (server s (calls s' - 1))) = Ok proposalsData
      /\ get_prop proposalsData "proposals" = Ok v
      /\ sleeps evs = requests_to (with_ids statusUrl ids) evs
      /\ (requests_to (with_ids statusUrl ids) evs < maxRetries)%nat.
Proof.
  intros ids maxRetries interval s v s'. apply poll_loop_return.
Qed.

Lemma poll_returns_fetched_proposals_witness :
  exists evs statusData proposalsData,
    trace (snd (pollUntilComplete "1,2" 3 10000
                  (start [json_ok pending_status; json_ok partial_status;
                          json_ok two_proposals])))
    = ([] ++ evs ++ [EvRequest (status_request "1,2");
                     EvRequest (proposals_request "1,2")])%list
    /\ (0 + 2 <= 3)%nat
    /\ reply_data (json_ok partial_status) = Ok statusData
    /\ completion_predicate statusData = Ok true
    /\ reply_data (json_ok two_proposals) = Ok proposalsData
    /\ get_prop proposalsData "proposals" = Ok (prop two_proposals "proposals")
    /\ sleeps evs = requests_to (with_ids statusUrl "1,2") evs
    /\ (requests_to (with_ids statusUrl "1,2") evs < 3)%nat.
Proof.
  apply (poll_returns_fetched_proposals "1,2" 3%nat 10000%Z
           (start [json_ok pending_status; json_ok partial_status;
                   json_ok two_proposals])
           (prop two_proposals "proposals")).
  vm_compute. reflexivity.
Defined.

Lemma now_rounds ids interval n : forall s,
  (now s + Z.of_nat n * timer_delay interval
   <= now (rounds ids interval n s))%Z.
Proof.
  induction n as [| n IH]; intros s; cbn [rounds]; [lia |].
  specialize (IH (waited interval (sent (status_request ids) s))).
  cbn [waited sent advance next_call record now] in IH. lia.
Qed.

(** X3.  When every allowed attempt gets a 2xx status that does not satisfy
    the completion predicate, the poll ends with the loop's own error
    ['Polling timed out.'], not with the one of the [catch] block: it
    has made [maxRetries] status requests and no proposals request, and
    has slept [maxRetries] times, once more than it needed to; the
    clock has advanced by at least [maxRetries] times the delay the
    timer is armed for, hence by [maxRetries] x interval when the
    interval is at most 2147483647 ms. *)
Theorem poll_exhausted_without_error :
  forall ids maxRetries interval s,
    (forall i, (i < maxRetries)%nat ->
       unfinished (payload (server s (calls s + i))) = true) ->
    exists s' evs,
      pollUntilComplete ids maxRetries interval s
      = (Throw (Error "Polling timed out."), s')
      /\ trace s' = (trace s ++ evs)%list
      /\ requests_to (with_ids statusUrl ids) evs = maxRetries
      /\ requests_to (with_ids proposalsUrl ids) evs = 0%nat
      /\ sleeps evs = maxRetries
      /\ (now s + Z.of_nat maxRetries * timer_delay interval <= now s')%Z
      /\ ((interval <= 2147483647)%Z ->
          (now s + Z.of_nat maxRetries * interval <= now s')%Z).
Proof.
  intros ids maxRetries interval s Hall.
  exists (rounds ids interval maxRetries s), (round_events ids interval maxRetries).
  destruct (round_events_count ids interval maxRetries) as (Hst & Hpr & Hsl).
  split.
  - unfold pollUntilComplete.
    replace maxRetries with (maxRetries + 0)%nat at 2 by lia.
    rewrite poll_loop_skip by assumption. reflexivity.
  - split; [apply trace_rounds |].
    pose proof (now_rounds ids interval maxRetries s) as Hclock.
    repeat split; auto.
    intros Hsmall.
    pose proof (proj2 (timer_delay_bounds interval) Hsmall) as Hdelay.
    pose proof (Z.mul_le_mono_nonneg_l interval (timer_delay interval)
                  (Z.of_nat maxRetries) ltac:(lia) Hdelay).
    lia.
Qed.

Lemma poll_exhausted_without_error_witness :
  exists s' evs,
    pollUntilComplete "1,2" 2 10000
      (start [json_ok pending_status; http_error 204 "No Content"])
    = (Throw (Error "Polling timed out."), s')
    /\ trace s' = ([] ++ evs)%list
    /\ requests_to (with_ids statusUrl "1,2") evs = 2%nat
    /\ requests_to (with_ids proposalsUrl "1,2") evs = 0%nat
    /\ sleeps evs = 2%nat
    /\ (0 + Z.of_nat 2 * 10000 <= now s')%Z.
Proof.
  destruct (poll_exhausted_without_error "1,2" 2%nat 10000%Z
              (start [json_ok pending_status; http_error 204 "No Content"]))
    as (s' & evs & Hrun & Htrace & Hst & Hpr & Hsl & _ & Hclock).
  - intros [| [| i]] Hi; [reflexivity | reflexivity | cbn in Hi; lia].
  - exists s', evs. repeat split; auto. apply Hclock. lia.
Defined.

Lemma gated_status ids b evs :
  gated (with_ids statusUrl ids) (with_ids proposalsUrl ids) b
        (EvRequest (status_request ids) :: evs)
  = gated (with_ids statusUrl ids) (with_ids proposalsUrl ids) true evs.
Proof.
  cbn [gated is_request_to status_request req_url].
  rewrite status_url_refl. reflexivity.
Qed.

Lemma gated_proposals ids b evs :
  gated (with_ids statusUrl ids) (with_ids proposalsUrl ids) b
        (EvRequest (proposals_request ids) :: evs)
  = b && gated (with_ids statusUrl ids) (with_ids proposalsUrl ids) false evs.
Proof.
  cbn [gated is_request_to proposals_request req_url].
  rewrite proposals_not_status, String.eqb_refl. reflexivity.
Qed.

Lemma gated_sleep u v b ms evs :
  gated u v b (EvSleep ms :: evs) = gated u v false evs.
Proof. reflexivity. Qed.

Lemma poll_loop_gated ids maxRetries interval :
  forall remaining attempt s,
  exists evs,
    trace (snd (poll_loop ids maxRetries interval remaining attempt s))
    = (trace s ++ evs)%list
    /\ (forall b,
          gated (with_ids statusUrl ids) (with_ids proposalsUrl ids) b evs = true)
    /\ (requests_to (with_ids proposalsUrl ids) evs
        <= requests_to (with_ids statusUrl ids) evs)%nat
    /\ (requests_to (with_ids statusUrl ids) evs <= remaining)%nat.
Proof.
  induction remaining as [| remaining IH]; intros attempt s.
  - exists []. cbn [poll_loop throw snd]. rewrite app_nil_r.
    repeat split; auto.
  - rewrite poll_loop_step.
    destruct (poll_attempt_cases ids maxRetries interval attempt s)
      as [(sd & pd & p & _ & _ & _ & _ & Ha) | [Ha | [Ha | [_ [Ha | Ha]]]]];
      rewrite Ha; cbn [snd].
    + exists [EvRequest (status_request ids); EvRequest (proposals_request ids)].
      trace_norm. split; [reflexivity |].
      rewrite requests_to_status_cons, requests_to_status_proposals,
        requests_to_proposals_status, requests_to_proposals_cons.
      repeat split; try (cbn; lia).
      intros b. rewrite gated_status, gated_proposals. reflexivity.
    + destruct (IH (S attempt) (waited interval (sent (status_request ids) s)))
        as (evs & Htrace & Hg & Hle & Hcount).
      exists (EvRequest (status_request ids) :: EvSleep interval :: evs).
      rewrite Htrace. trace_norm. split; [reflexivity |].
      rewrite requests_to_status_cons, requests_to_proposals_status,
        !requests_to_sleep.
      repeat split; try lia.
      intros b. rewrite gated_status, gated_sleep. apply Hg.
    + destruct (IH (S attempt)
                  (waited interval
                     (sent (proposals_request ids)
                        (sent (status_request ids) s))))
        as (evs & Htrace & Hg & Hle & Hcount).
      exists (EvRequest (status_request ids) :: EvRequest (proposals_request ids)
              :: EvSleep interval :: evs).
      rewrite Htrace. trace_norm. split; [reflexivity |].
      rewrite requests_to_status_cons, requests_to_status_proposals,
        requests_to_proposals_status, requests_to_proposals_cons,
        !requests_to_sleep.
      repeat split; try lia.
      intros b. rewrite gated_status, gated_proposals, gated_sleep. apply Hg.
    + exists [EvRequest (status_request ids)].
      trace_norm. split; [reflexivity |].
      rewrite requests_to_status_cons, requests_to_proposals_status.
      repeat split; try (cbn; lia).
      intros b. rewrite gated_status. reflexivity.
    + exists [EvRequest (status_request ids); EvRequest (proposals_request ids)].
      trace_norm. split; [reflexivity |].
      rewrite requests_to_status_cons, requests_to_status_proposals,
        requests_to_proposals_status, requests_to_proposals_cons.
      repeat split; try (cbn; lia).
      intros b. rewrite gated_status, gated_proposals. reflexivity.
Qed.

Example gated_rejects_ungated_fetch :
  gated (with_ids statusUrl "7") (with_ids proposalsUrl "7") false
    [EvRequest (status_request "7"); EvSleep 10000;
     EvRequest (proposals_request "7")] = false.
Proof. reflexivity. Qed.

(** X4.  The status check gates the proposals fetch: in every run of
    [pollUntilComplete] each proposals request comes directly after a
    status request, so there are never more proposals requests than
    status requests, and never more than [maxRetries]. *)
Theorem proposals_fetch_is_gated :
  forall ids maxRetries interval s,
  exists evs,
    trace (snd (pollUntilComplete ids maxRetries interval s))
    = (trace s ++ evs)%list
    /\ gated (with_ids statusUrl ids) (with_ids proposalsUrl ids) false evs = true
    /\ (requests_to (with_ids proposalsUrl ids) evs
        <= requests_to (with_ids statusUrl ids) evs)%nat
    /\ (requests_to (with_ids proposalsUrl ids) evs <= maxRetries)%nat.
Proof.
  intros ids maxRetries interval s. unfold pollUntilComplete.
  destruct (poll_loop_gated ids maxRetries interval maxRetries 0 s)
    as (evs & Htrace & Hg & Hle & Hcount).
  exists evs. repeat split; auto. lia.
Qed.

(** X5.  A 2xx response whose JSON body is [null] is neither a result nor a
    reason to go on waiting quietly: reading a property of it throws, so
    the attempt ends in the [catch] block, whether [null] was the status
    or, after a satisfying status, the proposals payload. *)
Theorem null_payload_is_a_failed_attempt :
  forall ids maxRetries interval remaining attempt s,
    (attempt + S remaining = maxRetries)%nat ->
    (answer_at s 0 = Ok VNull ->
     poll_loop ids maxRetries interval (S remaining) attempt s =
       match remaining with
       | O => (Throw (Error "Polling timed out after all attempts."),
               sent (status_request ids) s)
       | S _ =>
           poll_loop ids maxRetries interval remaining (S attempt)
             (waited interval (sent (status_request ids) s))
       end)
    /\ (forall statusData,
          answer_at s 0 = Ok statusData ->
          completion_predicate statusData = Ok true ->
          answer_at s 1 = Ok VNull ->
          poll_loop ids maxRetries interval (S remaining) attempt s =
            match remaining with
            | O => (Throw (Error "Polling timed out after all attempts."),
                    sent (proposals_request ids) (sent (status_request ids) s))
            | S _ =>
                poll_loop ids maxRetries interval remaining (S attempt)
                  (waited interval
                     (sent (proposals_request ids)
                        (sent (status_request ids) s)))
            end).
Proof.
  intros ids maxRetries interval remaining attempt s Hidx. split.
  - intros H0.
    rewrite poll_loop_step,
      (poll_attempt_status_unreadable _ _ _ _ _ VNull _ H0 eq_refl),
      poll_catch_eq, (final_attempt _ _ _ Hidx).
    destruct remaining; reflexivity.
  - intros statusData H0 Hp H1.
    rewrite poll_loop_step. unfold poll_attempt, try_catch.
    rewrite poll_try_eq, H0, Hp, H1. cbv zeta. cbn [get_prop].
    rewrite poll_catch_eq, (final_attempt _ _ _ Hidx).
    destruct remaining; reflexivity.
Qed.

Lemma null_payload_is_a_failed_attempt_witness :
  fst (pollUntilComplete "1,2" 1 10000 (start [json_ok VNull]))
  = Throw (Error "Polling timed out after all attempts.")
  /\ fst (pollUntilComplete "1,2" 2 10000
            (start [json_ok completed_status; json_ok VNull;
                    json_ok completed_status; json_ok two_proposals]))
     = Ok (prop two_proposals "proposals").
Proof.
  split.
  - unfold pollUntilComplete.
    rewrite (proj1 (null_payload_is_a_failed_attempt "1,2" 1%nat 10000%Z
                      0%nat 0%nat (start [json_ok VNull]) eq_refl) eq_refl).
    reflexivity.
  - unfold pollUntilComplete.
    rewrite (proj2 (null_payload_is_a_failed_attempt "1,2" 2%nat 10000%Z
                      1%nat 0%nat
                      (start [json_ok completed_status; json_ok VNull;
                              json_ok completed_status; json_ok two_proposals])
                      eq_refl)
               completed_status eq_refl eq_refl eq_refl).
    reflexivity.
Defined.

(** ** The transform, on any input *)

Lemma transformProject_throws project :
  nullish project = true ->
  exists message, transformProject project = Throw (TypeError message).
Proof.
  destruct project; cbn [nullish]; try discriminate; intros _;
    unfold transformProject; cbn [get_prop]; eauto.
Qed.

Lemma map_outcome_transformProject items :
  if forallb (fun project => negb (nullish project)) items
  then exists projects,
         map_outcome transformProject items = Ok projects
         /\ List.length projects = List.length items
  else exists message,
         map_outcome transformProject items = Throw (TypeError message).
Proof.
  induction items as [| project items IH]; cbn [forallb map_outcome].
  - exists []. auto.
  - destruct (nullish project) eqn:Hnull; cbn [negb andb].
    + destruct (transformProject_throws project Hnull) as [message ->]. eauto.
    + destruct (transformProject_details project Hnull) as (out & -> & _).
      destruct (forallb (fun p => negb (nullish p)) items).
      * destruct IH as (projects & -> & Hlen).
        exists (out :: projects). cbn [List.length]. auto.
      * destruct IH as (message & ->). eauto.
Qed.

Lemma transformData_dichotomy :
  forall rawData s,
    if is_records rawData
    then exists projects,
           transformData rawData s
           = (Ok (VObj [("timestamp", VStr (toISOString (now s)));
                        ("projects", VArr projects)]), s)
    else exists message,
           transformData rawData s = (Throw (TypeError message), s).
Proof.
  intros rawData s. unfold transformData, bind, Date_now, lift, ret.
  destruct rawData; cbn [is_records array_map]; eauto.
  pose proof (map_outcome_transformProject items) as Hmap.
  destruct (forallb (fun project => negb (nullish project)) items).
  - destruct Hmap as (projects & -> & _). eauto.
  - destruct Hmap as (message & ->). eauto.
Qed.

(** X8.  [transformData] produces a document exactly when its argument is an
    array with no [null] element; on anything else (the [undefined] of a
    payload without [proposals], an object, a string, an array holding
    one [null]) it throws a [TypeError], and either way it touches
    nothing. *)
Theorem transformData_needs_an_array_of_records :
  forall rawData s,
    if is_records rawData
    then exists projects,
           transformData rawData s
           = (Ok (VObj [("timestamp", VStr (toISOString (now s)));
                        ("projects", VArr projects)]), s)
    else exists message,
           transformData rawData s = (Throw (TypeError message), s).
Proof. exact transformData_dichotomy. Qed.

(** X9.  [milestonesCompleted] is never [undefined], [null] or another falsy
    leftover: it is a truthy value of the record or the number 0, and a
    truthy [milestones_completed] always wins over
    [completed_milestones]. *)
Theorem milestonesCompleted_is_truthy_or_zero :
  forall project out,
    transformProject project = Ok out ->
    (truthy (prop out "milestonesCompleted") = true
     \/ prop out "milestonesCompleted" = VNum 0)
    /\ nullish (prop out "milestonesCompleted") = false
    /\ (truthy (prop project "milestones_completed") = true ->
        prop out "milestonesCompleted" = prop project "milestones_completed").
Proof.
  intros project out Hout.
  assert (Hproject : nullish project = false).
  { destruct project; try reflexivity;
      unfold transformProject in Hout; cbn [get_prop] in Hout; discriminate. }
  destruct (transformProject_details project Hproject)
    as (out' & Hout' & _ & _ & _ & Hmc).
  rewrite Hout in Hout'. injection Hout' as <-. rewrite Hmc.
  unfold js_or.
  destruct (truthy (prop project "milestones_completed")) eqn:H1.
  - rewrite H1. repeat split; auto.
    destruct (prop project "milestones_completed"); try discriminate; reflexivity.
  - destruct (truthy (prop project "completed_milestones")) eqn:H2.
    + rewrite H2. repeat split; auto; try discriminate.
      destruct (prop project "completed_milestones"); try discriminate; reflexivity.
    + cbn [truthy]. repeat split; auto. discriminate.
Qed.

Lemma milestonesCompleted_is_truthy_or_zero_witness :
  exists out,
    transformProject
      (VObj [("milestones_completed", VNull); ("completed_milestones", VStr EmptyString)])
    = Ok out
    /\ prop out "milestonesCompleted" = VNum 0.
Proof.
  eexists. split; [reflexivity |].
  destruct (milestonesCompleted_is_truthy_or_zero
              (VObj [("milestones_completed", VNull);
                     ("completed_milestones", VStr EmptyString)])
              _ eq_refl) as ([Htruthy | Hzero] & _ & _).
  - discriminate Htruthy.
  - exact Hzero.
Defined.

(** ** The run as a whole *)

Lemma trigger_eq projectIds s :
  trigger projectIds s =
    match answer_at s 0 with
    | Throw e => (Throw e, sent (trigger_request projectIds) s)
    | Ok functionResponse =>
        match get_prop functionResponse "success" with
        | Throw e => (Throw e, sent (trigger_request projectIds) s)
        | Ok _ => (Ok tt, sent (trigger_request projectIds) s)
        end
    end.
Proof.
  unfold trigger, bind. rewrite makeRequest_eq, answer_at_0.
  fold (trigger_request projectIds).
  destruct (reply_data (payload (server s (calls s)))) as [d | e];
    [| reflexivity].
  unfold lift. destruct (get_prop d "success"); reflexivity.
Qed.

Lemma trigger_readable projectIds s data :
  answer_at s 0 = Ok data ->
  nullish data = false ->
  trigger projectIds s = (Ok tt, sent (trigger_request projectIds) s).
Proof.
  intros H0 Hdata. rewrite trigger_eq, H0, (get_prop_prop _ _ Hdata).
  reflexivity.
Qed.

Lemma fs_events_app evs1 evs2 :
  fs_events (evs1 ++ evs2)%list = (fs_events evs1 ++ fs_events evs2)%list.
Proof. apply filter_app. Qed.

Lemma network_app evs1 evs2 :
  network (evs1 ++ evs2)%list = (network evs1 ++ network evs2)%list.
Proof. apply filter_app. Qed.

Lemma poll_events_no_fs ids interval evs :
  Forall (poll_event ids interval) evs ->
  fs_events evs = [] /\ network evs = evs.
Proof.
  induction 1 as [| ev evs Hev _ [IH1 IH2]]; [split; reflexivity |].
  unfold fs_events, network in *.
  destruct Hev as [-> | [-> | ->]]; cbn [filter is_fs negb];
    rewrite ?IH1, ?IH2; split; reflexivity.
Qed.

Lemma write_results_eq file doc s :
  write_results file doc s =
    if disk s (Mkdir file) then
      if disk s (WriteFile file doc)
      then (Ok tt, record (EvFs (WriteFile file doc)) (record (EvFs (Mkdir file)) s))
      else (Throw (Error "file system operation failed"),
            record (EvFs (WriteFile file doc)) (record (EvFs (Mkdir file)) s))
    else (Throw (Error "file system operation failed"),
          record (EvFs (Mkdir file)) s).
Proof.
  unfold write_results, bind, fs_do.
  destruct (disk s (Mkdir file)); [| reflexivity].
  cbn [record disk]. destruct (disk s (WriteFile file doc)); reflexivity.
Qed.

Lemma transformData_eq rawData s :
  transformData rawData s =
    match array_map transformProject rawData with
    | Ok projects =>
        (Ok (VObj [("timestamp", VStr (toISOString (now s)));
                   ("projects", projects)]), s)
    | Throw e => (Throw e, s)
    end.
Proof.
  unfold transformData, bind, Date_now, lift, ret.
  destruct (array_map transformProject rawData); reflexivity.
Qed.

Lemma trace_record ev s : trace (record ev s) = (trace s ++ [ev])%list.
Proof. reflexivity. Qed.

(** X10.  The run is all or nothing on the file system.  Whatever the service
    and the disk do, the events of [main] are requests and timers
    followed by at most two file operations, the [mkdir] and then the
    write of [OUTPUT_FILE]; the exit code is 0 exactly when both were
    made and succeeded, and the document written then has the two keys
    [timestamp] and [projects]; with exit code 1 either no file
    operation was made, or the last one made is the one that failed. *)
Theorem main_writes_all_or_nothing :
  forall projectIds OUTPUT_FILE s,
  exists net files,
    trace (snd (main projectIds OUTPUT_FILE s)) = (trace s ++ net ++ files)%list
    /\ fs_events net = []
    /\ ((fst (main projectIds OUTPUT_FILE s) = 0%nat
         /\ exists timestamp projects,
              files = [EvFs (Mkdir OUTPUT_FILE);
                       EvFs (WriteFile OUTPUT_FILE
                               (VObj [("timestamp", VStr timestamp);
                                      ("projects", VArr projects)]))]
              /\ disk s (Mkdir OUTPUT_FILE) = true
              /\ disk s (WriteFile OUTPUT_FILE
                           (VObj [("timestamp", VStr timestamp);
                                  ("projects", VArr projects)])) = true)
        \/ (fst (main projectIds OUTPUT_FILE s) = 1%nat
            /\ (files = []
                \/ (files = [EvFs (Mkdir OUTPUT_FILE)]
                    /\ disk s (Mkdir OUTPUT_FILE) = false)
                \/ (exists doc,
                      files = [EvFs (Mkdir OUTPUT_FILE);
                               EvFs (WriteFile OUTPUT_FILE doc)]
                      /\ disk s (WriteFile OUTPUT_FILE doc) = false)))).
Proof.
  intros projectIds OUTPUT_FILE s. unfold main. rewrite trigger_eq.
  assert (Hstop : forall s1 : state,
    trace s1 = (trace s ++ [EvRequest (trigger_request projectIds)])%list ->
    exists net files,
      trace (snd (1%nat, s1)) = (trace s ++ net ++ files)%list
      /\ fs_events net = []
      /\ ((fst (1%nat, s1) = 0%nat
           /\ exists timestamp projects,
                files = [EvFs (Mkdir OUTPUT_FILE);
                         EvFs (WriteFile OUTPUT_FILE
                                 (VObj [("timestamp", VStr timestamp);
                                        ("projects", VArr projects)]))]
                /\ disk s (Mkdir OUTPUT_FILE) = true
                /\ disk s (WriteFile OUTPUT_FILE
                             (VObj [("timestamp", VStr timestamp);
                                    ("projects", VArr projects)])) = true)
          \/ (fst (1%nat, s1) = 1%nat
              /\ (files = []
                  \/ (files = [EvFs (Mkdir OUTPUT_FILE)]
                      /\ disk s (Mkdir OUTPUT_FILE) = false)
                  \/ (exists doc,
                        files = [EvFs (Mkdir OUTPUT_FILE);
                                 EvFs (WriteFile OUTPUT_FILE doc)]
                        /\ disk s (WriteFile OUTPUT_FILE doc) = false))))).
  { intros s1 Htrace.
    exists [EvRequest (trigger_request projectIds)], [].
    cbn [fst snd]. rewrite Htrace, app_nil_r.
    split; [reflexivity |]. split; [reflexivity |]. right. auto. }
  destruct (answer_at s 0) as [functionResponse | e];
    [| apply Hstop; reflexivity].
  destruct (get_prop functionResponse "success");
    [| apply Hstop; reflexivity].
  clear Hstop. unfold collect, bind, pollUntilComplete.
  destruct (poll_loop_shape projectIds default_maxRetries default_interval
              default_maxRetries 0 (sent (trigger_request projectIds) s))
    as (evs & Htrace & _ & Hdisk & Hall & _).
  destruct (poll_events_no_fs _ _ _ Hall) as [Hnofs _].
  destruct (poll_loop projectIds default_maxRetries default_interval
              default_maxRetries 0 (sent (trigger_request projectIds) s))
    as [[rawResults | e] s2]; cbn [fst snd] in *.
  - rewrite transformData_eq.
    destruct (array_map transformProject rawResults) as [projects | e] eqn:Emap.
    + assert (Harr : exists items, projects = VArr items).
      { destruct rawResults; cbn [array_map] in Emap; try discriminate.
        destruct (map_outcome transformProject items); [| discriminate].
        injection Emap as <-. eauto. }
      destruct Harr as [items ->].
      rewrite write_results_eq. rewrite Hdisk.
      cbn [sent advance next_call record disk].
      exists (EvRequest (trigger_request projectIds) :: evs).
      destruct (disk s (Mkdir OUTPUT_FILE)) eqn:Hmk;
        [destruct (disk s (WriteFile OUTPUT_FILE _)) eqn:Hwr |];
        eexists; cbn [fst snd]; rewrite ?trace_record, Htrace;
        trace_norm;
        (split; [rewrite <- ?app_assoc; cbn [app]; reflexivity |]);
        (split; [unfold fs_events in *; cbn [filter is_fs]; exact Hnofs |]).
      * left. split; [reflexivity |]. do 2 eexists. repeat split; eassumption.
      * right. split; [reflexivity |]. right. right. eexists. split;
          [reflexivity | eassumption].
      * right. split; [reflexivity |]. right. left. auto.
    + exists (EvRequest (trigger_request projectIds) :: evs), [].
      cbn [fst snd]. rewrite Htrace. trace_norm. rewrite app_nil_r.
      split; [reflexivity |].
      split; [unfold fs_events in *; cbn [filter is_fs]; exact Hnofs |].
      right. auto.
  - exists (EvRequest (trigger_request projectIds) :: evs), [].
    rewrite Htrace. trace_norm. rewrite app_nil_r.
    split; [reflexivity |].
    split; [unfold fs_events in *; cbn [filter is_fs]; exact Hnofs |].
    right. auto.
Qed.

Lemma main_polls_after_trigger projectIds OUTPUT_FILE s s1 :
  trigger projectIds s = (Ok tt, s1) ->
  exists evs,
    trace (snd (main projectIds OUTPUT_FILE s))
    = (trace s1 ++ EvRequest (status_request projectIds) :: evs)%list.
Proof.
  intros Htrigger. unfold main. rewrite Htrigger.
  unfold collect, bind, pollUntilComplete.
  change (poll_loop projectIds default_maxRetries default_interval
            default_maxRetries 0 s1)
    with (poll_loop projectIds default_maxRetries default_interval 30 0 s1).
  destruct (poll_loop_first_event projectIds default_maxRetries default_interval
              29 0 s1) as (evs & Htrace).
  destruct (poll_loop projectIds default_maxRetries default_interval 30 0 s1)
    as [[rawResults | e] s2]; cbn [fst snd] in *; [| eauto].
  pose proof (transformData_state rawResults s2) as Hstate.
  destruct (transformData rawResults s2) as [[doc | e] s3];
    cbn [snd] in Hstate; subst s3; [| eauto].
  destruct (write_results_trace OUTPUT_FILE doc s2) as (evs' & Hw & _).
  exists (evs ++ evs')%list.
  destruct (write_results OUTPUT_FILE doc s2) as [[[] | e] s3];
    cbn [snd] in *; rewrite Hw, Htrace; trace_norm; reflexivity.
Qed.

(** X11.  The body of the trigger response is advisory.  After a 2xx trigger
    response with any readable data, an object saying
    [success: false] included, the run goes on to poll: its next event
    is the first status request.  Only data that is [null] stops the
    run, with exit code 1 and nothing done but the trigger request,
    because [functionResponse.success] cannot be read. *)
Theorem trigger_body_is_advisory :
  forall projectIds OUTPUT_FILE s functionResponse,
    answer_at s 0 = Ok functionResponse ->
    (nullish functionResponse = false ->
     exists evs,
       trace (snd (main projectIds OUTPUT_FILE s))
       = (trace s ++ EvRequest (trigger_request projectIds)
                  :: EvRequest (status_request projectIds) :: evs)%list)
    /\ (nullish functionResponse = true ->
        main projectIds OUTPUT_FILE s
        = (1%nat, sent (trigger_request projectIds) s)).
Proof.
  intros projectIds OUTPUT_FILE s functionResponse H0. split; intros Hdata.
  - destruct (main_polls_after_trigger projectIds OUTPUT_FILE s _
                (trigger_readable projectIds s _ H0 Hdata)) as (evs & Htrace).
    exists evs. rewrite Htrace. trace_norm. reflexivity.
  - unfold main. rewrite trigger_eq, H0.
    destruct functionResponse; try discriminate; reflexivity.
Qed.

Lemma trigger_body_is_advisory_witness :
  (exists evs,
      trace (snd (main "1,2" default_output_file
                    (start [json_ok (VObj [("success", VBool false)])])))
      = ([] ++ EvRequest (trigger_request "1,2")
            :: EvRequest (status_request "1,2") :: evs)%list)
  /\ main "1,2" default_output_file (start [json_ok VNull])
     = (1%nat, sent (trigger_request "1,2") (start [json_ok VNull])).
Proof.
  split.
  - apply (proj1 (trigger_body_is_advisory "1,2" default_output_file
                    (start [json_ok (VObj [("success", VBool false)])])
                    (VObj [("success", VBool false)]) eq_refl)).
    reflexivity.
  - apply (proj2 (trigger_body_is_advisory "1,2" default_output_file
                    (start [json_ok VNull]) VNull eq_refl)).
    reflexivity.
Defined.




(** X13.  A poll result that is not an array of records never reaches the
    disk: when polling returns such a value (the [undefined] of a
    proposals payload without a [proposals] field, after a blank or
    non-JSON proposals body for instance), [main] exits with 1 right
    after the poll, without any file operation. *)
Theorem main_rejects_malformed_proposals :
  forall projectIds OUTPUT_FILE s functionResponse rawResults s2,
    answer_at s 0 = Ok functionResponse ->
    nullish functionResponse = false ->
    pollUntilComplete projectIds default_maxRetries default_interval
      (sent (trigger_request projectIds) s)
    = (Ok rawResults, s2) ->
    is_records rawResults = false ->
    main projectIds OUTPUT_FILE s = (1%nat, s2)
    /\ fs_events (trace s2) = fs_events (trace s).
Proof.
  intros projectIds OUTPUT_FILE s functionResponse rawResults s2
    H0 Hdata Hpoll Hbad.
  split.
  - unfold main. rewrite (trigger_readable _ _ _ H0 Hdata).
    unfold collect, bind. rewrite Hpoll.
    pose proof (transformData_dichotomy rawResults s2) as Ht.
    rewrite Hbad in Ht. destruct Ht as (message & ->). reflexivity.
  - unfold pollUntilComplete in Hpoll.
    destruct (poll_loop_shape projectIds default_maxRetries default_interval
                default_maxRetries 0 (sent (trigger_request projectIds) s))
      as (evs & Htrace & _ & _ & Hall & _).
    rewrite Hpoll in Htrace. cbn [snd] in Htrace.
    rewrite Htrace, trace_sent, !fs_events_app.
    destruct (poll_events_no_fs _ _ _ Hall) as [-> _].
    cbn. rewrite !app_nil_r. reflexivity.
Qed.

Lemma main_rejects_malformed_proposals_witness :
  fst (main "1,2" default_output_file
         (start [json_ok (VObj [("success", VBool true)]);
                 json_ok completed_status; http_error 200 "OK"]))
  = 1%nat
  /\ fs_events
       (trace (snd (main "1,2" default_output_file
                      (start [json_ok (VObj [("success", VBool true)]);
                              json_ok completed_status; http_error 200 "OK"]))))
     = [].
Proof.
  destruct (main_rejects_malformed_proposals "1,2" default_output_file
              (start [json_ok (VObj [("success", VBool true)]);
                      json_ok completed_status; http_error 200 "OK"])
              (VObj [("success", VBool true)]) VUndefined
              (snd (pollUntilComplete "1,2" default_maxRetries default_interval
                      (sent (trigger_request "1,2")
                         (start [json_ok (VObj [("success", VBool true)]);
                                 json_ok completed_status;
                                 http_error 200 "OK"])))))
    as [Hrun Hfs].
  - reflexivity.
  - reflexivity.
  - vm_compute. reflexivity.
  - reflexivity.
  - rewrite Hrun. cbn [fst snd]. split; [reflexivity | exact Hfs].
Defined.

(** ** The identifier list in every request *)

Lemma query_param_with_ids url csv :
  after_char "?" url = None ->
  query_param "projectIds" (with_ids url csv) = Some csv.
Proof.
  intros Hurl. unfold query_param, with_ids.
  assert (Hafter : forall rest,
    after_char "?" (url ++ String "?" rest) = Some rest).
  { induction url as [| c url IH]; intros rest; cbn [append after_char].
    - reflexivity.
    - cbn [after_char] in Hurl. destruct (Ascii.eqb c "?"); [discriminate |].
      apply IH. exact Hurl. }
  change (url ++ "?projectIds=" ++ encodeURIComponent csv)
    with (url ++ String "?" ("projectIds=" ++ encodeURIComponent csv)).
  rewrite Hafter.
  change (strip_prefix ("projectIds" ++ "=")
            ("projectIds=" ++ encodeURIComponent csv))
    with (Some (encodeURIComponent csv)).
  cbv beta iota. rewrite before_amp_encode. apply decode_encode.
Qed.

(** X14.  The poller sends the identifier list it was given with every
    request, in both variants: the query parameter of each status
    request and of each proposals request decodes to the string passed
    to [pollUntilComplete], and so does the [ids] parameter of the
    draft's poll request. *)
Theorem poll_requests_carry_the_ids :
  forall ids,
    query_param "projectIds" (req_url (status_request ids)) = Some ids
    /\ query_param "projectIds" (req_url (proposals_request ids)) = Some ids
    /\ query_param "ids" (req_url (draft_poll_request ids)) = Some ids.
Proof.
  intros ids. cbn [status_request proposals_request draft_poll_request req_url].
  split; [apply query_param_with_ids; reflexivity |].
  split; [apply query_param_with_ids; reflexivity |].
  unfold query_param.
  change (after_char "?" (Draft.pollUrl ++ "?ids=" ++ encodeURIComponent ids))
    with (Some ("ids=" ++ encodeURIComponent ids)).
  cbv beta iota.
  change (strip_prefix ("ids" ++ "=") ("ids=" ++ encodeURIComponent ids))
    with (Some (encodeURIComponent ids)).
  cbv beta iota. rewrite before_amp_encode. apply decode_encode.
Qed.

Lemma encode_char_safe c rest :
  string_forall (fun a => unreserved a || Ascii.eqb a "%")
    (encodeURIComponent (String c rest))
  = string_forall (fun a => unreserved a || Ascii.eqb a "%")
      (encodeURIComponent rest)
  /\ (String.length (encodeURIComponent (String c rest))
      = S (String.length (encodeURIComponent rest))
      \/ String.length (encodeURIComponent (String c rest))
         = S (S (S (String.length (encodeURIComponent rest)))))
  /\ (unreserved c = true ->
      encodeURIComponent (String c rest) = String c (encodeURIComponent rest)).
Proof.
  destruct c as [[] [] [] [] [] [] [] []];
    (split; [reflexivity |]);
    (split; [first [left; reflexivity | right; reflexivity] |]);
    intros H; first [reflexivity | discriminate H].
Qed.

(** X15.  The identifier list cannot break out of its query parameter: what
    [encodeURIComponent] puts into the URL consists of unreserved
    characters and [%] only (no [&], [=], [?], [#], space or comma); it
    has at least as many characters as the input has UTF-8 bytes and at
    most three times as many; and an input of unreserved characters goes
    through unchanged.  The bound is in bytes, not in the [length] of the
    JavaScript string: a character outside ASCII has several bytes, each
    of which becomes three characters. *)
Theorem encoded_ids_are_url_safe :
  forall ids,
    string_forall (fun a => unreserved a || Ascii.eqb a "%")
      (encodeURIComponent ids) = true
    /\ (utf8_length ids <= String.length (encodeURIComponent ids)
        <= 3 * utf8_length ids)%nat
    /\ (string_forall unreserved ids = true -> encodeURIComponent ids = ids).
Proof.
  unfold utf8_length.
  induction ids as [| c ids (IH1 & IH2 & IH3)]; [repeat split; cbn; lia |].
  destruct (encode_char_safe c ids) as (Hsafe & Hlen & Hid).
  split; [rewrite Hsafe; exact IH1 |].
  split; [cbn [String.length]; destruct Hlen as [-> | ->]; lia |].
  cbn [string_forall]. intros H. apply andb_true_iff in H as [Hc Hrest].
  rewrite (Hid Hc), (IH3 Hrest). reflexivity.
Qed.

(** The second string is the two bytes of e with an acute accent, one
    UTF-16 unit: six characters in the URL. *)
Lemma encoded_ids_are_url_safe_witness :
  encodeURIComponent "A-1.b_2" = "A-1.b_2"
  /\ encodeURIComponent "1,2&x=3" = "1%2C2%26x%3D3"
  /\ utf8_length (String (ascii_of_N 195) (String (ascii_of_N 169) EmptyString))
     = 2%nat
  /\ encodeURIComponent
       (String (ascii_of_N 195) (String (ascii_of_N 169) EmptyString))
     = "%C3%A9".
Proof.
  split; [| split; [| split]].
  - apply (proj2 (proj2 (encoded_ids_are_url_safe "A-1.b_2"))). reflexivity.
  - reflexivity.
  - reflexivity.
  - reflexivity.
Defined.

(** ** The draft's poller *)

Lemma draft_poll_attempt_eq ids interval s :
  Draft.poll_attempt ids interval s =
    match draft_reading (payload (server s (calls s))) with
    | Throw e => (Throw e, sent (draft_poll_request ids) s)
    | Ok (data_status, results) =>
        if is_string data_status "completed"
        then (Ok (Some results), sent (draft_poll_request ids) s)
        else (Ok None, waited interval (sent (draft_poll_request ids) s))
    end.
Proof.
  unfold Draft.poll_attempt, bind, fetch, draft_reading.
  fold (draft_poll_request ids).
  destruct (payload (server s (calls s))) as [reason | res]; [reflexivity |].
  destruct (ok res); cbn [negb]; [| reflexivity].
  unfold lift. destruct (Draft.json (res_body res)) as [data | e];
    [| reflexivity].
  destruct (get_prop data "status") as [data_status | e]; [| reflexivity].
  destruct (is_string data_status "completed"); reflexivity.
Qed.

Lemma server_draft_rounds ids interval n : forall s,
  server (draft_rounds ids interval n s) = server s
  /\ calls (draft_rounds ids interval n s) = (calls s + n)%nat.
Proof.
  induction n as [| n IH]; intros s; cbn [draft_rounds].
  - split; [reflexivity | lia].
  - destruct (IH (waited interval (sent (draft_poll_request ids) s))) as [-> ->].
    cbn [waited sent advance next_call record server calls].
    split; [reflexivity | lia].
Qed.

Lemma trace_draft_rounds ids interval n : forall s,
  trace (draft_rounds ids interval n s)
  = (trace s ++ draft_round_events ids interval n)%list.
Proof.
  induction n as [| n IH]; intros s; cbn [draft_rounds draft_round_events].
  - rewrite app_nil_r. reflexivity.
  - rewrite IH. trace_norm. reflexivity.
Qed.

Lemma draft_round_events_count ids interval n :
  List.length (draft_round_events ids interval n) = (2 * n)%nat
  /\ sleeps (draft_round_events ids interval n) = n.
Proof.
  induction n as [| n [IH1 IH2]]; [split; reflexivity |].
  cbn [draft_round_events List.length].
  rewrite sleeps_request, sleeps_sleep, IH1, IH2. split; lia.
Qed.

Lemma draft_poll_loop_skip ids interval :
  forall n remaining s,
    (forall i, (i < n)%nat ->
       draft_waiting (payload (server s (calls s + i))) = true) ->
    Draft.poll_loop ids interval (n + remaining) s
    = Draft.poll_loop ids interval remaining (draft_rounds ids interval n s).
Proof.
  induction n as [| n IH]; intros remaining s Hall; [reflexivity |].
  cbn [Nat.add Draft.poll_loop]. unfold bind at 1.
  rewrite draft_poll_attempt_eq.
  pose proof (Hall 0%nat ltac:(lia)) as H0. unfold draft_waiting in H0.
  rewrite Nat.add_0_r in H0.
  destruct (draft_reading (payload (server s (calls s))))
    as [[data_status results] | e]; [| discriminate].
  destruct (is_string data_status "completed"); [discriminate |].
  rewrite IH; [reflexivity |].
  intros i Hi. cbn [waited sent advance next_call record server calls].
  replace (S (calls s) + i)%nat with (calls s + S i)%nat by lia.
  apply Hall. lia.
Qed.

(** X16.  The draft's poller returns [data.results] of the first status
    response whose [status] is ['completed'], after one request and one
    sleep per earlier response; it never looks at [hasData], and a
    completed response without [results] makes it return [undefined]. *)
Theorem draft_poll_returns_results :
  forall ids maxRetries interval s k data_status results,
    (k < maxRetries)%nat ->
    (forall i, (i < k)%nat ->
       draft_waiting (payload (server s (calls s + i))) = true) ->
    draft_reading (payload (server s (calls s + k))) = Ok (data_status, results) ->
    is_string data_status "completed" = true ->
    exists s',
      Draft.pollUntilComplete ids maxRetries interval s = (Ok results, s')
      /\ trace s'
         = (trace s ++ draft_round_events ids interval k
                    ++ [EvRequest (draft_poll_request ids)])%list.
Proof.
  intros ids maxRetries interval s k data_status results Hk Hwait Hread Hdone.
  unfold Draft.pollUntilComplete.
  replace maxRetries with (k + S (maxRetries - k - 1))%nat by lia.
  rewrite draft_poll_loop_skip by assumption.
  cbn [Draft.poll_loop]. unfold bind. rewrite draft_poll_attempt_eq.
  destruct (server_draft_rounds ids interval k s) as [-> ->].
  rewrite Hread, Hdone. eexists. split; [reflexivity |].
  rewrite trace_sent, trace_draft_rounds, <- app_assoc. reflexivity.
Qed.

Lemma draft_poll_returns_results_witness :
  exists s',
    Draft.pollUntilComplete "1,2" 5 10000
      (start [json_ok pending_status;
              json_ok (VObj [("status", VStr "completed");
                             ("hasData", VBool false);
                             ("results", VArr [VNum 7])])])
    = (Ok (VArr [VNum 7]), s')
    /\ trace s'
       = ([] ++ draft_round_events "1,2" 10000 1
             ++ [EvRequest (draft_poll_request "1,2")])%list.
Proof.
  apply (draft_poll_returns_results "1,2" 5%nat 10000%Z
           (start [json_ok pending_status;
                   json_ok (VObj [("status", VStr "completed");
                                  ("hasData", VBool false);
                                  ("results", VArr [VNum 7])])])
           1%nat (VStr "completed") (VArr [VNum 7])).
  - lia.
  - intros [| i] Hi; [reflexivity | lia].
  - reflexivity.
  - reflexivity.
Defined.

(** X17.  The draft's poller has no error handling of its own.  The first
    response it cannot use (a connection failure, a non-2xx status, a
    body that is not JSON, JSON [null]) ends the poll with that very
    exception, however many attempts are left; and when all
    [maxRetries] responses are usable but none is ['completed'], it ends
    with ['Polling timed out.'] after [maxRetries] requests and as many
    sleeps. *)
Theorem draft_poll_fails_fast_or_times_out :
  forall ids maxRetries interval s,
    (forall k e,
        (k < maxRetries)%nat ->
        (forall i, (i < k)%nat ->
           draft_waiting (payload (server s (calls s + i))) = true) ->
        draft_reading (payload (server s (calls s + k))) = Throw e ->
        exists s',
          Draft.pollUntilComplete ids maxRetries interval s = (Throw e, s')
          /\ trace s'
             = (trace s ++ draft_round_events ids interval k
                        ++ [EvRequest (draft_poll_request ids)])%list)
    /\ ((forall i, (i < maxRetries)%nat ->
           draft_waiting (payload (server s (calls s + i))) = true) ->
        exists s',
          Draft.pollUntilComplete ids maxRetries interval s
          = (Throw (Error "Polling timed out."), s')
          /\ trace s'
             = (trace s ++ draft_round_events ids interval maxRetries)%list
          /\ sleeps (draft_round_events ids interval maxRetries) = maxRetries).
Proof.
  intros ids maxRetries interval s. split.
  - intros k e Hk Hwait Hread. unfold Draft.pollUntilComplete.
    replace maxRetries with (k + S (maxRetries - k - 1))%nat by lia.
    rewrite draft_poll_loop_skip by assumption.
    cbn [Draft.poll_loop]. unfold bind. rewrite draft_poll_attempt_eq.
    destruct (server_draft_rounds ids interval k s) as [-> ->].
    rewrite Hread. eexists. split; [reflexivity |].
    rewrite trace_sent, trace_draft_rounds, <- app_assoc. reflexivity.
  - intros Hwait. unfold Draft.pollUntilComplete.
    exists (draft_rounds ids interval maxRetries s).
    split; [| split; [apply trace_draft_rounds |
                      apply draft_round_events_count]].
    pose proof (draft_poll_loop_skip ids interval maxRetries 0 s Hwait) as Hskip.
    rewrite Nat.add_0_r in Hskip. exact Hskip.
Qed.

Lemma draft_poll_fails_fast_or_times_out_witness :
  fst (Draft.pollUntilComplete "1,2" 30 10000
         (start [json_ok pending_status;
                 Response (mkResponse 200 "OK" (BodyText "<html>"))]))
  = Throw (SyntaxError "Unexpected token in JSON")
  /\ fst (Draft.pollUntilComplete "1,2" 2 10000
            (start [json_ok pending_status; json_ok partial_status]))
     = Throw (Error "Polling timed out.").
Proof.
  split.
  - destruct (proj1 (draft_poll_fails_fast_or_times_out "1,2" 30%nat 10000%Z
                       (start [json_ok pending_status;
                               Response (mkResponse 200 "OK" (BodyText "<html>"))]))
                1%nat (SyntaxError "Unexpected token in JSON"))
      as (s' & Hrun & _).
    + lia.
    + intros [| i] Hi; [reflexivity | lia].
    + reflexivity.
    + rewrite Hrun. reflexivity.
  - destruct (proj2 (draft_poll_fails_fast_or_times_out "1,2" 2%nat 10000%Z
                       (start [json_ok pending_status; json_ok partial_status])))
      as (s' & Hrun & _).
    + intros [| [| i]] Hi; [reflexivity | reflexivity | lia].
    + rewrite Hrun. reflexivity.
Defined.

(** ** Writing the raw result: the draft and the compiled action *)

Lemma dist_write_results_network file results s :
  network (trace (snd (Dist.write_results file results s))) = network (trace s).
Proof.
  unfold Dist.write_results, bind, fs_do.
  destruct (disk s (Mkdir file)); cbn [snd];
    [| rewrite trace_record, network_app, app_nil_r; reflexivity].
  destruct results; cbn [throw snd record disk trace];
    try destruct (disk s (WriteFile file _)); cbn [snd record trace];
    rewrite !network_app, ?app_nil_r; cbn; rewrite ?app_nil_r; reflexivity.
Qed.

Lemma write_results_network file doc s :
  network (trace (snd (write_results file doc s))) = network (trace s).
Proof.
  rewrite write_results_eq.
  destruct (disk s (Mkdir file)); [destruct (disk s (WriteFile file doc)) |];
    cbn [snd]; rewrite !trace_record, !network_app; cbn;
    rewrite ?app_nil_r; reflexivity.
Qed.

(** X18.  The compiled action and the source agree on everything but the
    file: on the same world [Dist.main] and [main] issue the same
    requests and arm the same timers, in the same order. *)
Theorem compiled_and_source_agree_on_the_network :
  forall projectIds OUTPUT_FILE s,
    network (trace (snd (Dist.main projectIds OUTPUT_FILE s)))
    = network (trace (snd (main projectIds OUTPUT_FILE s))).
Proof.
  intros projectIds OUTPUT_FILE s. unfold Dist.main, main.
  destruct (trigger projectIds s) as [[[] | e] s1]; [| reflexivity].
  unfold collect, bind.
  destruct (pollUntilComplete projectIds default_maxRetries default_interval s1)
    as [[results | e] s2]; [| reflexivity].
  pose proof (dist_write_results_network OUTPUT_FILE results s2) as Hdist.
  destruct (Dist.write_results OUTPUT_FILE results s2) as [[[] | e] s3];
    cbn [snd] in Hdist |- *; rewrite Hdist;
    rewrite transformData_eq;
    (destruct (array_map transformProject results) as [projects | e'];
     [| reflexivity]);
    match goal with
    | |- context [write_results ?f ?d ?st] =>
        pose proof (write_results_network f d st) as Hsrc;
        destruct (write_results f d st) as [[[] | e''] s4];
        cbn [snd] in Hsrc |- *; rewrite Hsrc; reflexivity
    end.
Qed.

(** X19.  What the compiled action and the draft write is the poll result as
    it is.  With exit code 0 the last two events are the [mkdir] and
    the write of exactly the value the poll returned; when the poll
    returns [undefined] (a payload without the field) the directory is
    still created, nothing is written and the exit code is 1. *)
Theorem raw_result_is_written_verbatim :
  forall projectIds OUTPUT_FILE s,
    (forall s',
        Dist.main projectIds OUTPUT_FILE s = (0%nat, s') ->
        exists results s2,
          pollUntilComplete projectIds default_maxRetries default_interval
            (sent (trigger_request projectIds) s) = (Ok results, s2)
          /\ s' = record (EvFs (WriteFile OUTPUT_FILE results))
                    (record (EvFs (Mkdir OUTPUT_FILE)) s2))
    /\ (forall s',
          Draft.main projectIds OUTPUT_FILE s = (0%nat, s') ->
          exists results s2,
            Draft.pollUntilComplete projectIds default_maxRetries
              default_interval (sent (Draft.trigger_request projectIds) s)
            = (Ok results, s2)
            /\ s' = record (EvFs (WriteFile OUTPUT_FILE results))
                      (record (EvFs (Mkdir OUTPUT_FILE)) s2))
    /\ (forall functionResponse s2,
          answer_at s 0 = Ok functionResponse ->
          nullish functionResponse = false ->
          pollUntilComplete projectIds default_maxRetries default_interval
            (sent (trigger_request projectIds) s) = (Ok VUndefined, s2) ->
          Dist.main projectIds OUTPUT_FILE s
          = (1%nat, record (EvFs (Mkdir OUTPUT_FILE)) s2))
    /\ (forall res s2,
          payload (server s (calls s)) = Response res ->
          ok res = true ->
          Draft.pollUntilComplete projectIds default_maxRetries default_interval
            (sent (Draft.trigger_request projectIds) s) = (Ok VUndefined, s2) ->
          Draft.main projectIds OUTPUT_FILE s
          = (1%nat, record (EvFs (Mkdir OUTPUT_FILE)) s2)).
Proof.
  intros projectIds OUTPUT_FILE s. repeat split.
  - intros s' Hrun. unfold Dist.main in Hrun. rewrite trigger_eq in Hrun.
    destruct (answer_at s 0) as [d | e]; [| discriminate].
    destruct (get_prop d "success"); [| discriminate].
    destruct (pollUntilComplete projectIds default_maxRetries default_interval
                (sent (trigger_request projectIds) s))
      as [[results | e] s2]; [| discriminate].
    exists results, s2. split; [reflexivity |].
    unfold Dist.write_results, bind, fs_do in Hrun.
    destruct (disk s2 (Mkdir OUTPUT_FILE)); [| discriminate].
    destruct results; cbn [throw] in Hrun; try discriminate;
      cbn [record disk] in Hrun;
      match type of Hrun with
      | context [disk s2 ?op] => destruct (disk s2 op); [| discriminate]
      end;
      injection Hrun as <-; reflexivity.
  - intros s' Hrun. unfold Draft.main, Draft.trigger, bind, fetch in Hrun.
    destruct (payload (server s (calls s))) as [reason | res]; [discriminate |].
    destruct (ok res); cbn [negb ret] in Hrun; [| discriminate].
    destruct (Draft.pollUntilComplete projectIds default_maxRetries
                default_interval (sent (Draft.trigger_request projectIds) s))
      as [[results | e] s2]; [| discriminate].
    exists results, s2. split; [reflexivity |].
    unfold Draft.write_results, bind, fs_do in Hrun.
    destruct (disk s2 (Mkdir OUTPUT_FILE)); [| discriminate].
    destruct results; cbn [throw] in Hrun; try discriminate;
      cbn [record disk] in Hrun;
      match type of Hrun with
      | context [disk s2 ?op] => destruct (disk s2 op); [| discriminate]
      end;
      injection Hrun as <-; reflexivity.
  - intros functionResponse s2 H0 Hdata Hpoll. unfold Dist.main.
    rewrite (trigger_readable _ _ _ H0 Hdata), Hpoll.
    unfold Dist.write_results, bind, fs_do.
    destruct (disk s2 (Mkdir OUTPUT_FILE)); reflexivity.
  - intros res s2 Hres Hok Hpoll.
    unfold Draft.main, Draft.trigger, bind, fetch. rewrite Hres, Hok.
    cbn [negb ret]. rewrite Hpoll.
    unfold Draft.write_results, bind, fs_do.
    destruct (disk s2 (Mkdir OUTPUT_FILE)); reflexivity.
Qed.

Lemma raw_result_is_written_verbatim_witness :
  (exists results s2,
      pollUntilComplete "1,2" default_maxRetries default_interval
        (sent (trigger_request "1,2")
           (start [http_error 202 "Accepted"; json_ok completed_status;
                   json_ok two_proposals]))
      = (Ok results, s2)
      /\ snd (Dist.main "1,2" default_output_file
                (start [http_error 202 "Accepted"; json_ok completed_status;
                        json_ok two_proposals]))
         = record (EvFs (WriteFile default_output_file results))
             (record (EvFs (Mkdir default_output_file)) s2))
  /\ fst (Dist.main "1,2" default_output_file
            (start [http_error 202 "Accepted"; json_ok completed_status;
                    json_ok (VObj [("items", VArr [])])]))
     = 1%nat
  /\ fst (Draft.main "1,2" default_output_file
            (start [http_error 202 "Accepted";
                    json_ok (VObj [("status", VStr "completed")])]))
     = 1%nat.
Proof.
  split; [| split].
  - apply (proj1 (raw_result_is_written_verbatim "1,2" default_output_file
                    (start [http_error 202 "Accepted"; json_ok completed_status;
                            json_ok two_proposals]))).
    vm_compute. reflexivity.
  - rewrite (proj1 (proj2 (proj2
               (raw_result_is_written_verbatim "1,2" default_output_file
                  (start [http_error 202 "Accepted"; json_ok completed_status;
                          json_ok (VObj [("items", VArr [])])]))))
               (VObj [("success", VBool true); ("message", VStr "Empty response")])
               (snd (pollUntilComplete "1,2" default_maxRetries default_interval
                       (sent (trigger_request "1,2")
                          (start [http_error 202 "Accepted";
                                  json_ok completed_status;
                                  json_ok (VObj [("items", VArr [])])]))))
               eq_refl eq_refl);
      [reflexivity | vm_compute; reflexivity].
  - rewrite (proj2 (proj2 (proj2
               (raw_result_is_written_verbatim "1,2" default_output_file
                  (start [http_error 202 "Accepted";
                          json_ok (VObj [("status", VStr "completed")])]))))
               (mkResponse 202 "Accepted" BodyBlank)
               (snd (Draft.pollUntilComplete "1,2" default_maxRetries
                       default_interval
                       (sent (Draft.trigger_request "1,2")
                          (start [http_error 202 "Accepted";
                                  json_ok (VObj [("status", VStr "completed")])]))))
               eq_refl eq_refl);
      [reflexivity | vm_compute; reflexivity].
Defined.

(** ** More attempts, status bounds, the draft's body *)

Lemma poll_attempt_more_retries ids interval attempt s :
  forall maxRetries maxRetries' remaining remaining' r s1,
    (attempt + S remaining = maxRetries)%nat ->
    (attempt + S remaining' = maxRetries')%nat ->
    (remaining <= remaining')%nat ->
    poll_attempt ids maxRetries interval attempt s = (Ok r, s1) ->
    poll_attempt ids maxRetries' interval attempt s = (Ok r, s1).
Proof.
  intros maxRetries maxRetries' remaining remaining' r s1 Hidx Hidx' Hle.
  unfold poll_attempt, try_catch.
  destruct (poll_try ids interval s) as [[x | e] s0]; [auto |].
  rewrite !poll_catch_eq, (final_attempt _ _ _ Hidx), (final_attempt _ _ _ Hidx').
  destruct remaining as [| n]; [discriminate |].
  destruct remaining' as [| n']; [lia | auto].
Qed.

Lemma poll_loop_more_retries ids interval :
  forall remaining remaining' maxRetries maxRetries' attempt s v s',
    (attempt + remaining = maxRetries)%nat ->
    (attempt + remaining' = maxRetries')%nat ->
    (remaining <= remaining')%nat ->
    poll_loop ids maxRetries interval remaining attempt s = (Ok v, s') ->
    poll_loop ids maxRetries' interval remaining' attempt s = (Ok v, s').
Proof.
  induction remaining as [| remaining IH];
    intros remaining' maxRetries maxRetries' attempt s v s' Hidx Hidx' Hle Hrun;
    [discriminate Hrun |].
  destruct remaining' as [| remaining']; [lia |].
  rewrite poll_loop_step in Hrun |- *.
  destruct (poll_attempt ids maxRetries interval attempt s) as [[r | e] s1] eqn:Ha;
    [| discriminate].
  rewrite (poll_attempt_more_retries ids interval attempt s maxRetries maxRetries'
             remaining remaining' r s1 Hidx Hidx' ltac:(lia) Ha).
  destruct r as [x |]; [exact Hrun |].
  apply (IH remaining' maxRetries maxRetries' (S attempt)); try lia.
  exact Hrun.
Qed.

(** X6.  Allowing more attempts never loses a result: a poll that returns
    with [maxRetries] attempts allowed returns the same value, after the
    same requests and sleeps, with any larger number allowed. *)
Theorem more_retries_keep_a_success :
  forall ids interval maxRetries maxRetries' s v s',
    (maxRetries <= maxRetries')%nat ->
    pollUntilComplete ids maxRetries interval s = (Ok v, s') ->
    pollUntilComplete ids maxRetries' interval s = (Ok v, s').
Proof.
  intros ids interval maxRetries maxRetries' s v s' Hle Hrun.
  unfold pollUntilComplete in *.
  apply (poll_loop_more_retries ids interval maxRetries maxRetries'
           maxRetries maxRetries' 0 s v s'); auto.
Qed.

Lemma more_retries_keep_a_success_witness :
  fst (pollUntilComplete "1,2" default_maxRetries 10000
         (start [http_error 500 "Internal Server Error";
                 json_ok partial_status; json_ok two_proposals]))
  = Ok (prop two_proposals "proposals").
Proof.
  rewrite (more_retries_keep_a_success "1,2" 10000%Z 2%nat default_maxRetries
             (start [http_error 500 "Internal Server Error";
                     json_ok partial_status; json_ok two_proposals])
             (prop two_proposals "proposals")
             (snd (pollUntilComplete "1,2" 2 10000
                     (start [http_error 500 "Internal Server Error";
                             json_ok partial_status; json_ok two_proposals])))).
  - reflexivity.
  - unfold default_maxRetries. lia.
  - vm_compute. reflexivity.
Defined.

(** X7.  [makeRequest] goes by the status alone before it looks at the body:
    outside 200..299 it throws ['HTTP <status>: <statusText>'], whatever
    the body holds, JSON included; inside that range a body that can be
    read never makes it throw: JSON comes back as it is, and a blank or
    non-JSON text comes back as an object with [success: true] and no
    [hasData], which the poller takes as not finished. *)
Theorem makeRequest_goes_by_the_status :
  forall url m s res,
    payload (server s (calls s)) = Response res ->
    ((status res < 200 \/ 299 < status res)%nat ->
     makeRequest url m s
     = (Throw (Error ("HTTP " ++ string_of_nat (status res) ++ ": "
                        ++ statusText res)),
        sent (mkRequest m url None) s))
    /\ ((200 <= status res <= 299)%nat ->
        (forall data,
            res_body res = BodyJson data ->
            makeRequest url m s = (Ok data, sent (mkRequest m url None) s))
        /\ (res_body res = BodyBlank \/ (exists text, res_body res = BodyText text) ->
            exists data,
              makeRequest url m s = (Ok data, sent (mkRequest m url None) s)
              /\ prop data "success" = VBool true
              /\ completion_predicate data = Ok false)).
Proof.
  intros url m s res Hres. rewrite makeRequest_eq, Hres. cbn [reply_data].
  unfold ok. split.
  - intros Hout.
    replace ((200 <=? status res)%nat && (status res <=? 299)%nat) with false;
      [reflexivity |].
    symmetry. apply andb_false_iff.
    destruct Hout; [left; apply Nat.leb_gt | right; apply Nat.leb_gt]; lia.
  - intros [Hlo Hhi].
    replace ((200 <=? status res)%nat && (status res <=? 299)%nat) with true
      by (symmetry; apply andb_true_iff; split; apply Nat.leb_le; lia).
    split.
    + intros data ->. reflexivity.
    + intros [-> | [text ->]]; eexists; repeat split.
Qed.

Lemma makeRequest_goes_by_the_status_witness :
  makeRequest (with_ids statusUrl "1,2") GET
    (start [Response (mkResponse 404 "Not Found" (BodyJson completed_status))])
  = (Throw (Error "HTTP 404: Not Found"),
     sent (status_request "1,2")
       (start [Response (mkResponse 404 "Not Found" (BodyJson completed_status))]))
  /\ makeRequest (with_ids statusUrl "1,2") GET
       (start [Response (mkResponse 299 "Odd" (BodyJson completed_status))])
     = (Ok completed_status,
        sent (status_request "1,2")
          (start [Response (mkResponse 299 "Odd" (BodyJson completed_status))])).
Proof.
  split.
  - apply (proj1 (makeRequest_goes_by_the_status (with_ids statusUrl "1,2") GET
                    (start [Response (mkResponse 404 "Not Found"
                                        (BodyJson completed_status))])
                    (mkResponse 404 "Not Found" (BodyJson completed_status))
                    eq_refl)).
    right. cbn. lia.
  - apply (proj1 (proj2 (makeRequest_goes_by_the_status
                           (with_ids statusUrl "1,2") GET
                           (start [Response (mkResponse 299 "Odd"
                                               (BodyJson completed_status))])
                           (mkResponse 299 "Odd" (BodyJson completed_status))
                           eq_refl)
                   ltac:(cbn; lia))).
    reflexivity.
Defined.

Lemma join_split s : join "," (split "," s) = s.
Proof.
  induction s as [| c s IH]; [reflexivity |].
  cbn [split]. destruct (Ascii.eqb_spec c ",") as [-> | _].
  - pose proof (split_not_nil "," s) as Hne.
    destruct (split "," s) as [| seg segs]; [congruence |].
    rewrite join_cons, IH. reflexivity.
  - pose proof (split_not_nil "," s) as Hne.
    destruct (split "," s) as [| seg segs]; [congruence |].
    rewrite <- IH. destruct segs; reflexivity.
Qed.

Lemma split_length s :
  List.length (split "," s) = S (occurrences "," s).
Proof.
  induction s as [| c s IH]; [reflexivity |].
  cbn [split occurrences]. destruct (Ascii.eqb c ","); cbn [List.length].
  - rewrite IH. reflexivity.
  - destruct (split "," s) as [| seg segs]; [discriminate IH | exact IH].
Qed.

Lemma split_segments s :
  Forall (fun id => occurrences "," id = 0%nat) (split "," s).
Proof.
  induction s as [| c s IH]; [repeat constructor |].
  cbn [split]. destruct (Ascii.eqb c ",") eqn:Hc.
  - constructor; [reflexivity | exact IH].
  - destruct (split "," s) as [| seg segs].
    + constructor; [| constructor]. cbn [occurrences]. rewrite Hc. reflexivity.
    + inversion IH as [| ? ? Hseg Hsegs]; subst.
      constructor; [| exact Hsegs]. cbn [occurrences]. rewrite Hc. exact Hseg.
Qed.

(** X20.  The body of the draft's trigger request lists the
    comma-separated segments of the input and nothing else: it parses to
    a list of one more identifier than the input has commas, none of
    which holds a comma, and which joined by commas give the input back.
    So the [main] of [src/index.js] sends an empty input as the single
    empty identifier, in the first request of its run.  The [main] of
    [src/src/index.ts] does not get that far: with an input that is
    unset or empty it ends with exit code 1 before any request, and
    otherwise runs as the other. *)
Theorem draft_body_lists_every_segment :
  (forall csv,
   exists body ids,
     req_body (Draft.trigger_request csv) = Some body
     /\ parse_projectIds body = Some ids
     /\ List.length ids = S (occurrences "," csv)
     /\ Forall (fun id => occurrences "," id = 0%nat) ids
     /\ join "," ids = csv
     /\ (csv = EmptyString -> ids = [EmptyString]))
  /\ (forall outputFile s,
      exists evs,
        trace (snd (Draft.main EmptyString outputFile s))
        = (trace s ++ EvRequest (Draft.trigger_request EmptyString) :: evs)%list)
  /\ (forall projectIds outputFile s,
        projectIds = None \/ projectIds = Some EmptyString
        \/ outputFile = None \/ outputFile = Some EmptyString ->
        draft_ts_main projectIds outputFile s = (1%nat, s))
  /\ (forall projectIds outputFile s,
        projectIds <> EmptyString ->
        outputFile <> EmptyString ->
        draft_ts_main (Some projectIds) (Some outputFile) s
        = Draft.main projectIds outputFile s).
Proof.
  split; [| split; [| split]].
  - intros csv. exists (stringify_projectIds (split "," csv)), (split "," csv).
    split; [reflexivity |].
    split; [apply parse_stringify_projectIds, split_not_nil |].
    split; [apply split_length |].
    split; [apply split_segments |].
    split; [apply join_split |].
    intros ->. reflexivity.
  - intros outputFile s.
    destruct (draft_main_trace EmptyString outputFile s) as (evs & Htrace & _).
    exists evs. exact Htrace.
  - intros projectIds outputFile s H. unfold draft_ts_main.
    destruct projectIds as [ids |]; [| reflexivity].
    destruct outputFile as [file |]; [| reflexivity].
    destruct H as [H | [H | [H | H]]]; try discriminate H.
    + injection H as ->. reflexivity.
    + injection H as ->. rewrite orb_true_r. reflexivity.
  - intros projectIds outputFile s Hids Hfile. unfold draft_ts_main.
    apply String.eqb_neq in Hids, Hfile. rewrite Hids, Hfile. reflexivity.
Qed.

Lemma draft_body_lists_every_segment_witness :
  (exists body,
     req_body (Draft.trigger_request EmptyString) = Some body
     /\ parse_projectIds body = Some [EmptyString])
  /\ draft_ts_main (Some EmptyString) (Some "out/results.json")
       (start [json_ok completed_status])
     = (1%nat, start [json_ok completed_status])
  /\ draft_ts_main (Some "1,2") (Some "out/results.json")
       (start [json_ok completed_status])
     = Draft.main "1,2" "out/results.json" (start [json_ok completed_status]).
Proof.
  split; [| split].
  - destruct (proj1 draft_body_lists_every_segment EmptyString)
      as (body & ids & Hbody & Hparse & _ & _ & _ & Hempty).
    exists body. rewrite (Hempty eq_refl) in Hparse. split; assumption.
  - apply (proj1 (proj2 (proj2 draft_body_lists_every_segment))).
    right. left. reflexivity.
  - apply (proj2 (proj2 (proj2 draft_body_lists_every_segment)));
      discriminate.
Defined.
